(** * Image-Auto-Rotation-Fixer: the transform-and-encode pipeline

    A shallow embedding of [ImageProcessor.getOrientation] and
    [ImageProcessor.process] (src/ui/AppController.js, second document of the
    file) together with the properties of the geometry resolver, the
    size-constrained encoder and the orientation reader. *)

From Stdlib Require Import ZArith QArith Qround Qabs Qpower Qminmax Lia Lqa.
From Stdlib Require Import SpecFloat.
From Stdlib Require Import Bool List String Ascii.
Import ListNotations.

Local Open Scope Z_scope.

(** ** JavaScript numbers

    A JavaScript number is an IEEE-754 binary64 value.  Finite values are
    kept as rationals and every arithmetic operation is the exact rational
    operation followed by [fl], rounding to 53 significant bits with ties to
    even.  Integers enter through [of_Z]; pixel dimensions, targets and
    byte sizes are below 2^53 and so are exact.  The exponent range is not
    bounded: [fl] agrees with binary64 on results whose size lies between
    2^-1022 and 2^1024, and does not overflow to an infinity above nor lose
    bits below.  Products and quotients of image sides and targets stay far
    inside that range when the sides are below 2^32 and the targets below
    2^51; a statement that needs such bounds carries them (see [Range]).
    The sign of zero is not tracked (no divisor in [process] can be a
    negative zero). *)

Module JSNumber.

Local Open Scope Q_scope.

Definition pow2 (k : Z) : Q := 2 ^ k.

(** Nearest integer, ties to the even one. *)
Definition rne (x : Q) : Z :=
  let f := Qfloor x in
  match Qcompare (x - inject_Z f) (1 # 2) with
  | Lt => f
  | Gt => (f + 1)%Z
  | Eq => if Z.even f then f else (f + 1)%Z
  end.

(** Exponent of the leading bit of a positive rational: the [e] with
    [2^e <= q < 2^(e+1)]. *)
Definition ilog2 (q : Q) : Z :=
  let e := (Z.log2 (Qnum q) - Z.log2 (Zpos (Qden q)))%Z in
  if Qle_bool (pow2 e) q then e else (e - 1)%Z.

Definition fl (q : Q) : Q :=
  if Qeq_bool q 0 then 0
  else
    let e := ilog2 (Qabs q) in
    Qred (inject_Z (rne (q * pow2 (52 - e))) * pow2 (e - 52)).

Inductive number : Type :=
| NaN : number
| Inf (negative : bool) : number
| Fin (q : Q) : number.

Definition of_Z (z : Z) : number := Fin (inject_Z z).

Definition Qneg (q : Q) : bool := negb (Qle_bool 0 q).

Definition nadd (a b : number) : number :=
  match a, b with
  | NaN, _ | _, NaN => NaN
  | Inf s, Inf t => if Bool.eqb s t then Inf s else NaN
  | Inf s, Fin _ | Fin _, Inf s => Inf s
  | Fin x, Fin y => Fin (fl (x + y))
  end.

Definition nmul (a b : number) : number :=
  match a, b with
  | NaN, _ | _, NaN => NaN
  | Inf s, Inf t => Inf (xorb s t)
  | Inf s, Fin y | Fin y, Inf s =>
      if Qeq_bool y 0 then NaN else Inf (xorb s (Qneg y))
  | Fin x, Fin y => Fin (fl (x * y))
  end.

Definition ndiv (a b : number) : number :=
  match a, b with
  | NaN, _ | _, NaN => NaN
  | Inf _, Inf _ => NaN
  | Inf s, Fin y => Inf (xorb s (Qneg y))
  | Fin _, Inf _ => Fin 0
  | Fin x, Fin y =>
      if Qeq_bool y 0 then (if Qeq_bool x 0 then NaN else Inf (Qneg x))
      else Fin (fl (x / y))
  end.

(** [a <= b] *)
Definition nleb (a b : number) : bool :=
  match a, b with
  | NaN, _ | _, NaN => false
  | Inf s, Inf t => orb s (negb t)
  | Inf s, Fin _ => s
  | Fin _, Inf t => negb t
  | Fin x, Fin y => Qle_bool x y
  end.

(** [Math.min] *)
Definition nmin (a b : number) : number :=
  match a, b with
  | NaN, _ | _, NaN => NaN
  | _, _ => if nleb a b then a else b
  end.

(** [Math.round]: the nearest integer, ties towards positive infinity. *)
Definition nround (a : number) : number :=
  match a with
  | Fin x => Fin (inject_Z (Qfloor (x + (1 # 2))))
  | _ => a
  end.

(** Numeric literals of the source. *)
Definition lit (q : Q) : number := Fin (fl q).

End JSNumber.

(** ** The standard library's binary64

    [SpecFloat] implements the IEEE-754 operations on mantissa and
    exponent.  It is used to check [JSNumber] on the inputs of the examples
    below. *)

Module Binary64.

Import JSNumber.

Definition prec : Z := 53.
Definition emax : Z := 1024.

Definition of_int (z : Z) : spec_float := binary_normalize prec emax z 0 false.
Definition add : spec_float -> spec_float -> spec_float := SFadd prec emax.
Definition mul : spec_float -> spec_float -> spec_float := SFmul prec emax.
Definition div : spec_float -> spec_float -> spec_float := SFdiv prec emax.

Definition min (a b : spec_float) : spec_float :=
  match SFcompare a b with
  | Some Gt => b
  | Some _ => a
  | None => S754_nan
  end.

Definition to_number (f : spec_float) : number :=
  match f with
  | S754_zero _ => Fin 0
  | S754_infinity s => Inf s
  | S754_nan => NaN
  | S754_finite s m e =>
      Fin (Qred ((if s then -1 else 1) * inject_Z (Zpos m) * pow2 e))
  end.

End Binary64.

(** ** ImageProcessor.process *)

Module ImageProcessor.

Import JSNumber.

Local Open Scope string_scope.
Local Open Scope Z_scope.

(** A value read from the options object: absent, [null], or a number
    ([parseInt] yields [NaN] on an empty input). *)
Inductive jsval : Type :=
| Undefined : jsval
| Null : jsval
| Num (n : number) : jsval.

(** Truthiness, as tested by [&& targetWidth] and [!options.maxSizeBytes]. *)
Definition truthy (v : jsval) : bool :=
  match v with
  | Num (Fin q) => negb (Qeq_bool q 0)
  | Num (Inf _) => true
  | _ => false
  end.

Definition to_number (v : jsval) : number :=
  match v with
  | Undefined => NaN
  | Null => Fin 0
  | Num n => n
  end.

(** The decoded [HTMLImageElement]: its pixel dimensions. *)
Record Image : Type := { width : Z; height : Z }.

(** A [File]: its MIME type and what decoding it gives ([None] when the
    browser fires [onerror]). *)
Record File : Type := { name : string; type : string; decoded : option Image }.

Record Options : Type := {
  orientation : option Z;
  manualRotation : option Z;
  resizeMode : option string;
  targetWidth : jsval;
  targetHeight : jsval;
  maxSizeBytes : jsval;
  exportFormat : option string
}.

(** The same options with one field replaced. *)
Definition with_orientation (o : option Z) (options : Options) : Options :=
  {| orientation := o;
     manualRotation := manualRotation options;
     resizeMode := resizeMode options;
     targetWidth := targetWidth options;
     targetHeight := targetHeight options;
     maxSizeBytes := maxSizeBytes options;
     exportFormat := exportFormat options |}.

Definition with_resizeMode (m : option string) (options : Options) : Options :=
  {| orientation := orientation options;
     manualRotation := manualRotation options;
     resizeMode := m;
     targetWidth := targetWidth options;
     targetHeight := targetHeight options;
     maxSizeBytes := maxSizeBytes options;
     exportFormat := exportFormat options |}.

(** Default of a destructured field. *)
Definition or_default {A : Type} (field : option A) (d : A) : A :=
  match field with Some a => a | None => d end.

Inductive Promise (A : Type) : Type :=
| Rejected : Promise A
| Resolved (a : A) : Promise A.
Arguments Rejected {A}.
Arguments Resolved {A} a.

Definition loadImage (file : File) : Promise Image :=
  match decoded file with
  | Some img => Resolved img
  | None => Rejected
  end.

(** The drawing performed on the canvas: its size, then [translate],
    [rotate] (kept in degrees), [scale] and [drawImage].  [canvas_width]
    and [canvas_height] are the numbers assigned to [canvas.width] and
    [canvas.height], that is [finalW] and [finalH]; what the element then
    holds is the subject of [Range.dom_sized]. *)
Record Canvas : Type := {
  canvas_width : number;
  canvas_height : number;
  translate : number * number;
  rotate : Z;
  scale : number * number;
  drawImage : Image
}.

Definition mimeType (file : File) (options : Options) : string :=
  let exportFormat := or_default (exportFormat options) "auto" in
  if String.eqb exportFormat "png" then "image/png"
  else if String.eqb exportFormat "jpeg" then "image/jpeg"
  else if truthy (maxSizeBytes options) then "image/jpeg"
  else if String.eqb (type file) "image/png" then "image/png"
  else "image/jpeg".

Definition exif_swaps (orientation : Z) : bool :=
  (5 <=? orientation) && (orientation <=? 8).

(** Visual dimensions after the EXIF fix and the manual rotation. *)
Definition upright (img : Image) (orientation manualRotation : Z)
  : number * number :=
  let uprightW := if exif_swaps orientation then height img else width img in
  let uprightH := if exif_swaps orientation then width img else height img in
  if (manualRotation =? 90) || (manualRotation =? 270)
  then (of_Z uprightH, of_Z uprightW)
  else (of_Z uprightW, of_Z uprightH).

(** Final export dimensions. *)
Definition final_size (uprightW uprightH : number) (resizeMode : string)
    (targetWidth targetHeight : jsval) : number * number :=
  let tw := to_number targetWidth in
  let th := to_number targetHeight in
  let '(finalW, finalH) :=
    if String.eqb resizeMode "width" && truthy targetWidth then
      (tw, nmul (ndiv uprightH uprightW) tw)
    else if String.eqb resizeMode "height" && truthy targetHeight then
      (nmul (ndiv uprightW uprightH) th, th)
    else if String.eqb resizeMode "both-fit" && truthy targetWidth
            && truthy targetHeight then
      let ratio := nmin (ndiv tw uprightW) (ndiv th uprightH) in
      (nmul uprightW ratio, nmul uprightH ratio)
    else if String.eqb resizeMode "both-force" && truthy targetWidth
            && truthy targetHeight then
      (tw, th)
    else (uprightW, uprightH) in
  (nround finalW, nround finalH).

Definition exifDeg (orientation : Z) : Z :=
  if orientation =? 3 then 180
  else if orientation =? 6 then 90
  else if orientation =? 8 then 270
  else 0.

Definition totalDeg (orientation manualRotation : Z) : Z :=
  Z.rem (exifDeg orientation + manualRotation) 360.

(** Steps 1 to 3 of [process]: everything done to the canvas. *)
Definition draw (img : Image) (options : Options) : Canvas :=
  let orientation := or_default (orientation options) 1 in
  let manualRotation := or_default (manualRotation options) 0 in
  let resizeMode := or_default (resizeMode options) "none" in
  let '(uprightW, uprightH) := upright img orientation manualRotation in
  let '(finalW, finalH) :=
    final_size uprightW uprightH resizeMode
      (targetWidth options) (targetHeight options) in
  let totalDeg := totalDeg orientation manualRotation in
  {| canvas_width := finalW;
     canvas_height := finalH;
     translate := (ndiv finalW (of_Z 2), ndiv finalH (of_Z 2));
     rotate := totalDeg;
     scale :=
       if (totalDeg =? 90) || (totalDeg =? 270)
       then (ndiv finalH (of_Z (width img)), ndiv finalW (of_Z (height img)))
       else (ndiv finalW (of_Z (width img)), ndiv finalH (of_Z (height img)));
     drawImage := img |}.

(** The encoder.  [canvas.toBlob] is the browser's; it is taken as a
    function of the canvas, the MIME type and the quality, and every call
    made to it is logged. *)
Section Encoder.

Variable Blob : Type.
Variable size : Blob -> Z.
Variable toBlob : Canvas -> string -> number -> Blob.

(** The variables of the search, and [calls]: the qualities [getBlob] was
    called with so far (a log, not a variable of the source). *)
Record Search : Type := {
  minQ : number;
  maxQ : number;
  bestBlob : option Blob;
  attempts : Z;
  calls : list number
}.

Section Search.

Variable getBlob : number -> Blob.
Variable limit : number.

Definition fits (blob : Blob) : bool := nleb (of_Z (size blob)) limit.

(** One turn of the [while] loop. *)
Definition search_step (s : Search) : Search :=
  let midQ := ndiv (nadd (minQ s) (maxQ s)) (of_Z 2) in
  let blob := getBlob midQ in
  if fits blob then
    {| minQ := midQ; maxQ := maxQ s; bestBlob := Some blob;
       attempts := attempts s + 1; calls := (calls s ++ [midQ])%list |}
  else
    {| minQ := minQ s; maxQ := midQ; bestBlob := bestBlob s;
       attempts := attempts s + 1; calls := (calls s ++ [midQ])%list |}.

(** [while (attempts < 10)], unfolded at most [fuel] times. *)
Fixpoint search_loop (fuel : nat) (s : Search) : Search :=
  match fuel with
  | O => s
  | S fuel' =>
      if attempts s <? 10 then search_loop fuel' (search_step s) else s
  end.

(** The loop, with the fuel its variant [10 - attempts] calls for. *)
Definition search (s : Search) : Search :=
  search_loop (Z.to_nat (10 - attempts s)) s.

End Search.

(** The promise returned at the end of [process]: the calls made to
    [getBlob], in order, and the blob it resolves with. *)
Definition encode (canvas : Canvas) (mimeType : string) (maxSizeBytes : jsval)
  : list number * Blob :=
  let quality := lit (95 # 100) in
  let getBlob := toBlob canvas mimeType in
  if negb (truthy maxSizeBytes) || String.eqb mimeType "image/png" then
    ([quality], getBlob quality)
  else
    let limit := to_number maxSizeBytes in
    let maxBlob := getBlob (lit 1) in
    if fits limit maxBlob then ([lit 1], maxBlob)
    else
      let s := search getBlob limit
                 {| minQ := lit (1 # 100); maxQ := lit 1; bestBlob := None;
                    attempts := 0; calls := [lit 1] |} in
      match bestBlob s with
      | Some blob => (calls s, blob)
      | None => ((calls s ++ [lit (1 # 100)])%list, getBlob (lit (1 # 100)))
      end.

(** What a run of [process] does and returns. *)
Record Run : Type := {
  canvas : Canvas;
  mime : string;
  encodings : list number;
  blob : Blob
}.

Definition process (file : File) (options : Options) : Promise Run :=
  match loadImage file with
  | Rejected => Rejected
  | Resolved img =>
      let canvas := draw img options in
      let mimeType := mimeType file options in
      let '(log, blob) := encode canvas mimeType (maxSizeBytes options) in
      Resolved {| canvas := canvas; mime := mimeType;
                  encodings := log; blob := blob |}
  end.

End Encoder.

Arguments minQ {Blob}.
Arguments maxQ {Blob}.
Arguments bestBlob {Blob}.
Arguments attempts {Blob}.
Arguments calls {Blob}.
Arguments canvas {Blob}.
Arguments mime {Blob}.
Arguments encodings {Blob}.
Arguments blob {Blob}.

End ImageProcessor.

(** ** ImageProcessor.getOrientation *)

Module OrientationReader.

(** What [EXIF.getData] does with the callback it is given: the
    calls it makes before it returns (each with the tag [EXIF.getTag] then
    reads, [None] for [undefined]), whether it then throws, and the calls
    it makes later, in the order it makes them, each with its time in
    milliseconds. *)
Record ExifRun : Type := {
  sync_calls : list (option Z);
  throws : bool;
  later_calls : list (Z * option Z)
}.

Inductive Event : Type :=
| Callback (result : option Z)
| Caught
| Timeout.

(** The promise: whether [accepted] is set, and the calls made to
    [resolve], each with the time it was made at. *)
Record State : Type := { accepted : bool; resolved : list (Z * Z) }.

Definition safeResolve (now val : Z) (st : State) : State :=
  if accepted st then st
  else {| accepted := true; resolved := resolved st ++ [(now, val)] |}.

(** [result || 1] *)
Definition or_1 (result : option Z) : Z :=
  match result with
  | Some r => if r =? 0 then 1 else r
  | None => 1
  end.

Definition handle (st : State) (ev : Z * Event) : State :=
  let '(now, e) := ev in
  match e with
  | Callback result => safeResolve now (or_1 result) st
  | Caught => safeResolve now 1 st
  | Timeout => if accepted st then st else safeResolve now 1 st
  end.

Definition TIMEOUT_MS : Z := 1500.

(** The order in which the event loop delivers the later calls and the
    timer; [timer_first] says which goes first when both are due at the same
    millisecond. *)
Fixpoint deliveries (timer_first : bool) (later : list (Z * option Z))
  : list (Z * Event) :=
  match later with
  | [] => [(TIMEOUT_MS, Timeout)]
  | (t, result) :: rest =>
      if (if timer_first then TIMEOUT_MS <=? t else TIMEOUT_MS <? t)
      then (TIMEOUT_MS, Timeout)
             :: map (fun c => (fst c, Callback (snd c))) later
      else (t, Callback result) :: deliveries timer_first rest
  end.

(** Everything that happens, in order: the executor runs [EXIF.getData]
    inside [try], the [catch] block if it threw, registers the timer, and
    the event loop takes over. *)
Definition events (exif : ExifRun) (timer_first : bool) : list (Z * Event) :=
  map (fun result => (0, Callback result)) (sync_calls exif)
  ++ (if throws exif then [(0, Caught)] else [])
  ++ deliveries timer_first (later_calls exif).

Definition run (evs : list (Z * Event)) : State :=
  fold_left handle evs {| accepted := false; resolved := [] |}.

Definition getOrientation (exif : ExifRun) (timer_first : bool) : State :=
  run (events exif timer_first).

(** The value an event resolves the promise with when it is the first. *)
Definition value_of (e : Event) : Z :=
  match e with
  | Callback result => or_1 result
  | Caught => 1
  | Timeout => 1
  end.

End OrientationReader.

(** ** The vocabulary of the orientation reader's properties *)

Module OrientationSpec.

Import OrientationReader.

(** The first of parse success, parse failure and timeout to complete: a
    callback made before [EXIF.getData] returns; else the throw; else the
    first later callback when it comes before the timer, and the timer
    when it does not or when there is none.  A callback due at the very
    millisecond of the timer comes first unless the timer is delivered
    first. *)
Definition first_completion (exif : ExifRun) (timer_first : bool) : Z * Event :=
  match sync_calls exif, throws exif, later_calls exif with
  | result :: _, _, _ => (0, Callback result)
  | [], true, _ => (0, Caught)
  | [], false, (t, result) :: _ =>
      if (t <? TIMEOUT_MS) || (negb timer_first && (t =? TIMEOUT_MS))
      then (t, Callback result)
      else (TIMEOUT_MS, Timeout)
  | [], false, [] => (TIMEOUT_MS, Timeout)
  end.

End OrientationSpec.

(** ** The vocabulary of the specification *)

Module Spec.

Import JSNumber ImageProcessor.

(** Code 1 is 0 degrees, 3 is 180, 6 is 90, 8 is 270; the mirrored codes
    2, 4, 5 and 7 count as 0. *)
Definition orientationRotation (code : Z) : Z :=
  match code with
  | 3 => 180
  | 6 => 90
  | 8 => 270
  | _ => 0
  end.

Definition netRotation (code manualRotation : Z) : Z :=
  (orientationRotation code + manualRotation) mod 360.

Definition quarter_turn (deg : Z) : bool := (deg =? 90) || (deg =? 270).

Definition net_rotation_rule (code manualRotation : Z) (c : Canvas) : Prop :=
  rotate c = netRotation code manualRotation.

(** Width and height change places exactly on a net quarter turn. *)
Definition swap_rule (img : Image) (code manualRotation : Z) (c : Canvas)
  : Prop :=
  (canvas_width c, canvas_height c) =
    if quarter_turn (netRotation code manualRotation)
    then (of_Z (height img), of_Z (width img))
    else (of_Z (width img), of_Z (height img)).

(** The canvas is [w] by [h] pixels. *)
Definition sized (c : Canvas) (w h : Z) : Prop :=
  canvas_width c = of_Z w /\ canvas_height c = of_Z h.

(** 'both-fit' scales both sides by [min (tw / uprightW) (th / uprightH)],
    taken here as the exact rational. *)
Definition fit_scale (uprightW uprightH tw th : Z) : Q :=
  Qmin (inject_Z tw / inject_Z uprightW) (inject_Z th / inject_Z uprightH).

(** A side of [final] pixels is a side of [upright] pixels scaled by
    [scale], up to rounding: less than one pixel away. *)
Definition scaled_by (scale : Q) (upright final : Z) : Prop :=
  (Qabs (inject_Z final - inject_Z upright * scale) < 1)%Q.


(** A target that is unset, not a number, or zero. *)
Inductive missing : jsval -> Prop :=
| missing_undefined : missing Undefined
| missing_null : missing Null
| missing_nan : missing (Num NaN)
| missing_zero : missing (Num (of_Z 0)).

Local Open Scope string_scope.


(** A resize mode is selected and a target it needs is missing. *)
Definition target_missing (resizeMode : string) (tw th : jsval) : Prop :=
  (resizeMode = "width" /\ missing tw) \/
  (resizeMode = "height" /\ missing th) \/
  ((resizeMode = "both-fit" \/ resizeMode = "both-force") /\
   (missing tw \/ missing th)).

(** The ceiling is not given. *)
Definition absent (v : jsval) : Prop := v = Undefined \/ v = Null.

(** The search of the specification: each probe is the midpoint of the
    current bounds; a probe that meets the ceiling becomes the lower bound,
    one that does not becomes the upper bound. *)
Definition midpoint (lo hi : number) : number := ndiv (nadd lo hi) (of_Z 2).

Fixpoint bisection (meets : number -> bool) (lo hi : number)
    (probes : list number) : Prop :=
  match probes with
  | [] => True
  | q :: rest =>
      q = midpoint lo hi /\
      if meets q then bisection meets q hi rest else bisection meets lo q rest
  end.

(** The last probe that met the ceiling, if any did. *)
Definition last_meeting (meets : number -> bool) (probes : list number)
  : option number :=
  find meets (rev probes).


End Spec.

(** ** A sample file and encoder, for running the model *)

Module Sample.

Import JSNumber ImageProcessor.

(** An encoder whose blob remembers what it encodes and whose size grows
    with the quality: [floor (100000 * q)] bytes. *)
Record Blob : Type := { of_canvas : Canvas; of_type : string; quality : number }.

Definition size (b : Blob) : Z :=
  match quality b with
  | Fin q => Qfloor (100000 * q)%Q
  | _ => 0
  end.

Definition toBlob (c : Canvas) (mimeType : string) (q : number) : Blob :=
  {| of_canvas := c; of_type := mimeType; quality := q |}.

Definition photo (w h : Z) : File :=
  {| name := "photo.jpg"; type := "image/jpeg";
     decoded := Some {| width := w; height := h |} |}.

Definition options (orientation manualRotation : Z) (resizeMode : string)
    (targetWidth targetHeight maxSizeBytes : jsval) : Options :=
  {| orientation := Some orientation;
     manualRotation := Some manualRotation;
     resizeMode := Some resizeMode;
     targetWidth := targetWidth;
     targetHeight := targetHeight;
     maxSizeBytes := maxSizeBytes;
     exportFormat := Some "auto"%string |}.

Definition int (z : Z) : jsval := Num (of_Z z).

Definition process := ImageProcessor.process Blob size toBlob.

End Sample.

(** ** The vocabulary of the rounding properties *)

Module NumberSpec.

Import JSNumber.

(** A positive binary64 value: a mantissa below [2^53] times a power of two. *)
Definition representable (q : Q) : Prop :=
  exists m e, (0 < m < 2 ^ 53)%Z /\ (q == inject_Z m * pow2 e)%Q.

(** [q] is a finite number between [lo] and [hi]. *)
Definition between (lo hi : Q) (q : number) : Prop :=
  exists x, q = Fin x /\ (lo <= x <= hi)%Q.

End NumberSpec.

(** ** The ranges of the browser *)

Module Range.

Import JSNumber ImageProcessor.

(** [canvas.width] and [canvas.height] are DOM unsigned longs limited to
    non-negative values: an integer from 0 to [2^31 - 1] assigned to one
    of them is read back as it is, a larger one is not. *)
Definition CANVAS_MAX : Z := 2 ^ 31 - 1.

Definition dom_side (z : Z) : Prop := 0 <= z <= CANVAS_MAX.

(** The canvas element is [w] by [h] pixels: these are the numbers
    assigned, and the element keeps both. *)
Definition dom_sized (c : Canvas) (w h : Z) : Prop :=
  Spec.sized c w h /\ dom_side w /\ dom_side h.





End Range.

(** ** Options with another ceiling *)

Module ProcessOptions.

Import ImageProcessor.

(** [options] with [maxSizeBytes] replaced by [v]. *)
Definition with_maxSizeBytes (v : jsval) (options : Options) : Options :=
  {| orientation := orientation options;
     manualRotation := manualRotation options;
     resizeMode := resizeMode options;
     targetWidth := targetWidth options;
     targetHeight := targetHeight options;
     maxSizeBytes := v;
     exportFormat := exportFormat options |}.

End ProcessOptions.

(** ** DropZone *)

Module DropZone.

(** [f.type.startsWith('image/')] *)
Definition is_image (f : ImageProcessor.File) : bool :=
  String.prefix "image/" (ImageProcessor.type f).

(** The listeners either call [onFilesSelected] with a list of files
    ([Some]) or do not call it ([None]). *)

(** 'change' on the file input: every chosen file is passed on. *)
Definition change (files : list ImageProcessor.File)
  : option (list ImageProcessor.File) :=
  match files with
  | [] => None
  | _ => Some files
  end.

(** 'drop': the files whose type starts with 'image/' are passed on. *)
Definition drop (files : list ImageProcessor.File)
  : option (list ImageProcessor.File) :=
  match files with
  | [] => None
  | _ => Some (filter is_image files)
  end.

End DropZone.

(** ** AppController

    The controller's [files] and [state], the parts of the page its
    handlers write to, and the handlers.  The preview cards that
    [renderList] builds, the [id] and [previewUrl] of an item and the
    console messages are left out.  [handleFiles] and [handleDownload] are
    run to completion: no other event is handled while they wait. *)

Module AppController.

Import JSNumber.

Local Open Scope string_scope.
Local Open Scope Z_scope.

Record Item : Type := {
  file : ImageProcessor.File;
  originalOrientation : Z
}.

Record State : Type := {
  autoFix : bool;
  manualRotation : Z;
  resizeMode : string;
  targetWidth : ImageProcessor.jsval;
  targetHeight : ImageProcessor.jsval;
  stripExif : bool;
  exportFormat : string;
  maxSizeBytes : ImageProcessor.jsval
}.

(** The elements the handlers change: the 'hidden' class of three
    sections, the size input and its hint (absent when the page has no
    '.input-hint': its text and its 'disabled' class), the download button. *)
Record Page : Type := {
  dropZone_hidden : bool;
  editorSection_hidden : bool;
  resizeInputs_hidden : bool;
  maxSizeInput_disabled : bool;
  sizeHint : option (string * bool);
  downloadBtn_text : string;
  downloadBtn_disabled : bool
}.

Record Controller : Type := {
  files : list Item;
  state : State;
  page : Page
}.

(** The constructor, on a page as it is loaded. *)
Definition constructor (page : Page) : Controller :=
  {| files := [];
     state := {| autoFix := true; manualRotation := 0; resizeMode := "none";
                 targetWidth := ImageProcessor.Null;
                 targetHeight := ImageProcessor.Null;
                 stripExif := true; exportFormat := "auto";
                 maxSizeBytes := ImageProcessor.Undefined |};
     page := page |}.

Definition with_state (f : State -> State) (c : Controller) : Controller :=
  {| files := files c; state := f (state c); page := page c |}.

Definition with_page (f : Page -> Page) (c : Controller) : Controller :=
  {| files := files c; state := state c; page := f (page c) |}.

(** *** initListeners *)

Definition autoFix_change (checked : bool) : Controller -> Controller :=
  with_state (fun s =>
    {| autoFix := checked; manualRotation := manualRotation s;
       resizeMode := resizeMode s; targetWidth := targetWidth s;
       targetHeight := targetHeight s; stripExif := stripExif s;
       exportFormat := exportFormat s; maxSizeBytes := maxSizeBytes s |}).

Definition stripExif_change (checked : bool) : Controller -> Controller :=
  with_state (fun s =>
    {| autoFix := autoFix s; manualRotation := manualRotation s;
       resizeMode := resizeMode s; targetWidth := targetWidth s;
       targetHeight := targetHeight s; stripExif := checked;
       exportFormat := exportFormat s; maxSizeBytes := maxSizeBytes s |}).

Definition set_manualRotation (m : Z) (s : State) : State :=
  {| autoFix := autoFix s; manualRotation := m;
     resizeMode := resizeMode s; targetWidth := targetWidth s;
     targetHeight := targetHeight s; stripExif := stripExif s;
     exportFormat := exportFormat s; maxSizeBytes := maxSizeBytes s |}.

Definition rotateLeft_click : Controller -> Controller :=
  with_state (fun s =>
    set_manualRotation (Z.rem (manualRotation s - 90 + 360) 360) s).

Definition rotateRight_click : Controller -> Controller :=
  with_state (fun s => set_manualRotation (Z.rem (manualRotation s + 90) 360) s).

Definition resizeMode_change (value : string) (c : Controller) : Controller :=
  {| files := files c;
     state :=
       {| autoFix := autoFix (state c);
          manualRotation := manualRotation (state c);
          resizeMode := value; targetWidth := targetWidth (state c);
          targetHeight := targetHeight (state c);
          stripExif := stripExif (state c);
          exportFormat := exportFormat (state c);
          maxSizeBytes := maxSizeBytes (state c) |};
     page :=
       {| dropZone_hidden := dropZone_hidden (page c);
          editorSection_hidden := editorSection_hidden (page c);
          resizeInputs_hidden := String.eqb value "none";
          maxSizeInput_disabled := maxSizeInput_disabled (page c);
          sizeHint := sizeHint (page c);
          downloadBtn_text := downloadBtn_text (page c);
          downloadBtn_disabled := downloadBtn_disabled (page c) |} |}.

(** The number value of an integer: the nearest binary64 value, which is
    an infinity from [2^1024 - 2^970] on (half-way between the largest
    finite value and [2^1024]). *)
Definition number_of_integer (z : Z) : number :=
  if 2 ^ 1024 - 2 ^ 970 <=? Z.abs z then Inf (z <? 0)
  else Fin (fl (inject_Z z)).

(** What [parseInt] returns.  [parsed] is the integer that the sign and the
    leading digits of the text denote, [None] when the text starts with no
    digit; the result is [NaN] then, and else the number value of that
    integer, [Infinity] or [-Infinity] when the digits go beyond the
    binary64 range. *)
Definition parseInt_result (parsed : option Z) : ImageProcessor.jsval :=
  match parsed with
  | Some z => ImageProcessor.Num (number_of_integer z)
  | None => ImageProcessor.Num NaN
  end.

Definition width_input (parsed : option Z) : Controller -> Controller :=
  with_state (fun s =>
    {| autoFix := autoFix s; manualRotation := manualRotation s;
       resizeMode := resizeMode s; targetWidth := parseInt_result parsed;
       targetHeight := targetHeight s; stripExif := stripExif s;
       exportFormat := exportFormat s; maxSizeBytes := maxSizeBytes s |}).

Definition height_input (parsed : option Z) : Controller -> Controller :=
  with_state (fun s =>
    {| autoFix := autoFix s; manualRotation := manualRotation s;
       resizeMode := resizeMode s; targetWidth := targetWidth s;
       targetHeight := parseInt_result parsed; stripExif := stripExif s;
       exportFormat := exportFormat s; maxSizeBytes := maxSizeBytes s |}).

(** [a > 0] *)
Definition positive (a : number) : bool :=
  match a with
  | NaN => false
  | Inf negative => negb negative
  | Fin x => negb (Qle_bool x 0)
  end.

(** [Math.floor] *)
Definition nfloor (a : number) : number :=
  match a with
  | Fin x => Fin (inject_Z (Qfloor x))
  | _ => a
  end.

(** The size input, in kilobytes; [val] is what [parseFloat] returned. *)
Definition maxSize_input (val : number) : Controller -> Controller :=
  with_state (fun s =>
    {| autoFix := autoFix s; manualRotation := manualRotation s;
       resizeMode := resizeMode s; targetWidth := targetWidth s;
       targetHeight := targetHeight s; stripExif := stripExif s;
       exportFormat := exportFormat s;
       maxSizeBytes :=
         if ImageProcessor.truthy (ImageProcessor.Num val) && positive val
         then ImageProcessor.Num (nfloor (nmul val (of_Z 1024)))
         else ImageProcessor.Null |}).

Definition updateUIState (c : Controller) : Controller :=
  let set (disabled : bool) (text : string) (hint_disabled : bool) :=
    with_page (fun p =>
      {| dropZone_hidden := dropZone_hidden p;
         editorSection_hidden := editorSection_hidden p;
         resizeInputs_hidden := resizeInputs_hidden p;
         maxSizeInput_disabled := disabled;
         sizeHint :=
           match sizeHint p with
           | Some _ => Some (text, hint_disabled)
           | None => None
           end;
         downloadBtn_text := downloadBtn_text p;
         downloadBtn_disabled := downloadBtn_disabled p |}) c in
  if String.eqb (exportFormat (state c)) "png" then
    set true "File size limit is unavailable for PNG." true
  else if String.eqb (exportFormat (state c)) "jpeg" then
    set false "Quality will be adjusted to meet size target." false
  else
    set false "Target size for JPEGs. PNGs will be converted." false.

Definition format_change (value : string) (c : Controller) : Controller :=
  updateUIState
    (with_state (fun s =>
       {| autoFix := autoFix s; manualRotation := manualRotation s;
          resizeMode := resizeMode s; targetWidth := targetWidth s;
          targetHeight := targetHeight s; stripExif := stripExif s;
          exportFormat := value; maxSizeBytes := maxSizeBytes s |}) c).

(** *** handleFiles *)

(** The value [await getOrientation(file)] gives: that of the first call
    to [resolve] (there always is one). *)
Definition awaited (p : OrientationReader.State) : Z :=
  match OrientationReader.resolved p with
  | (_, val) :: _ => val
  | [] => 1
  end.

Section HandleFiles.

(** What [EXIF.getData] does for each file, and the order of the event
    loop. *)
Variable exif : ImageProcessor.File -> OrientationReader.ExifRun.
Variable timer_first : bool.

Definition item_of (f : ImageProcessor.File) : Item :=
  {| file := f;
     originalOrientation :=
       awaited (OrientationReader.getOrientation (exif f) timer_first) |}.

Definition handleFiles (newFiles : list ImageProcessor.File) (c : Controller)
  : Controller :=
  match newFiles with
  | [] => c
  | _ =>
      {| files := files c ++ map item_of newFiles;
         state := state c;
         page :=
           {| dropZone_hidden := true;
              editorSection_hidden := false;
              resizeInputs_hidden := resizeInputs_hidden (page c);
              maxSizeInput_disabled := maxSizeInput_disabled (page c);
              sizeHint := sizeHint (page c);
              downloadBtn_text := downloadBtn_text (page c);
              downloadBtn_disabled := downloadBtn_disabled (page c) |} |}
  end.

(** The drop zone is built with [handleFiles] as its callback. *)
Definition on_drop (dropped : list ImageProcessor.File) (c : Controller)
  : Controller :=
  match DropZone.drop dropped with
  | Some selected => handleFiles selected c
  | None => c
  end.

Definition on_change (chosen : list ImageProcessor.File) (c : Controller)
  : Controller :=
  match DropZone.change chosen with
  | Some selected => handleFiles selected c
  | None => c
  end.

End HandleFiles.

(** *** handleDownload *)

(** [name.split('.')] *)
Fixpoint split (sep : ascii) (s : string) : list string :=
  match s with
  | EmptyString => [EmptyString]
  | String ch rest =>
      if Ascii.eqb ch sep then EmptyString :: split sep rest
      else
        match split sep rest with
        | part :: parts => String ch part :: parts
        | [] => [String ch EmptyString]
        end
  end.

(** The name given to a processed file: [pop] takes the last part as the
    extension, [join] puts the others back together. *)
Definition newName (name : string) : string :=
  let nameParts := split "." name in
  let ext := last nameParts "" in
  let base := String.concat "." (removelast nameParts) in
  base ++ "_fixed." ++ ext.

Section HandleDownload.

Variable Blob : Type.
Variable size : Blob -> Z.
Variable toBlob : ImageProcessor.Canvas -> string -> number -> Blob.

(** What is handed to [saveBlob]: the blob of the only entry, or the
    archive generated from the entries of [zip.files], in the order of its
    keys (file names are taken to hold no '/'). *)
Inductive Content : Type :=
| Entry (b : Blob)
| Archive (entries : list (string * Blob)).

Inductive Effect : Type :=
| ConsoleError
| Alert
| SaveBlob (content : Content) (filename : string).

(** The options of the call to [process] for one item. *)
Definition options_for (s : State) (item : Item) : ImageProcessor.Options :=
  {| ImageProcessor.orientation :=
       Some (if autoFix s then originalOrientation item else 1);
     ImageProcessor.manualRotation := Some (manualRotation s);
     ImageProcessor.resizeMode := Some (resizeMode s);
     ImageProcessor.targetWidth := targetWidth s;
     ImageProcessor.targetHeight := targetHeight s;
     ImageProcessor.maxSizeBytes := maxSizeBytes s;
     ImageProcessor.exportFormat := Some (exportFormat s) |}.

(** [zip.file(name, blob)] sets [zip.files[name]]: an entry of the same
    name is replaced where it stands, a new name is added after the
    others. *)
Fixpoint zip_file (name : string) (b : Blob) (zip : list (string * Blob))
  : list (string * Blob) :=
  match zip with
  | [] => [(name, b)]
  | (n, b') :: rest =>
      if String.eqb n name then (name, b) :: rest
      else (n, b') :: zip_file name b rest
  end.

(** The [for] loop: it stops at the first call that is rejected. *)
Fixpoint process_all (s : State) (items : list Item)
    (zip : list (string * Blob))
  : ImageProcessor.Promise (list (string * Blob)) :=
  match items with
  | [] => ImageProcessor.Resolved zip
  | item :: rest =>
      match ImageProcessor.process Blob size toBlob (file item)
              (options_for s item) with
      | ImageProcessor.Rejected => ImageProcessor.Rejected
      | ImageProcessor.Resolved run =>
          process_all s rest
            (zip_file (newName (ImageProcessor.name (file item)))
               (ImageProcessor.blob run) zip)
      end
  end.

Definition set_downloadBtn (text : string) (disabled : bool)
  : Controller -> Controller :=
  with_page (fun p =>
    {| dropZone_hidden := dropZone_hidden p;
       editorSection_hidden := editorSection_hidden p;
       resizeInputs_hidden := resizeInputs_hidden p;
       maxSizeInput_disabled := maxSizeInput_disabled p;
       sizeHint := sizeHint p;
       downloadBtn_text := text;
       downloadBtn_disabled := disabled |}).

Definition handleDownload (c : Controller) : Controller * list Effect :=
  match files c with
  | [] => (c, [])
  | _ =>
      let c := set_downloadBtn "Processing..." true c in
      let effects :=
        match process_all (state c) (files c) [] with
        | ImageProcessor.Rejected => [ConsoleError; Alert]
        | ImageProcessor.Resolved zip =>
            if (Z.of_nat (List.length (files c)) =? 1) then
              match rev zip, zip with
              | (_, b) :: _, (filename, _) :: _ => [SaveBlob (Entry b) filename]
              | _, _ => [ConsoleError; Alert]
              end
            else [SaveBlob (Archive zip) "images_fixed.zip"]
        end in
      (set_downloadBtn "Download All" false c, effects)
  end.

End HandleDownload.

Arguments Entry {Blob}.
Arguments Archive {Blob}.
Arguments ConsoleError {Blob}.
Arguments Alert {Blob}.
Arguments SaveBlob {Blob}.

(** *** The events of a session *)

Inductive Event : Type :=
| AutoFixChange (checked : bool)
| StripExifChange (checked : bool)
| RotateLeftClick
| RotateRightClick
| ResizeModeChange (value : string)
| WidthInput (parsed : option Z)
| HeightInput (parsed : option Z)
| MaxSizeInput (val : number)
| FormatChange (value : string)
| Drop (dropped : list ImageProcessor.File)
| Change (chosen : list ImageProcessor.File)
| DownloadClick.

Section Session.

Variable Blob : Type.
Variable size : Blob -> Z.
Variable toBlob : ImageProcessor.Canvas -> string -> number -> Blob.
Variable exif : ImageProcessor.File -> OrientationReader.ExifRun.
Variable timer_first : bool.

Definition handle (c : Controller) (e : Event) : Controller :=
  match e with
  | AutoFixChange checked => autoFix_change checked c
  | StripExifChange checked => stripExif_change checked c
  | RotateLeftClick => rotateLeft_click c
  | RotateRightClick => rotateRight_click c
  | ResizeModeChange value => resizeMode_change value c
  | WidthInput parsed => width_input parsed c
  | HeightInput parsed => height_input parsed c
  | MaxSizeInput val => maxSize_input val c
  | FormatChange value => format_change value c
  | Drop dropped => on_drop exif timer_first dropped c
  | Change chosen => on_change exif timer_first chosen c
  | DownloadClick => fst (handleDownload Blob size toBlob c)
  end.

(** The controller after the events of a session, from a fresh page. *)
Definition session (page : Page) (events : list Event) : Controller :=
  fold_left handle events (constructor page).

End Session.

End AppController.

(** ** The vocabulary of the controller's properties *)

Module AppSpec.

Import JSNumber.
Import ImageProcessor(jsval, Undefined, Null, Num).

(** What the inputs can leave in a target: nothing yet, [NaN], an
    infinity, or an integer. *)
Definition target_shape (v : jsval) : Prop :=
  v = Null \/ v = Num NaN \/ (exists negative, v = Num (Inf negative)) \/
  exists z, v = Num (of_Z z).

(** What the size input can leave in [maxSizeBytes]: nothing yet, [null],
    infinity, or a whole number of bytes. *)
Definition ceiling_shape (v : jsval) : Prop :=
  v = Undefined \/ v = Null \/ v = Num (Inf false) \/
  exists n, 0 <= n /\ v = Num (of_Z n).

Definition well_formed (s : AppController.State) : Prop :=
  In (AppController.manualRotation s) [0; 90; 180; 270] /\
  target_shape (AppController.targetWidth s) /\
  target_shape (AppController.targetHeight s) /\
  ceiling_shape (AppController.maxSizeBytes s).

(** The same controller with the orientation of every item replaced. *)
Definition reoriented (g : AppController.Item -> Z) (c : AppController.Controller)
  : AppController.Controller :=
  {| AppController.files :=
       map (fun item =>
              {| AppController.file := AppController.file item;
                 AppController.originalOrientation := g item |})
           (AppController.files c);
     AppController.state := AppController.state c;
     AppController.page := AppController.page c |}.

(** [c] does not occur in [s]. *)
Definition free_of (c : ascii) (s : string) : Prop :=
  ~ In c (list_ascii_of_string s).

(** The sections shown while files are listed: the drop zone hidden, the
    editor visible. *)
Definition listing (c : AppController.Controller) : Prop :=
  AppController.files c <> [] ->
  AppController.dropZone_hidden (AppController.page c) = true /\
  AppController.editorSection_hidden (AppController.page c) = false.

(** The entry made for an item: its new name and the blob [process]
    resolved with. *)
Definition entry_of (Blob : Type) (size : Blob -> Z)
    (toBlob : ImageProcessor.Canvas -> string -> number -> Blob)
    (s : AppController.State) (item : AppController.Item)
    (entry : string * Blob) : Prop :=
  exists run,
    ImageProcessor.process Blob size toBlob (AppController.file item)
      (AppController.options_for s item) = ImageProcessor.Resolved run /\
    entry = (AppController.newName (ImageProcessor.name (AppController.file item)),
             ImageProcessor.blob run).

End AppSpec.

(** ** A sample page and session, for running the model *)

Module AppSample.

Import AppController.

Definition page : Page :=
  {| dropZone_hidden := false;
     editorSection_hidden := true;
     resizeInputs_hidden := true;
     maxSizeInput_disabled := false;
     sizeHint := Some (""%string, false);
     downloadBtn_text := "Download All"%string;
     downloadBtn_disabled := false |}.

(** Every file carries the tag 6, read after 20 ms. *)
Definition exif (f : ImageProcessor.File) : OrientationReader.ExifRun :=
  {| OrientationReader.sync_calls := [];
     OrientationReader.throws := false;
     OrientationReader.later_calls := [(20, Some 6)] |}.

(** A file the browser cannot decode. *)
Definition notes : ImageProcessor.File :=
  {| ImageProcessor.name := "notes.txt"%string;
     ImageProcessor.type := "text/plain"%string;
     ImageProcessor.decoded := None |}.

(** A PNG source. *)
Definition drawing : ImageProcessor.File :=
  {| ImageProcessor.name := "drawing.png"%string;
     ImageProcessor.type := "image/png"%string;
     ImageProcessor.decoded :=
       Some {| ImageProcessor.width := 640; ImageProcessor.height := 480 |} |}.

(** The controller after the files were chosen on a fresh page. *)
Definition controller (chosen : list ImageProcessor.File) : Controller :=
  on_change exif true chosen (constructor page).

Definition png_options : ImageProcessor.Options :=
  {| ImageProcessor.orientation := Some 1;
     ImageProcessor.manualRotation := Some 0;
     ImageProcessor.resizeMode := Some "none"%string;
     ImageProcessor.targetWidth := ImageProcessor.Null;
     ImageProcessor.targetHeight := ImageProcessor.Null;
     ImageProcessor.maxSizeBytes := Sample.int 50000;
     ImageProcessor.exportFormat := Some "png"%string |}.

End AppSample.

(** * Properties *)

(** ** Rounding *)

Module JSNumberFacts.

Import JSNumber.

Local Open Scope Q_scope.

Lemma pow2_pos k : 0 < pow2 k.
Proof. unfold pow2. apply Qpower_0_lt. reflexivity. Qed.

Lemma pow2_add a b : pow2 (a + b) == pow2 a * pow2 b.
Proof. unfold pow2. apply Qpower_plus. discriminate. Qed.

Lemma pow2_inject (k : Z) : (0 <= k)%Z -> pow2 k == inject_Z (2 ^ k).
Proof. intros H. unfold pow2. rewrite Zpower_Qpower by exact H. reflexivity. Qed.

Lemma rne_err x : Qabs (inject_Z (rne x) - x) <= 1 # 2.
Proof.
  unfold rne.
  pose proof (Qfloor_le x) as Hlo. pose proof (Qlt_floor x) as Hhi.
  rewrite inject_Z_plus in Hhi. change (inject_Z 1) with 1 in Hhi.
  apply Qabs_Qle_condition.
  destruct (Qcompare_spec (x - inject_Z (Qfloor x)) (1 # 2)) as [He|Hl|Hg].
  - destruct (Z.even (Qfloor x)).
    + lra.
    + rewrite inject_Z_plus. change (inject_Z 1) with 1. lra.
  - lra.
  - rewrite inject_Z_plus. change (inject_Z 1) with 1. lra.
Qed.

Lemma rne_nonneg x : 0 <= x -> (0 <= rne x)%Z.
Proof.
  intros Hx. unfold rne.
  assert (0 <= Qfloor x)%Z as Hf.
  { change 0%Z with (Qfloor 0). apply Qfloor_resp_le. exact Hx. }
  destruct (Qcompare _ _); [destruct (Z.even _)| |]; lia.
Qed.

Lemma ilog2_le q : 0 < q -> pow2 (ilog2 q) <= q.
Proof.
  intros Hq. unfold ilog2.
  destruct (Qle_bool (pow2 _) q) eqn:Hb.
  - apply Qle_bool_iff. exact Hb.
  - clear Hb. destruct q as [n d]. cbn [Qnum Qden].
    assert (0 < n)%Z as Hn by (unfold Qlt in Hq; cbn in Hq; lia).
    pose proof (Z.log2_spec n Hn) as [Hn1 _].
    pose proof (Z.log2_spec (Zpos d) (Pos2Z.is_pos d)) as [_ Hd2].
    pose proof (Z.log2_nonneg n) as Ha. pose proof (Z.log2_nonneg (Zpos d)) as Hb.
    set (a := Z.log2 n) in *. set (b := Z.log2 (Zpos d)) in *.
    assert (pow2 (a - b - 1) * pow2 (b + 1) == pow2 a) as Hm.
    { rewrite <- pow2_add. replace (a - b - 1 + (b + 1))%Z with a by lia. reflexivity. }
    rewrite (pow2_inject a) in Hm by lia.
    rewrite (pow2_inject (b + 1)) in Hm by lia.
    pose proof (pow2_pos (a - b - 1)) as Hp.
    set (p := pow2 (a - b - 1)) in *.
    unfold Qle. cbn [Qnum Qden].
    destruct p as [pn pd]. unfold Qeq, Qmult in Hm. cbn [Qnum Qden inject_Z] in Hm |- *.
    unfold Qlt in Hp. cbn in Hp.
    replace (Z.succ b) with (b + 1)%Z in Hd2 by lia.
    nia.
Qed.

Lemma ilog2_lt q : 0 < q -> q < pow2 (ilog2 q + 1).
Proof.
  intros Hq. unfold ilog2.
  destruct (Qle_bool (pow2 _) q) eqn:Hb.
  - clear Hb. destruct q as [n d]. cbn [Qnum Qden].
    assert (0 < n)%Z as Hn by (unfold Qlt in Hq; cbn in Hq; lia).
    pose proof (Z.log2_spec n Hn) as [_ Hn2].
    pose proof (Z.log2_spec (Zpos d) (Pos2Z.is_pos d)) as [Hd1 _].
    pose proof (Z.log2_nonneg n) as Ha. pose proof (Z.log2_nonneg (Zpos d)) as Hb.
    set (a := Z.log2 n) in *. set (b := Z.log2 (Zpos d)) in *.
    assert (pow2 (a - b + 1) * pow2 b == pow2 (a + 1)) as Hm.
    { rewrite <- pow2_add. replace (a - b + 1 + b)%Z with (a + 1)%Z by lia. reflexivity. }
    rewrite (pow2_inject (a + 1)) in Hm by lia.
    rewrite (pow2_inject b) in Hm by lia.
    pose proof (pow2_pos (a - b + 1)) as Hp.
    set (p := pow2 (a - b + 1)) in *.
    unfold Qlt. cbn [Qnum Qden].
    destruct p as [pn pd]. unfold Qeq, Qmult in Hm. cbn [Qnum Qden inject_Z] in Hm |- *.
    unfold Qlt in Hp. cbn in Hp.
    replace (Z.succ a) with (a + 1)%Z in Hn2 by lia.
    nia.
  - replace (_ - 1 + 1)%Z with (Z.log2 (Qnum q) - Z.log2 (Z.pos (Qden q)))%Z by lia.
    apply Qnot_le_lt. intros H. apply Qle_bool_iff in H. congruence.
Qed.

Definition u : Q := pow2 (-53).

Lemma fl_err q : Qabs (fl q - q) <= Qabs q * u.
Proof.
  unfold fl. destruct (Qeq_bool q 0) eqn:Hz.
  - apply Qeq_bool_eq in Hz. rewrite Hz. vm_compute. discriminate.
  - assert (~ q == 0) as Hq by (intros H; apply Qeq_eq_bool in H; congruence).
    assert (0 < Qabs q) as Ha.
    { pose proof (Qabs_nonneg q). destruct (Qeq_dec (Qabs q) 0) as [E|E]; [|lra].
      exfalso. apply Hq. revert E. apply Qabs_case; intros; lra. }
    rewrite Qred_correct.
    pose proof (ilog2_le _ Ha) as Hl.
    set (e := ilog2 (Qabs q)) in *.
    pose proof (rne_err (q * pow2 (52 - e))) as Hr.
    set (m := inject_Z (rne (q * pow2 (52 - e)))) in *.
    assert (pow2 (52 - e) * pow2 (e - 52) == 1) as Hst.
    { rewrite <- pow2_add. replace (52 - e + (e - 52))%Z with 0%Z by lia. reflexivity. }
    assert (pow2 (e - 52) == pow2 e * (2 * u)) as Ht.
    { unfold u. change 2 with (pow2 1). rewrite <- !pow2_add. 
      replace (e + (1 + -53))%Z with (e - 52)%Z by lia. reflexivity. }
    pose proof (pow2_pos (52 - e)) as Hs. pose proof (pow2_pos (e - 52)) as Htp.
    pose proof (pow2_pos e) as Hep.
    assert (0 < u) as Hu by apply pow2_pos.
    set (s := pow2 (52 - e)) in *. set (t := pow2 (e - 52)) in *. set (pe := pow2 e) in *.
    assert (m * t - q == (m - q * s) * t) as E.
    { transitivity (m * t - q * (s * t)); [rewrite Hst|]; ring. }
    rewrite E, Qabs_Qmult. rewrite (Qabs_pos t) by lra.
    apply Qle_trans with ((1 # 2) * t).
    + apply Qmult_le_compat_r; lra.
    + rewrite Ht. nra.
Qed.

(** [fl] keeps 53 significant bits. *)
Lemma fl_precision q :
  0 < q ->
  exists m e, fl q == inject_Z m * pow2 e /\ (2 ^ 52 <= m <= 2 ^ 53)%Z.
Proof.
  intros Hq. unfold fl.
  destruct (Qeq_bool q 0) eqn:Hz; [apply Qeq_bool_eq in Hz; lra|].
  assert (Qabs q = q) as ->.
  { destruct q as [[|n|n] d]; [reflexivity | reflexivity | discriminate Hq]. }
  pose proof (ilog2_le q Hq) as Hlo. pose proof (ilog2_lt q Hq) as Hhi.
  set (e := ilog2 q) in *.
  exists (rne (q * pow2 (52 - e))), (e - 52)%Z.
  split; [apply Qred_correct|].
  pose proof (rne_err (q * pow2 (52 - e))) as Hr.
  apply Qabs_Qle_condition in Hr.
  assert (pow2 e * pow2 (52 - e) == inject_Z (2 ^ 52)) as H52.
  { rewrite <- pow2_add, <- pow2_inject by lia.
    replace (e + (52 - e))%Z with 52%Z by lia. reflexivity. }
  assert (pow2 (e + 1) * pow2 (52 - e) == inject_Z (2 ^ 53)) as H53.
  { rewrite <- pow2_add, <- pow2_inject by lia.
    replace (e + 1 + (52 - e))%Z with 53%Z by lia. reflexivity. }
  pose proof (pow2_pos (52 - e)) as Hs.
  set (x := q * pow2 (52 - e)) in *.
  assert (inject_Z (2 ^ 52) <= x < inject_Z (2 ^ 53)) as Hx by (unfold x; nra).
  assert (inject_Z (2 ^ 52) < inject_Z (rne x + 1)) as H1.
  { rewrite inject_Z_plus. change (inject_Z 1) with 1. lra. }
  assert (inject_Z (rne x) < inject_Z (2 ^ 53 + 1)) as H2.
  { rewrite inject_Z_plus. change (inject_Z 1) with 1. lra. }
  rewrite <- Zlt_Qlt in H1, H2. lia.
Qed.

Lemma fl_nonneg q : 0 <= q -> 0 <= fl q.
Proof.
  intros Hq. unfold fl. destruct (Qeq_bool q 0); [lra|].
  rewrite Qred_correct.
  pose proof (pow2_pos (52 - ilog2 (Qabs q))) as Hs.
  pose proof (pow2_pos (ilog2 (Qabs q) - 52)) as Ht.
  assert (0 <= q * pow2 (52 - ilog2 (Qabs q))) as Hx by nra.
  apply rne_nonneg in Hx.
  assert (0 <= inject_Z (rne (q * pow2 (52 - ilog2 (Qabs q))))) as Hm.
  { change 0 with (inject_Z 0). rewrite <- Zle_Qle. exact Hx. }
  nra.
Qed.

(** The standard model of rounding: a relative error of at most [u]. *)
Lemma fl_bounds q : 0 <= q -> q * (1 - u) <= fl q <= q * (1 + u).
Proof.
  intros Hq. pose proof (fl_err q) as H.
  rewrite (Qabs_pos q) in H by exact Hq.
  apply Qabs_Qle_condition in H. lra.
Qed.

Lemma u_small : u <= 1 # 9007199254740992.
Proof. vm_compute. discriminate. Qed.

Lemma u_pos : 0 < u.
Proof. apply pow2_pos. Qed.

(** [Math.round] leaves an integer alone. *)
Lemma nround_of_Z z : nround (of_Z z) = of_Z z.
Proof.
  unfold nround, of_Z. do 2 f_equal.
  unfold Qfloor, Qplus, inject_Z. cbn [Qnum Qden].
  rewrite Z.mul_1_r. change (Zpos (1 * 2)) with 2%Z.
  symmetry. apply Z.div_unique with (r := 1%Z); lia.
Qed.


(** Rounding to the nearest integer moves by at most a half. *)
Lemma Qfloor_half_bounds x :
  x - (1 # 2) < inject_Z (Qfloor (x + (1 # 2))) <= x + (1 # 2).
Proof.
  pose proof (Qfloor_le (x + (1 # 2))) as Hlo.
  pose proof (Qlt_floor (x + (1 # 2))) as Hhi.
  rewrite inject_Z_plus in Hhi. change (inject_Z 1) with 1 in Hhi. lra.
Qed.

End JSNumberFacts.

(** ** More on rounding: order, exact values, scaling *)

Module RoundingFacts.

Import JSNumber JSNumberFacts NumberSpec.

Local Open Scope Q_scope.

Lemma pow2_le (a b : Z) : (a <= b)%Z -> pow2 a <= pow2 b.
Proof. intros H. unfold pow2. apply Qpower_le_compat_l; [exact H | discriminate]. Qed.

(** The exponent is determined by the value. *)
Lemma ilog2_unique (q : Q) (e : Z) :
  pow2 e <= q < pow2 (e + 1) -> ilog2 q = e.
Proof.
  intros [Hlo Hhi].
  assert (0 < q) as Hq by (pose proof (pow2_pos e); lra).
  pose proof (ilog2_le q Hq) as Hl. pose proof (ilog2_lt q Hq) as Hh.
  destruct (Z.lt_trichotomy (ilog2 q) e) as [H|[H|H]]; [|exact H|].
  - pose proof (pow2_le (ilog2 q + 1) e ltac:(lia)). lra.
  - pose proof (pow2_le (e + 1) (ilog2 q) ltac:(lia)). lra.
Qed.

Lemma ilog2_proper (x y : Q) : 0 < x -> x == y -> ilog2 x = ilog2 y.
Proof.
  intros Hx E. symmetry. apply ilog2_unique.
  pose proof (ilog2_le x Hx). pose proof (ilog2_lt x Hx). lra.
Qed.

Lemma rne_proper (x y : Q) : x == y -> rne x = rne y.
Proof.
  intros E. unfold rne. rewrite (Qfloor_comp x y E).
  rewrite (Qcompare_comp (x - inject_Z (Qfloor y)) (y - inject_Z (Qfloor y))
             ltac:(rewrite E; reflexivity) (1 # 2) (1 # 2) (Qeq_refl _)).
  reflexivity.
Qed.

Lemma Qabs_pos_lt (q : Q) : ~ q == 0 -> 0 < Qabs q.
Proof.
  intros Hq. pose proof (Qabs_nonneg q).
  destruct (Qeq_dec (Qabs q) 0) as [E|E]; [|lra].
  exfalso. apply Hq. revert E. apply Qabs_case; intros; lra.
Qed.

(** [fl] depends on the value only, not on the fraction that denotes it. *)
Lemma fl_proper (x y : Q) : x == y -> fl x = fl y.
Proof.
  intros E. unfold fl.
  rewrite <- (Qeqb_comp _ _ E 0 0 (Qeq_refl 0)).
  destruct (Qeq_bool x 0) eqn:Hz; [reflexivity|].
  assert (~ x == 0) as Hx by (intros H; apply Qeq_eq_bool in H; congruence).
  assert (ilog2 (Qabs x) = ilog2 (Qabs y)) as He.
  { apply ilog2_proper; [apply Qabs_pos_lt, Hx | rewrite E; reflexivity]. }
  rewrite <- He. apply Qred_complete.
  rewrite (rne_proper (x * _) (y * pow2 (52 - ilog2 (Qabs x))))
    by (apply Qmult_comp; [exact E | reflexivity]).
  reflexivity.
Qed.

Lemma rne_inject (n : Z) : rne (inject_Z n) = n.
Proof.
  unfold rne. rewrite Qfloor_Z.
  destruct (Qcompare_spec (inject_Z n - inject_Z n) (1 # 2)) as [H|H|H];
    [lra | reflexivity | lra].
Qed.

Lemma rne_mono (x y : Q) : x <= y -> (rne x <= rne y)%Z.
Proof.
  intros Hxy.
  pose proof (Qfloor_resp_le x y Hxy) as Hf.
  pose proof (Qfloor_le x) as Hx1. pose proof (Qlt_floor x) as Hx2.
  pose proof (Qfloor_le y) as Hy1. pose proof (Qlt_floor y) as Hy2.
  rewrite inject_Z_plus in Hx2, Hy2. change (inject_Z 1) with 1 in Hx2, Hy2.
  destruct (Z.eq_dec (Qfloor x) (Qfloor y)) as [E|E].
  - unfold rne. rewrite <- E in *.
    destruct (Qcompare_spec (x - inject_Z (Qfloor x)) (1 # 2)) as [H1|H1|H1];
      destruct (Qcompare_spec (y - inject_Z (Qfloor x)) (1 # 2)) as [H2|H2|H2];
      try destruct (Z.even (Qfloor x)); try lia; lra.
  - assert (rne x <= Qfloor x + 1)%Z as H1.
    { unfold rne. destruct (Qcompare _ _); [destruct (Z.even _)| |]; lia. }
    assert (Qfloor y <= rne y)%Z as H2.
    { unfold rne. destruct (Qcompare _ _); [destruct (Z.even _)| |]; lia. }
    lia.
Qed.

(** The shape of [fl] on a positive value. *)
Lemma fl_pos (q : Q) :
  0 < q ->
  fl q == inject_Z (rne (q * pow2 (52 - ilog2 q))) * pow2 (ilog2 q - 52).
Proof.
  intros Hq. unfold fl.
  destruct (Qeq_bool q 0) eqn:Hz; [apply Qeq_bool_eq in Hz; lra|].
  assert (Qabs q = q) as ->.
  { destruct q as [[|n|n] d]; [reflexivity | reflexivity | discriminate Hq]. }
  apply Qred_correct.
Qed.

(** An integer mantissa of at most 53 bits is kept as it is. *)
Lemma fl_exact (m e : Z) :
  (0 < m < 2 ^ 53)%Z -> fl (inject_Z m * pow2 e) == inject_Z m * pow2 e.
Proof.
  intros Hm.
  assert (0 < inject_Z m) as Hm0.
  { change 0 with (inject_Z 0). rewrite <- Zlt_Qlt. lia. }
  pose proof (pow2_pos e) as He.
  set (q := inject_Z m * pow2 e).
  assert (0 < q) as Hq by (unfold q; nra).
  rewrite (fl_pos q Hq).
  pose proof (ilog2_le q Hq) as Hlo. pose proof (ilog2_lt q Hq) as Hhi.
  set (k := ilog2 q) in *.
  (* the scaled mantissa is the integer m * 2^(52 - k + e) *)
  assert (k - e <= 52)%Z as Hk.
  { destruct (Z.le_gt_cases (k - e) 52) as [H|H]; [exact H|exfalso].
    assert (pow2 (53 + e) <= pow2 k) as Hp by (apply pow2_le; lia).
    rewrite pow2_add in Hp. rewrite (pow2_inject 53) in Hp by lia.
    assert (inject_Z m < inject_Z (2 ^ 53)) as Hm53 by (rewrite <- Zlt_Qlt; lia).
    unfold q in Hlo. nra. }
  assert (q * pow2 (52 - k) == inject_Z (m * 2 ^ (52 - k + e))) as Hx.
  { unfold q. rewrite inject_Z_mult, <- (pow2_inject (52 - k + e)) by lia.
    rewrite <- Qmult_assoc, <- pow2_add.
    replace (e + (52 - k))%Z with (52 - k + e)%Z by lia. reflexivity. }
  rewrite (rne_proper _ _ Hx), rne_inject.
  rewrite inject_Z_mult, <- (pow2_inject (52 - k + e)) by lia.
  rewrite <- Qmult_assoc, <- pow2_add.
  replace (52 - k + e + (k - 52))%Z with e by lia. reflexivity.
Qed.

Lemma fl_inject (z : Z) : (0 <= z < 2 ^ 53)%Z -> fl (inject_Z z) == inject_Z z.
Proof.
  intros Hz. destruct (Z.eq_dec z 0) as [->|Hnz]; [vm_compute; reflexivity|].
  pose proof (fl_exact z 0 ltac:(lia)) as Hf.
  assert (inject_Z z * pow2 0 == inject_Z z) as E1
    by (change (pow2 0) with 1; ring).
  rewrite (fl_proper _ _ E1) in Hf. rewrite Hf. exact E1.
Qed.

Lemma fl_representable (q : Q) : representable q -> fl q == q.
Proof.
  intros (m & e & Hm & E). rewrite (fl_proper _ _ E), E. apply fl_exact, Hm.
Qed.

Lemma representable_pos (q : Q) : representable q -> 0 < q.
Proof.
  intros (m & e & Hm & E). rewrite E.
  assert (0 < inject_Z m) by (change 0 with (inject_Z 0); rewrite <- Zlt_Qlt; lia).
  pose proof (pow2_pos e). nra.
Qed.

Lemma fl_is_representable (q : Q) : 0 < q -> representable (fl q).
Proof.
  intros Hq. destruct (fl_precision q Hq) as (m & e & E & Hm).
  destruct (Z.eq_dec m (2 ^ 53)) as [->|Hne].
  - exists (2 ^ 52)%Z, (e + 1)%Z. split; [lia|]. rewrite E, pow2_add.
    change (pow2 1) with 2. change (inject_Z (2 ^ 53)) with (inject_Z (2 ^ 52) * 2).
    ring.
  - exists m, e. split; [lia | exact E].
Qed.

Lemma representable_half (q : Q) : representable q -> representable (q / 2).
Proof.
  intros (m & e & Hm & E). exists m, (e - 1)%Z. split; [exact Hm|].
  rewrite E. replace (e - 1)%Z with (e + -1)%Z by lia. rewrite pow2_add.
  change (pow2 (-1)) with (1 # 2). field.
Qed.

Lemma representable_proper (x y : Q) : x == y -> representable x -> representable y.
Proof.
  intros E (m & e & Hm & Ex). exists m, e. split; [exact Hm|].
  rewrite <- E. exact Ex.
Qed.

(** [fl] is monotone on positive values. *)
Lemma fl_mono (x y : Q) : 0 < x -> x <= y -> fl x <= fl y.
Proof.
  intros Hx Hxy. assert (0 < y) as Hy by lra.
  rewrite (fl_pos x Hx), (fl_pos y Hy).
  pose proof (ilog2_le x Hx) as Hx1. pose proof (ilog2_lt x Hx) as Hx2.
  pose proof (ilog2_le y Hy) as Hy1. pose proof (ilog2_lt y Hy) as Hy2.
  set (ex := ilog2 x) in *. set (ey := ilog2 y) in *.
  assert (ex <= ey)%Z as Hle.
  { destruct (Z.le_gt_cases ex ey) as [H|H]; [exact H|exfalso].
    pose proof (pow2_le (ey + 1) ex ltac:(lia)). lra. }
  pose proof (pow2_pos (52 - ex)) as Hsx. pose proof (pow2_pos (ex - 52)) as Htx.
  pose proof (pow2_pos (52 - ey)) as Hsy. pose proof (pow2_pos (ey - 52)) as Hty.
  destruct (Z.eq_dec ex ey) as [E|Hne].
  - rewrite <- E in *.
    assert (rne (x * pow2 (52 - ex)) <= rne (y * pow2 (52 - ex)))%Z as Hr
      by (apply rne_mono; nra).
    rewrite Zle_Qle in Hr. nra.
  - (* fl x <= 2^(ex+1) <= 2^ey <= fl y *)
    assert (pow2 (ex + 1) * pow2 (52 - ex) == inject_Z (2 ^ 53)) as H53.
    { rewrite <- pow2_add, <- pow2_inject by lia.
      replace (ex + 1 + (52 - ex))%Z with 53%Z by lia. reflexivity. }
    assert (pow2 ey * pow2 (52 - ey) == inject_Z (2 ^ 52)) as H52.
    { rewrite <- pow2_add, <- pow2_inject by lia.
      replace (ey + (52 - ey))%Z with 52%Z by lia. reflexivity. }
    assert (rne (x * pow2 (52 - ex)) <= 2 ^ 53)%Z as Hmx.
    { rewrite <- (rne_inject (2 ^ 53)). apply rne_mono. nra. }
    assert (2 ^ 52 <= rne (y * pow2 (52 - ey)))%Z as Hmy.
    { rewrite <- (rne_inject (2 ^ 52)). apply rne_mono. nra. }
    rewrite Zle_Qle in Hmx, Hmy.
    assert (inject_Z (2 ^ 53) * pow2 (ex - 52) == pow2 (ex + 1)) as Ex1.
    { rewrite <- pow2_inject, <- pow2_add by lia.
      replace (53 + (ex - 52))%Z with (ex + 1)%Z by lia. reflexivity. }
    assert (inject_Z (2 ^ 52) * pow2 (ey - 52) == pow2 ey) as Ey1.
    { rewrite <- pow2_inject, <- pow2_add by lia.
      replace (52 + (ey - 52))%Z with ey by lia. reflexivity. }
    pose proof (pow2_le (ex + 1) ey ltac:(lia)) as Hmid.
    apply Qle_trans with (pow2 (ex + 1)); [rewrite <- Ex1; nra|].
    apply Qle_trans with (pow2 ey); [exact Hmid | rewrite <- Ey1; nra].
Qed.

(** The midpoint of two binary64 values, as [(lo + hi) / 2] computes it,
    lies between them and is again a binary64 value. *)
Lemma midpoint_between (lo hi : Q) :
  representable lo -> representable hi -> lo <= hi ->
  let mid := fl (fl (lo + hi) / 2) in
  representable mid /\ lo <= mid <= hi.
Proof.
  intros Hlo Hhi Hle mid.
  pose proof (representable_pos lo Hlo) as Hlo0.
  pose proof (representable_pos hi Hhi) as Hhi0.
  assert (representable (fl (lo + hi) / 2)) as Hr
    by (apply representable_half, fl_is_representable; lra).
  assert (mid == fl (lo + hi) / 2) as Emid by (apply fl_representable, Hr).
  split; [apply (representable_proper _ _ (Qeq_sym _ _ Emid)), Hr|].
  rewrite Emid.
  (* 2 lo and 2 hi are binary64 values *)
  assert (forall q, representable q -> fl (q + q) == q + q) as Hdouble.
  { intros q (m & e & Hm & E). apply fl_representable.
    exists m, (e + 1)%Z. split; [exact Hm|]. rewrite E, pow2_add.
    change (pow2 1) with 2. ring. }
  pose proof (fl_mono (lo + lo) (lo + hi) ltac:(lra) ltac:(lra)) as H1.
  pose proof (fl_mono (lo + hi) (hi + hi) ltac:(lra) ltac:(lra)) as H2.
  rewrite (Hdouble lo Hlo) in H1. rewrite (Hdouble hi Hhi) in H2.
  set (f := fl (lo + hi)) in *.
  unfold Qdiv. change (/ 2) with (1 # 2). split; lra.
Qed.

(** *** Integers *)

Section Integers.

Local Open Scope Z_scope.

(** A reduced fraction that equals an integer is that integer. *)
Lemma Qred_inject (q : Q) (k : Z) : (q == inject_Z k)%Q -> Qred q = inject_Z k.
Proof.
  intros E. rewrite (Qred_complete _ _ E).
  unfold Qred, inject_Z.
  pose proof (Z.ggcd_gcd k 1) as Hg.
  pose proof (Z.ggcd_correct_divisors k 1) as Hd.
  destruct (Z.ggcd k 1) as [g [a b]]. cbn [fst snd] in *.
  rewrite Z.gcd_1_r in Hg. subst g. destruct Hd as [Ha Hb].
  rewrite Z.mul_1_l in Ha, Hb. subst a b. reflexivity.
Qed.

Lemma ilog2_nonneg (q : Q) : (1 <= q)%Q -> 0 <= ilog2 q.
Proof.
  intros Hq. assert (0 < q)%Q as Hq0 by lra.
  pose proof (ilog2_lt q Hq0) as Hlt.
  destruct (Z_lt_le_dec (ilog2 q) 0) as [Hneg|]; [|assumption].
  exfalso. pose proof (pow2_le (ilog2 q + 1) 0 ltac:(lia)) as Hle.
  change (pow2 0) with 1%Q in Hle. lra.
Qed.

(** Rounding an integer to 53 bits gives an integer. *)
Lemma fl_integer (z : Z) : exists k, fl (inject_Z z) = inject_Z k.
Proof.
  destruct (Z.eq_dec z 0) as [->|Hz]; [exists 0; reflexivity|].
  unfold fl.
  destruct (Qeq_bool (inject_Z z) 0) eqn:E0.
  { apply Qeq_bool_eq in E0. exfalso. apply Hz.
    unfold Qeq, inject_Z in E0. cbn in E0. lia. }
  set (e := ilog2 (Qabs (inject_Z z))).
  assert (0 <= e) as He.
  { apply ilog2_nonneg. change (Qabs (inject_Z z)) with (inject_Z (Z.abs z)).
    change 1%Q with (inject_Z 1). rewrite <- Zle_Qle. lia. }
  destruct (Z_lt_le_dec e 52) as [Hlt|Hge].
  - exists z. apply Qred_inject.
    assert (inject_Z z * pow2 (52 - e) == inject_Z (z * 2 ^ (52 - e)))%Q as E1.
    { rewrite inject_Z_mult, pow2_inject by lia. reflexivity. }
    rewrite (rne_proper _ _ E1), rne_inject, inject_Z_mult.
    rewrite <- pow2_inject by lia.
    rewrite <- Qmult_assoc, <- pow2_add.
    replace (52 - e + (e - 52)) with 0 by lia.
    change (pow2 0) with 1%Q. ring.
  - eexists. apply Qred_inject.
    rewrite (pow2_inject (e - 52)) by lia. rewrite <- inject_Z_mult.
    reflexivity.
Qed.

End Integers.

End RoundingFacts.

(** ** The geometry resolver *)

Module GeometryFacts.

Import JSNumber JSNumberFacts RoundingFacts ImageProcessor.

Local Open Scope string_scope.
Local Open Scope Z_scope.

Lemma final_size_none (a b : Z) (tw th : jsval) :
  final_size (of_Z a) (of_Z b) "none" tw th = (of_Z a, of_Z b).
Proof. unfold final_size. cbn -[nround of_Z]. rewrite !nround_of_Z. reflexivity. Qed.

(** The pre-resize dimensions are the source's, in one order or the other. *)
Lemma upright_cases (img : Image) (o m : Z) :
  upright img o m =
    if xorb (exif_swaps o) ((m =? 90) || (m =? 270))
    then (of_Z (height img), of_Z (width img))
    else (of_Z (width img), of_Z (height img)).
Proof.
  unfold upright.
  destruct (exif_swaps o), ((m =? 90) || (m =? 270)); reflexivity.
Qed.

Lemma exifDeg_spec (code : Z) : exifDeg code = Spec.orientationRotation code.
Proof.
  unfold exifDeg, Spec.orientationRotation.
  destruct (Z.eqb_spec code 3) as [->|H3]; [reflexivity|].
  destruct (Z.eqb_spec code 6) as [->|H6]; [reflexivity|].
  destruct (Z.eqb_spec code 8) as [->|H8]; [reflexivity|].
  destruct code as [|p|p]; try reflexivity.
  do 4 (destruct p as [p|p|]; try reflexivity; try congruence).
Qed.

(** *** Arithmetic on positive integers *)

Local Open Scope Q_scope.

Lemma inject_Z_nonzero (z : Z) : z <> 0%Z -> Qeq_bool (inject_Z z) 0 = false.
Proof.
  intros Hz. destruct (Qeq_bool (inject_Z z) 0) eqn:E; [|reflexivity].
  apply Qeq_bool_eq in E. unfold Qeq in E. cbn in E. lia.
Qed.

Lemma inject_Z_pos (z : Z) : (0 < z)%Z -> 0 < inject_Z z.
Proof. intros H. change 0 with (inject_Z 0). rewrite <- Zlt_Qlt. exact H. Qed.

Lemma truthy_int (z : Z) : z <> 0%Z -> truthy (Num (of_Z z)) = true.
Proof. intros Hz. cbn. rewrite inject_Z_nonzero by exact Hz. reflexivity. Qed.

Lemma ndiv_int (x z : Z) :
  z <> 0%Z -> ndiv (of_Z x) (of_Z z) = Fin (fl (inject_Z x / inject_Z z)).
Proof. intros Hz. cbn. rewrite inject_Z_nonzero by exact Hz. reflexivity. Qed.

Lemma Qdiv_nonneg (x y : Q) : 0 <= x -> 0 < y -> 0 <= x / y.
Proof.
  intros Hx Hy. unfold Qdiv. apply Qmult_le_0_compat; [exact Hx|].
  apply Qlt_le_weak, Qinv_lt_0_compat, Hy.
Qed.

Lemma Qdiv_mult_cancel (x y : Q) : 0 < y -> y * (x / y) == x.
Proof. intros Hy. field. lra. Qed.

(** [scaled_bound]: a length [A] scaled by a factor [r] that is within a
    relative [u] of [s], where the exact [A * s] is at most [T]. *)
Lemma scaled_bound (A s r T : Q) :
  0 < A -> 0 <= s -> A * s <= T -> T <= 2251799813685247 ->
  s * (1 - u) <= r <= s * (1 + u) ->
  let W := inject_Z (Qfloor (fl (A * r) + (1 # 2))) in
  W < T + 1 /\ Qabs (W - A * s) < 1.
Proof.
  intros HA Hs HP HT Hr W.
  pose proof u_small as Hu. pose proof u_pos as Hu0.
  set (P := A * s) in *.
  assert (0 <= P) as HP0 by (unfold P; nra).
  assert (P * (1 - u) <= A * r <= P * (1 + u)) as Hx by (unfold P; nra).
  assert (0 <= A * r) as Hx0 by nra.
  pose proof (fl_bounds (A * r) Hx0) as Hf.
  set (x := A * r) in *. set (f := fl x) in *.
  assert (P * ((1 - u) * (1 - u)) <= f <= P * ((1 + u) * (1 + u))) as Hf2 by nra.
  assert (P * (2 * u + u * u) < 1 # 2) as Hsmall.
  { apply Qle_lt_trans with (2251799813685247 * (2 * u + u * u)); [nra|].
    apply Qle_lt_trans with
      (2251799813685247 * (2 * (1 # 9007199254740992)
                           + (1 # 9007199254740992) * (1 # 9007199254740992)));
      [nra | vm_compute; reflexivity]. }
  assert (P - (1 # 2) < f < P + (1 # 2)) as Hf3 by nra.
  pose proof (Qfloor_half_bounds f) as Hw. fold W in Hw.
  split; [lra|]. apply Qabs_Qlt_condition. lra.
Qed.

Lemma nmin_fin (x y : Q) :
  nmin (Fin x) (Fin y) = Fin (if Qle_bool x y then x else y).
Proof. cbn. destruct (Qle_bool x y); reflexivity. Qed.

(** The factor [process] scales by under 'both-fit', against the exact
    [min (T / A) (Th / B)]. *)
Lemma fit_ratio_bounds (A B T Th : Q) :
  0 < A -> 0 < B -> 0 < T -> 0 < Th ->
  let r := if Qle_bool (fl (T / A)) (fl (Th / B))
           then fl (T / A) else fl (Th / B) in
  let s := Qmin (T / A) (Th / B) in
  0 <= r /\ 0 <= s /\ A * s <= T /\ B * s <= Th /\
  s * (1 - u) <= r <= s * (1 + u).
Proof.
  intros HA HB HT HTh r s.
  pose proof u_small as Hu. pose proof u_pos as Hu0.
  assert (0 <= T / A) as Hx by (apply Qdiv_nonneg; lra).
  assert (0 <= Th / B) as Hy by (apply Qdiv_nonneg; lra).
  pose proof (Qdiv_mult_cancel T A HA) as HxA.
  pose proof (Qdiv_mult_cancel Th B HB) as HyB.
  pose proof (fl_bounds _ Hx) as Hfx. pose proof (fl_bounds _ Hy) as Hfy.
  pose proof (fl_nonneg _ Hx) as Hfx0. pose proof (fl_nonneg _ Hy) as Hfy0.
  assert (s <= T / A) as Hsx by apply Q.le_min_l.
  assert (s <= Th / B) as Hsy by apply Q.le_min_r.
  assert (0 <= s) as Hs0 by (apply Q.min_glb; assumption).
  set (x := T / A) in *. set (y := Th / B) in *.
  set (fx := fl x) in *. set (fy := fl y) in *.
  split; [unfold r; destruct (Qle_bool fx fy); assumption|].
  split; [exact Hs0|].
  split; [nra|]. split; [nra|].
  unfold r. destruct (Qle_bool fx fy) eqn:Hb.
  - apply Qle_bool_iff in Hb.
    destruct (Q.min_spec x y) as [[Hlt He]|[Hle He]]; fold s in He; nra.
  - assert (fy < fx) as Hlt.
    { apply Qnot_le_lt. intros H. apply Qle_bool_iff in H. congruence. }
    destruct (Q.min_spec x y) as [[Hl He]|[Hle He]]; fold s in He; nra.
Qed.

Local Open Scope Z_scope.


(** 'both-fit' with targets below [2^51]: the result is inside the box,
    and each side is the exact scaling, rounded. *)
Lemma final_size_fit (a b t t' : Z) :
  0 < a -> 0 < b -> 0 < t < 2 ^ 51 -> 0 < t' < 2 ^ 51 ->
  exists W H,
    final_size (of_Z a) (of_Z b) "both-fit" (Num (of_Z t)) (Num (of_Z t'))
      = (of_Z W, of_Z H) /\
    W <= t /\ H <= t' /\
    Spec.scaled_by (Spec.fit_scale a b t t') a W /\
    Spec.scaled_by (Spec.fit_scale a b t t') b H.
Proof.
  intros Ha Hb Ht Ht'. unfold final_size.
  pose proof (inject_Z_pos a Ha) as HA. pose proof (inject_Z_pos b Hb) as HB.
  pose proof (inject_Z_pos t (proj1 Ht)) as HT.
  pose proof (inject_Z_pos t' (proj1 Ht')) as HT'.
  assert (inject_Z t <= 2251799813685247)%Q as HTmax.
  { change 2251799813685247%Q with (inject_Z 2251799813685247).
    rewrite <- Zle_Qle. change (2 ^ 51) with 2251799813685248 in Ht. lia. }
  assert (inject_Z t' <= 2251799813685247)%Q as HTmax'.
  { change 2251799813685247%Q with (inject_Z 2251799813685247).
    rewrite <- Zle_Qle. change (2 ^ 51) with 2251799813685248 in Ht'. lia. }
  cbn [String.eqb Ascii.eqb Bool.eqb].
  rewrite !truthy_int by lia. cbn [andb to_number].
  rewrite !ndiv_int by lia. rewrite nmin_fin.
  pose proof (fit_ratio_bounds (inject_Z a) (inject_Z b) (inject_Z t)
                (inject_Z t') HA HB HT HT') as (Hr & Hs & HsA & HsB & Hrs).
  fold (Spec.fit_scale a b t t') in Hs, HsA, HsB, Hrs.
  set (r := if Qle_bool _ _ then _ else _) in *.
  set (s := Spec.fit_scale a b t t') in *.
  pose proof (scaled_bound (inject_Z a) s r (inject_Z t) HA Hs HsA HTmax Hrs)
    as [HW1 HW2].
  pose proof (scaled_bound (inject_Z b) s r (inject_Z t') HB Hs HsB HTmax' Hrs)
    as [HH1 HH2].
  eexists _, _. split; [reflexivity|].
  split; [|split; [|split; [exact HW2 | exact HH2]]].
  - change 1%Q with (inject_Z 1) in HW1. rewrite <- inject_Z_plus in HW1.
    rewrite <- Zlt_Qlt in HW1. lia.
  - change 1%Q with (inject_Z 1) in HH1. rewrite <- inject_Z_plus in HH1.
    rewrite <- Zlt_Qlt in HH1. lia.
Qed.



Section Process.

Variable Blob : Type.
Variable size : Blob -> Z.
Variable toBlob : Canvas -> string -> number -> Blob.

(** Once the file decodes, [process] resolves, and its canvas is the one [draw] makes. *)
Lemma process_resolves (file : File) (img : Image) (options : Options) :
  decoded file = Some img ->
  exists run, process Blob size toBlob file options = Resolved run /\
              canvas run = draw img options /\
              mime run = mimeType file options.
Proof.
  intros Hd. unfold ImageProcessor.process, loadImage. rewrite Hd.
  destruct (encode _ _ _ _ _ _) as [log b].
  eexists. split; [reflexivity|]. split; reflexivity.
Qed.

(** C1 (amended).  With resize mode 'none', for every orientation code in
    1..8 and manual rotation in {0, 90, 180, 270}, the rotation applied to
    the canvas is (orientationRotation + manualRotation) mod 360; and for
    every code other than 5 and 7 the canvas has the source dimensions,
    swapped exactly when that net rotation is 90 or 270.  (Codes 5 and 7
    satisfy the guard [5 <= orientation <= 8] and so swap, while their
    rotation is 0.) *)
Theorem net_rotation_and_swap
    (file : File) (img : Image) (options : Options) (code manual : Z) :
  decoded file = Some img ->
  orientation options = Some code -> 1 <= code <= 8 ->
  manualRotation options = Some manual -> In manual [0; 90; 180; 270] ->
  or_default (resizeMode options) "none" = "none" ->
  exists run,
    process Blob size toBlob file options = Resolved run /\
    Spec.net_rotation_rule code manual (canvas run) /\
    (code <> 5 -> code <> 7 ->
     Spec.swap_rule img code manual (canvas run)).
Proof.
  intros Hd Ho Hcode Hm Hmanual Hmode.
  destruct (process_resolves file img options Hd) as (run & Hrun & Hc & _).
  exists run. split; [exact Hrun|]. rewrite Hc.
  unfold Spec.net_rotation_rule, Spec.swap_rule, draw.
  rewrite Ho, Hm, Hmode. cbn [or_default].
  rewrite upright_cases.
  assert (code = 1 \/ code = 2 \/ code = 3 \/ code = 4 \/
          code = 5 \/ code = 6 \/ code = 7 \/ code = 8) as Hc8 by lia.
  cbn [In] in Hmanual.
  split.
  - destruct (xorb _ _); rewrite final_size_none; cbn [rotate];
      unfold Spec.netRotation, totalDeg; rewrite exifDeg_spec;
      intuition (subst; reflexivity).
  - intros H5 H7.
    destruct Hc8 as [ -> | [ -> | [ -> | [ -> | [ -> | [ -> | [ -> | -> ] ] ] ] ] ] ];
      try congruence;
      destruct Hmanual as [ <- | [ <- | [ <- | [ <- | [] ] ] ] ];
      cbn [xorb exif_swaps Z.leb Z.compare Pos.compare Pos.compare_cont
           andb orb Z.eqb Pos.eqb];
      rewrite final_size_none; reflexivity.
Qed.

(** C2 (amended).  A 4000 by 3000 source with orientation code 6, manual
    rotation 0 and resize mode 'width' with target 800: the upright
    dimensions are (3000, 4000), the manual rotation does not swap them
    again, the net rotation is 90, and the output is exactly 800 by 1067
    (the height is 4000 / 3000 * 800, rounded). *)
Theorem fit_width_800_of_4000x3000_code_6
    (fname ftype : string) (th maxSize : jsval) (fmt : option string) :
  let file := {| name := fname; type := ftype;
                 decoded := Some {| width := 4000; height := 3000 |} |} in
  let options := {| orientation := Some 6; manualRotation := Some 0;
                    resizeMode := Some "width";
                    targetWidth := Num (of_Z 800); targetHeight := th;
                    maxSizeBytes := maxSize; exportFormat := fmt |} in
  exists run,
    process Blob size toBlob file options = Resolved run /\
    upright {| width := 4000; height := 3000 |} 6 0 = (of_Z 3000, of_Z 4000) /\
    rotate (canvas run) = 90 /\
    Spec.sized (canvas run) 800 1067.
Proof.
  intros file options.
  destruct (process_resolves file _ options eq_refl) as (run & Hrun & Hc & _).
  exists run. split; [exact Hrun|]. rewrite Hc.
  split; [reflexivity|]. split; [reflexivity|].
  split; vm_compute; reflexivity.
Qed.

Lemma exif_swaps_false (o : Z) : ~ In o [5; 6; 7; 8] -> exif_swaps o = false.
Proof.
  intros H. unfold exif_swaps. cbn [In] in H.
  destruct (Z.leb_spec 5 o), (Z.leb_spec o 8); try reflexivity.
  exfalso. apply H. lia.
Qed.

Lemma exifDeg_0 (o : Z) : ~ In o [3; 6; 8] -> exifDeg o = 0.
Proof.
  intros H. unfold exifDeg. cbn [In] in H.
  destruct (Z.eqb_spec o 3); [lia|].
  destruct (Z.eqb_spec o 6); [lia|].
  destruct (Z.eqb_spec o 8); [lia|]. reflexivity.
Qed.

(** C10.  An orientation that is not 3, 5, 6, 7 or 8 (be it 2, 4, 0, 9 or
    99) makes [process] return what it returns for orientation 1: rotation
    0 and no swap of the dimensions. *)
Theorem unrotated_codes_behave_as_code_1
    (file : File) (options : Options) (o : Z) :
  or_default (orientation options) 1 = o ->
  ~ In o [3; 5; 6; 7; 8] ->
  process Blob size toBlob file options =
    process Blob size toBlob file (with_orientation (Some 1) options)
  /\ exifDeg o = 0 /\ exif_swaps o = false.
Proof.
  intros Ho Hn. cbn [In] in Hn.
  assert (exif_swaps o = false) as Hs by (apply exif_swaps_false; cbn [In]; tauto).
  assert (exifDeg o = 0) as He by (apply exifDeg_0; cbn [In]; tauto).
  split; [|split; assumption].
  unfold ImageProcessor.process. destruct (loadImage file) as [|img]; [reflexivity|].
  assert (draw img options = draw img (with_orientation (Some 1) options)) as Hd.
  { unfold draw. rewrite Ho. cbn [or_default with_orientation orientation
      manualRotation resizeMode targetWidth targetHeight].
    unfold upright, totalDeg. rewrite Hs, He. reflexivity. }
  rewrite Hd. reflexivity.
Qed.

Lemma missing_falsy (v : jsval) : Spec.missing v -> truthy v = false.
Proof. intros []; reflexivity. Qed.

Lemma final_size_missing (uW uH : number) (mode : string) (tw th : jsval) :
  Spec.target_missing mode tw th ->
  final_size uW uH mode tw th = final_size uW uH "none" tw th.
Proof.
  intros H. unfold final_size.
  destruct H as [[-> H]|[[-> H]|[[-> | ->] [H|H]]]];
    apply missing_falsy in H; cbn [String.eqb Ascii.eqb Bool.eqb andb];
    rewrite H; rewrite ?andb_false_r; reflexivity.
Qed.

(** C5 (amended).  When a resize mode other than 'none' is selected and a
    target it needs is missing (undefined, null, NaN) or zero, [process]
    does not fail: it skips the resize and returns what the same call with
    mode 'none' returns. *)
Theorem missing_target_skips_resize
    (file : File) (img : Image) (options : Options) (mode : string) :
  decoded file = Some img ->
  resizeMode options = Some mode ->
  Spec.target_missing mode (targetWidth options) (targetHeight options) ->
  (exists run, process Blob size toBlob file options = Resolved run) /\
  process Blob size toBlob file options =
    process Blob size toBlob file (with_resizeMode (Some "none") options).
Proof.
  intros Hd Hm Hmiss. split.
  - destruct (process_resolves file img options Hd) as (run & Hrun & _).
    exists run. exact Hrun.
  - unfold ImageProcessor.process. destruct (loadImage file) as [|img']; [reflexivity|].
    assert (draw img' options =
            draw img' (with_resizeMode (Some "none") options)) as Hdraw.
    { unfold draw. rewrite Hm.
      cbn [or_default with_resizeMode orientation manualRotation
           resizeMode targetWidth targetHeight].
      destruct (upright _ _ _) as [uW uH].
      rewrite (final_size_missing uW uH mode _ _ Hmiss). reflexivity. }
    rewrite Hdraw. reflexivity.
Qed.

Lemma upright_positive (img : Image) (o m : Z) :
  0 < width img -> 0 < height img ->
  exists a b, upright img o m = (of_Z a, of_Z b) /\ 0 < a /\ 0 < b.
Proof.
  intros Hw Hh. rewrite upright_cases.
  destruct (xorb _ _); eexists _, _; (split; [reflexivity|]); split; assumption.
Qed.


(** C4 (amended).  For positive source dimensions and positive integer
    targets below 2^51, 'both-fit' gives a final width of at most the
    target width and a final height of at most the target height, and each
    final side is less than one pixel away from the pre-resize side scaled
    by the single factor min (tw / uprightW) (th / uprightH). *)
Theorem fit_box_stays_inside
    (file : File) (img : Image) (options : Options) (tw th : Z) :
  decoded file = Some img ->
  0 < width img -> 0 < height img ->
  resizeMode options = Some "both-fit" ->
  targetWidth options = Num (of_Z tw) -> 0 < tw < 2 ^ 51 ->
  targetHeight options = Num (of_Z th) -> 0 < th < 2 ^ 51 ->
  exists run uprightW uprightH W H,
    process Blob size toBlob file options = Resolved run /\
    upright img (or_default (orientation options) 1)
      (or_default (manualRotation options) 0) = (of_Z uprightW, of_Z uprightH) /\
    Spec.sized (canvas run) W H /\
    W <= tw /\ H <= th /\
    Spec.scaled_by (Spec.fit_scale uprightW uprightH tw th) uprightW W /\
    Spec.scaled_by (Spec.fit_scale uprightW uprightH tw th) uprightH H.
Proof.
  intros Hd Hw Hh Hm Htw Htwb Hth Hthb.
  destruct (process_resolves file img options Hd) as (run & Hrun & Hc & _).
  destruct (upright_positive img (or_default (orientation options) 1)
              (or_default (manualRotation options) 0) Hw Hh)
    as (a & b & Hu & Ha & Hb).
  destruct (final_size_fit a b tw th Ha Hb Htwb Hthb)
    as (W & H & Hf & HW & HH & HsW & HsH).
  exists run, a, b, W, H. split; [exact Hrun|]. split; [exact Hu|].
  rewrite Hc. unfold Spec.sized, draw. rewrite Hu, Hm, Htw, Hth.
  cbn [or_default]. rewrite Hf. cbn [canvas_width canvas_height].
  repeat split; assumption.
Qed.

(** X1.  The identity case: with orientation code 1, no manual rotation
    and resize mode 'none', the canvas has the source dimensions and is not
    rotated. *)
Theorem identity_case (file : File) (img : Image) (options : Options) :
  decoded file = Some img ->
  or_default (orientation options) 1 = 1 ->
  or_default (manualRotation options) 0 = 0 ->
  or_default (resizeMode options) "none" = "none" ->
  exists run,
    process Blob size toBlob file options = Resolved run /\
    Spec.sized (canvas run) (width img) (height img) /\
    rotate (canvas run) = 0.
Proof.
  intros Hd Ho Hm Hmode.
  destruct (process_resolves file img options Hd) as (run & Hrun & Hc & _).
  exists run. split; [exact Hrun|]. rewrite Hc.
  unfold Spec.sized, draw. rewrite Ho, Hm, Hmode.
  rewrite upright_cases.
  change (xorb (exif_swaps 1) ((0 =? 90) || (0 =? 270))) with false.
  cbv iota. rewrite final_size_none. repeat split.
Qed.

(** X2.  'both-force' with positive integer targets of at most
    [2^31 - 1], the largest side a canvas element keeps, makes the canvas
    exactly the target width by the target height, whatever the source and
    its orientation. *)
Theorem force_box_is_exact
    (file : File) (img : Image) (options : Options) (tw th : Z) :
  decoded file = Some img ->
  resizeMode options = Some "both-force" ->
  targetWidth options = Num (of_Z tw) -> 0 < tw <= Range.CANVAS_MAX ->
  targetHeight options = Num (of_Z th) -> 0 < th <= Range.CANVAS_MAX ->
  exists run,
    process Blob size toBlob file options = Resolved run /\
    Range.dom_sized (canvas run) tw th.
Proof.
  intros Hd Hmode Htw Htwp Hth Hthp.
  destruct (process_resolves file img options Hd) as (run & Hrun & Hc & _).
  exists run. split; [exact Hrun|]. rewrite Hc.
  unfold Range.dom_sized, Range.dom_side, Spec.sized, draw.
  rewrite Hmode, Htw, Hth. cbn [or_default].
  destruct (upright _ _ _) as [uW uH]. unfold final_size.
  cbn [String.eqb Ascii.eqb Bool.eqb].
  rewrite !truthy_int by lia. cbn [andb to_number].
  rewrite !nround_of_Z. cbn [canvas_width canvas_height].
  split; [split; reflexivity|]. split; lia.
Qed.

End Process.

(** *** Runs on the sample file *)

Import Sample.

(** X1, witness. *)
Lemma identity_case_witness :
  exists run,
    Sample.process (photo 4000 3000) (options 1 0 "none" Null Null Null)
      = Resolved run /\
    Spec.sized (canvas run) 4000 3000 /\
    rotate (canvas run) = 0.
Proof.
  apply (identity_case Blob size toBlob (photo 4000 3000)
           {| width := 4000; height := 3000 |}
           (options 1 0 "none" Null Null Null));
    reflexivity.
Defined.

(** X2, witness. *)
Lemma force_box_is_exact_witness :
  exists run,
    Sample.process (photo 4000 3000)
      (options 6 0 "both-force" (int 640) (int 480) Null) = Resolved run /\
    Range.dom_sized (canvas run) 640 480.
Proof.
  apply (force_box_is_exact Blob size toBlob (photo 4000 3000)
           {| width := 4000; height := 3000 |}
           (options 6 0 "both-force" (int 640) (int 480) Null) 640 480);
    try reflexivity; unfold Range.CANVAS_MAX; lia.
Defined.

Example code_5_run :
  let c := draw {| width := 4000; height := 3000 |}
             (options 5 0 "none" Null Null Null) in
  Spec.sized c 3000 4000 /\ rotate c = 0.
Proof. vm_compute. repeat split. Qed.

Example code_6_fit_width_run :
  let c := draw {| width := 4000; height := 3000 |}
             (options 6 0 "width" (int 800) Null Null) in
  Spec.sized c 800 1067 /\ rotate c = 90.
Proof. vm_compute. repeat split. Qed.

Example manual_90_run :
  let c := draw {| width := 4000; height := 3000 |}
             (options 1 90 "none" Null Null Null) in
  Spec.sized c 3000 4000 /\ rotate c = 90.
Proof. vm_compute. repeat split. Qed.

Example thin_image_run :
  Spec.sized
    (draw {| width := 1000; height := 1 |}
       (options 1 0 "width" (int 1) Null Null)) 1 0.
Proof. vm_compute. repeat split. Qed.

Example huge_target_run :
  Spec.sized
    (draw {| width := 20112; height := 119 |}
       (options 1 0 "both-fit" (int 2773197991037027)
          (int 2157471120073373) Null))
    2773197991037028 16408639664549.
Proof. vm_compute. repeat split. Qed.

Example null_target_run :
  Spec.sized
    (draw {| width := 4000; height := 3000 |}
       (options 6 0 "width" Null Null Null)) 3000 4000.
Proof. vm_compute. repeat split. Qed.

Ltac run_sample Hrun :=
  vm_compute in Hrun; injection Hrun as Hrun; subst.

(** C1, witness: a 4000 by 3000 photo, code 6, turned by 90 more. *)
Lemma net_rotation_and_swap_witness :
  exists run,
    Sample.process (photo 4000 3000) (options 6 90 "none" Null Null Null)
      = Resolved run /\
    Spec.net_rotation_rule 6 90 (canvas run) /\
    (6 <> 5 -> 6 <> 7 ->
     Spec.swap_rule {| width := 4000; height := 3000 |} 6 90 (canvas run)).
Proof.
  apply (net_rotation_and_swap Blob size toBlob (photo 4000 3000)
           {| width := 4000; height := 3000 |}
           (options 6 90 "none" Null Null Null) 6 90);
    [reflexivity | reflexivity | lia | reflexivity | cbn; auto | reflexivity].
Defined.

(** C1, counterexample: with code 5 and no manual rotation the net
    rotation is 0, yet the 4000 by 3000 photo comes out 3000 by 4000. *)
Lemma code_5_swaps_without_quarter_turn :
  ~ (exists run,
       Sample.process (photo 4000 3000) (options 5 0 "none" Null Null Null)
         = Resolved run /\
       Spec.net_rotation_rule 5 0 (canvas run) /\
       Spec.swap_rule {| width := 4000; height := 3000 |} 5 0 (canvas run)).
Proof.
  intros (run & Hrun & _ & Hswap). run_sample Hrun.
  vm_compute in Hswap. discriminate Hswap.
Qed.

(** C2, counterexample: that output is not 800 by 600. *)
Lemma fit_width_800_is_not_800x600 :
  ~ (exists run,
       Sample.process (photo 4000 3000)
         (options 6 0 "width" (int 800) Null Null) = Resolved run /\
       Spec.sized (canvas run) 800 600).
Proof.
  intros (run & Hrun & _ & Hh). run_sample Hrun.
  vm_compute in Hh. discriminate Hh.
Qed.





(** C4, witness: a 4000 by 3000 photo, code 6, fitted into 800 by 800. *)
Lemma fit_box_stays_inside_witness :
  exists run uprightW uprightH W H,
    Sample.process (photo 4000 3000)
      (options 6 0 "both-fit" (int 800) (int 800) Null) = Resolved run /\
    upright {| width := 4000; height := 3000 |} 6 0
      = (of_Z uprightW, of_Z uprightH) /\
    Spec.sized (canvas run) W H /\
    W <= 800 /\ H <= 800 /\
    Spec.scaled_by (Spec.fit_scale uprightW uprightH 800 800) uprightW W /\
    Spec.scaled_by (Spec.fit_scale uprightW uprightH 800 800) uprightH H.
Proof.
  apply (fit_box_stays_inside Blob size toBlob (photo 4000 3000)
           {| width := 4000; height := 3000 |}
           (options 6 0 "both-fit" (int 800) (int 800) Null) 800 800);
    [reflexivity | reflexivity | reflexivity | reflexivity | reflexivity
    | split; reflexivity | reflexivity | split; reflexivity].
Defined.

(** C4, counterexample: a 20112 by 119 image fitted into a box
    2773197991037027 wide comes out one pixel wider than the box (the
    product of the width and the rounded ratio lies half a pixel above the
    target). *)
Lemma huge_target_overflows_the_box :
  ~ (exists run W H,
       Sample.process (photo 20112 119)
         (options 1 0 "both-fit" (int 2773197991037027)
            (int 2157471120073373) Null) = Resolved run /\
       Spec.sized (canvas run) W H /\
       W <= 2773197991037027 /\ H <= 2157471120073373).
Proof.
  intros (run & W & H & Hrun & [Hw _] & HW & _). run_sample Hrun.
  vm_compute in Hw. injection Hw as Hw. lia.
Qed.

(** C5, witness: mode 'width' with a null target width. *)
Lemma missing_target_skips_resize_witness :
  (exists run,
     Sample.process (photo 4000 3000) (options 6 0 "width" Null Null Null)
       = Resolved run) /\
  Sample.process (photo 4000 3000) (options 6 0 "width" Null Null Null) =
    Sample.process (photo 4000 3000)
      (with_resizeMode (Some "none") (options 6 0 "width" Null Null Null)).
Proof.
  apply (missing_target_skips_resize Blob size toBlob (photo 4000 3000)
           {| width := 4000; height := 3000 |}
           (options 6 0 "width" Null Null Null) "width");
    [reflexivity | reflexivity | left; split; [reflexivity | constructor]].
Defined.

(** C5, counterexample: mode 'width' with a null target width is not
    rejected. *)
Lemma missing_target_does_not_fail :
  Spec.target_missing "width" Null Null /\
  Sample.process (photo 4000 3000) (options 6 0 "width" Null Null Null)
    <> Rejected.
Proof.
  split; [left; split; [reflexivity | constructor]|].
  vm_compute. discriminate.
Qed.

(** C10, witness: the mirrored code 2. *)
Lemma unrotated_codes_behave_as_code_1_witness :
  Sample.process (photo 4000 3000) (options 2 90 "none" Null Null Null) =
    Sample.process (photo 4000 3000)
      (with_orientation (Some 1) (options 2 90 "none" Null Null Null))
  /\ exifDeg 2 = 0 /\ exif_swaps 2 = false.
Proof.
  apply (unrotated_codes_behave_as_code_1 Blob size toBlob (photo 4000 3000)
           (options 2 90 "none" Null Null Null) 2);
    [reflexivity | cbn; lia].
Defined.

End GeometryFacts.

(** ** The size-constrained encoder *)

Module EncoderFacts.

Import JSNumber JSNumberFacts ImageProcessor GeometryFacts.

Local Open Scope string_scope.
Local Open Scope Z_scope.

Lemma nleb_of_Z (a b : Z) : nleb (of_Z a) (of_Z b) = (a <=? b).
Proof.
  cbn. destruct (Z.leb_spec a b) as [H|H].
  - apply Qle_bool_iff. rewrite <- Zle_Qle. exact H.
  - destruct (Qle_bool (inject_Z a) (inject_Z b)) eqn:E; [|reflexivity].
    apply Qle_bool_iff in E. rewrite <- Zle_Qle in E. lia.
Qed.

Lemma find_snoc {A : Type} (f : A -> bool) (l : list A) (x : A) :
  find f (l ++ [x]) =
    match find f l with
    | Some y => Some y
    | None => if f x then Some x else None
    end.
Proof.
  induction l as [|a l IH]; cbn; [reflexivity|].
  destruct (f a); [reflexivity | exact IH].
Qed.

Lemma find_pointwise {A : Type} (f g : A -> bool) (l : list A) :
  (forall x, f x = g x) -> find f l = find g l.
Proof.
  intros H. induction l as [|a l IH]; cbn; [reflexivity|].
  rewrite H, IH. reflexivity.
Qed.

Lemma last_meeting_cons (meets : number -> bool) (q : number) (rest : list number) :
  Spec.last_meeting meets (q :: rest) =
    match Spec.last_meeting meets rest with
    | Some y => Some y
    | None => if meets q then Some q else None
    end.
Proof. unfold Spec.last_meeting. cbn [rev]. apply find_snoc. Qed.

Lemma last_meeting_meets (meets : number -> bool) (probes : list number) (q : number) :
  Spec.last_meeting meets probes = Some q -> meets q = true.
Proof. intros H. apply find_some in H. apply H. Qed.

Section Encoder.

Variable Blob : Type.
Variable size : Blob -> Z.
Variable toBlob : Canvas -> string -> number -> Blob.

Section Loop.

Variable getBlob : number -> Blob.
Variable limit : number.

Let meets (q : number) : bool := fits Blob size limit (getBlob q).

(** The loop from a state with [n] turns to go. *)
Lemma search_loop_spec (n : nat) :
  forall s : Search Blob,
    attempts s = 10 - Z.of_nat n ->
    exists probes,
      List.length probes = n /\
      Spec.bisection meets (minQ s) (maxQ s) probes /\
      calls (search_loop Blob size getBlob limit n s)
        = (calls s ++ probes)%list /\
      attempts (search_loop Blob size getBlob limit n s) = 10 /\
      bestBlob (search_loop Blob size getBlob limit n s) =
        match Spec.last_meeting meets probes with
        | Some q => Some (getBlob q)
        | None => bestBlob s
        end.
Proof.
  induction n as [|n IH]; intros s Hs.
  - exists []. cbn. rewrite app_nil_r. repeat split. lia.
  - cbn [search_loop].
    assert ((attempts s <? 10) = true) as Hguard by (apply Z.ltb_lt; lia).
    rewrite Hguard. clear Hguard.
    set (midQ := Spec.midpoint (minQ s) (maxQ s)).
    assert (search_step Blob size getBlob limit s =
            if meets midQ
            then {| minQ := midQ; maxQ := maxQ s;
                    bestBlob := Some (getBlob midQ);
                    attempts := attempts s + 1;
                    calls := (calls s ++ [midQ])%list |}
            else {| minQ := minQ s; maxQ := midQ;
                    bestBlob := bestBlob s;
                    attempts := attempts s + 1;
                    calls := (calls s ++ [midQ])%list |}) as Hstep
      by reflexivity.
    rewrite Hstep. clear Hstep.
    destruct (meets midQ) eqn:Hm;
      match goal with
      | |- context [search_loop _ _ _ _ n ?s'] =>
          destruct (IH s') as (probes & Hlen & Hbis & Hcalls & Hatt & Hbest);
            [cbn [attempts]; lia|]
      end;
      cbn [minQ maxQ calls bestBlob] in Hbis, Hcalls, Hbest;
      exists (midQ :: probes);
      rewrite Hcalls, Hatt, Hbest, last_meeting_cons, Hm;
      cbn [Spec.bisection List.length]; fold midQ; rewrite Hm;
      rewrite <- app_assoc; cbn [app];
      (split; [congruence|]); (split; [split; [reflexivity | exact Hbis]|]);
      (split; [reflexivity|]); (split; [reflexivity|]);
      destruct (Spec.last_meeting meets probes); reflexivity.
Qed.

(** X3.  The search terminates: the loop is left with its guard
    [attempts < 10] false, so the fuel never cuts it short. *)
Lemma search_stops (s : Search Blob) :
  (attempts (search Blob size getBlob limit s) <? 10) = false.
Proof.
  unfold search. apply Z.ltb_ge.
  destruct (Z.le_gt_cases (attempts s) 10) as [Hle|Hgt].
  - destruct (search_loop_spec (Z.to_nat (10 - attempts s)) s)
      as (_ & _ & _ & _ & -> & _); lia.
  - replace (Z.to_nat (10 - attempts s)) with O by lia. cbn. lia.
Qed.

End Loop.

(** With a ceiling of [limit] bytes and a JPEG, [encode] first tries
    quality 1. *)
Lemma encode_with_ceiling (c : Canvas) (limit : Z) :
  0 < limit ->
  encode Blob size toBlob c "image/jpeg" (Num (of_Z limit)) =
    let getBlob := toBlob c "image/jpeg" in
    if size (getBlob (lit 1)) <=? limit then ([lit 1], getBlob (lit 1))
    else
      let s := search Blob size getBlob (of_Z limit)
                 {| minQ := lit (1 # 100); maxQ := lit 1; bestBlob := None;
                    attempts := 0; calls := [lit 1] |} in
      match bestBlob s with
      | Some blob => (calls s, blob)
      | None => ((calls s ++ [lit (1 # 100)])%list, getBlob (lit (1 # 100)))
      end.
Proof.
  intros Hl. unfold encode. rewrite truthy_int by lia.
  cbn [negb orb String.eqb Ascii.eqb Bool.eqb to_number].
  unfold fits. rewrite nleb_of_Z. reflexivity.
Qed.

(** C7.  With a size ceiling and a JPEG output, the first encoding is at
    quality 1.0, and when its size is within the ceiling it is returned at
    once: no other encoding is made. *)
Theorem max_quality_within_ceiling
    (file : File) (img : Image) (options : Options) (limit : Z) :
  decoded file = Some img ->
  maxSizeBytes options = Num (of_Z limit) -> 0 < limit ->
  mimeType file options = "image/jpeg" ->
  size (toBlob (draw img options) "image/jpeg" (lit 1)) <= limit ->
  exists run,
    process Blob size toBlob file options = Resolved run /\
    encodings run = [lit 1] /\
    blob run = toBlob (draw img options) "image/jpeg" (lit 1).
Proof.
  intros Hd Hmax Hl Hmime Hsize.
  unfold ImageProcessor.process, loadImage. rewrite Hd, Hmax, Hmime.
  rewrite encode_with_ceiling by exact Hl. cbv zeta.
  apply Z.leb_le in Hsize. rewrite Hsize.
  eexists. split; [reflexivity|]. split; reflexivity.
Qed.

(** C6.  With a size ceiling, a JPEG output and a quality-1.0 encoding
    above the ceiling, exactly 10 probes follow, each the midpoint of the
    bounds, which start at 0.01 and 1.0; a probe within the ceiling raises
    the lower bound, the others lower the upper bound.  The result is the
    encoding of the last probe that was within the ceiling, or, when none
    was, one more encoding at quality 0.01, whatever its size. *)
Theorem size_search_bisects
    (file : File) (img : Image) (options : Options) (limit : Z) :
  decoded file = Some img ->
  maxSizeBytes options = Num (of_Z limit) -> 0 < limit ->
  mimeType file options = "image/jpeg" ->
  limit < size (toBlob (draw img options) "image/jpeg" (lit 1)) ->
  exists run probes,
    process Blob size toBlob file options = Resolved run /\
    List.length probes = 10%nat /\
    Spec.bisection
      (fun q => size (toBlob (draw img options) "image/jpeg" q) <=? limit)
      (lit (1 # 100)) (lit 1) probes /\
    match
      Spec.last_meeting
        (fun q => size (toBlob (draw img options) "image/jpeg" q) <=? limit)
        probes
    with
    | Some q =>
        encodings run = lit 1 :: probes /\
        blob run = toBlob (draw img options) "image/jpeg" q /\
        size (blob run) <= limit
    | None =>
        encodings run = (lit 1 :: probes ++ [lit (1 # 100)])%list /\
        blob run = toBlob (draw img options) "image/jpeg" (lit (1 # 100))
    end.
Proof.
  intros Hd Hmax Hl Hmime Hsize.
  unfold ImageProcessor.process, loadImage. rewrite Hd, Hmax, Hmime.
  rewrite encode_with_ceiling by exact Hl. cbv zeta.
  apply Z.leb_gt in Hsize. rewrite Hsize. clear Hsize.
  set (getBlob := toBlob (draw img options) "image/jpeg").
  set (s0 := {| minQ := lit (1 # 100); maxQ := lit 1; bestBlob := None;
                attempts := 0; calls := [lit 1] |}).
  destruct (search_loop_spec getBlob (of_Z limit) 10 s0 eq_refl)
    as (probes & Hlen & Hbis & Hcalls & _ & Hbest).
  assert (forall q, fits Blob size (of_Z limit) (getBlob q)
                    = (size (getBlob q) <=? limit)) as Hfits
    by (intros q; apply nleb_of_Z).
  assert (Spec.last_meeting (fun q => fits Blob size (of_Z limit) (getBlob q)) probes
          = Spec.last_meeting (fun q => size (getBlob q) <=? limit) probes) as Hlast.
  { unfold Spec.last_meeting. apply find_pointwise. exact Hfits. }
  assert (forall lo hi l,
            Spec.bisection (fun q => fits Blob size (of_Z limit) (getBlob q)) lo hi l ->
            Spec.bisection (fun q => size (getBlob q) <=? limit) lo hi l) as Hbis'.
  { intros lo hi l. revert lo hi.
    induction l as [|q l IHl]; intros lo hi; cbn [Spec.bisection]; [trivial|].
    rewrite Hfits. intros [Hq Hrest]. split; [exact Hq|].
    destruct (size (getBlob q) <=? limit); apply IHl; exact Hrest. }
  apply Hbis' in Hbis. rewrite Hlast in Hbest. clear Hbis' Hlast.
  change (search Blob size getBlob (of_Z limit) s0)
    with (search_loop Blob size getBlob (of_Z limit) 10 s0).
  rewrite Hbest, Hcalls. cbn [bestBlob calls s0 app].
  destruct (Spec.last_meeting _ probes) as [q|] eqn:Hq;
    eexists _, probes; (split; [reflexivity|]);
    (split; [exact Hlen|]); (split; [exact Hbis|]);
    rewrite Hq; cbn [encodings blob].
  - split; [reflexivity|]. split; [reflexivity|].
    apply last_meeting_meets in Hq. apply Z.leb_le. exact Hq.
  - split; reflexivity.
Qed.

(** C8 (amended).  When the size ceiling is absent, or the output is a PNG,
    exactly one encoding is made, at quality 0.95, and it is returned. *)
Theorem single_encode_at_default_quality
    (file : File) (img : Image) (options : Options) :
  decoded file = Some img ->
  Spec.absent (maxSizeBytes options) \/ mimeType file options = "image/png" ->
  exists run,
    process Blob size toBlob file options = Resolved run /\
    encodings run = [lit (95 # 100)] /\
    blob run =
      toBlob (draw img options) (mimeType file options) (lit (95 # 100)).
Proof.
  intros Hd Hcase.
  unfold ImageProcessor.process, loadImage. rewrite Hd.
  assert (negb (truthy (maxSizeBytes options))
          || String.eqb (mimeType file options) "image/png" = true) as Hguard.
  { destruct Hcase as [[H|H]|H]; rewrite H; [reflexivity | reflexivity |].
    apply orb_true_r. }
  unfold encode. rewrite Hguard.
  eexists. split; [reflexivity|]. split; reflexivity.
Qed.

End Encoder.

(** *** Runs on the sample file *)

Import Sample.

Example no_ceiling_run :
  match Sample.process (photo 4000 3000) (options 1 0 "none" Null Null Null)
  with
  | Resolved run => encodings run = [lit (95 # 100)] /\ mime run = "image/jpeg"
  | Rejected => False
  end.
Proof. vm_compute. repeat split. Qed.

Example ceiling_50000_run :
  match Sample.process (photo 4000 3000)
          (options 1 0 "none" Null Null (int 50000))
  with
  | Resolved run =>
      List.length (encodings run) = 11%nat /\
      size (blob run) = 49919 /\
      hd NaN (encodings run) = lit 1 /\
      nth 1 (encodings run) NaN = Fin (4548635623644201 # 9007199254740992)
  | Rejected => False
  end.
Proof. vm_compute. repeat split. Qed.

Example ceiling_500_run :
  match Sample.process (photo 4000 3000)
          (options 1 0 "none" Null Null (int 500))
  with
  | Resolved run =>
      List.length (encodings run) = 12%nat /\
      quality (blob run) = lit (1 # 100) /\
      size (blob run) = 1000
  | Rejected => False
  end.
Proof. vm_compute. repeat split. Qed.

(** C7, witness: a ceiling of 500000 bytes, above the 100000 of the
    sample encoder at quality 1.0. *)
Lemma max_quality_within_ceiling_witness :
  exists run,
    Sample.process (photo 4000 3000)
      (options 1 0 "none" Null Null (int 500000)) = Resolved run /\
    encodings run = [lit 1] /\
    blob run =
      Sample.toBlob
        (draw {| width := 4000; height := 3000 |}
           (options 1 0 "none" Null Null (int 500000)))
        "image/jpeg" (lit 1).
Proof.
  apply (max_quality_within_ceiling Blob size toBlob (photo 4000 3000)
           {| width := 4000; height := 3000 |}
           (options 1 0 "none" Null Null (int 500000)) 500000);
    [reflexivity | reflexivity | reflexivity | reflexivity
    | vm_compute; discriminate].
Defined.

(** C6, witness: a ceiling of 50000 bytes. *)
Lemma size_search_bisects_witness :
  exists run probes,
    Sample.process (photo 4000 3000)
      (options 1 0 "none" Null Null (int 50000)) = Resolved run /\
    List.length probes = 10%nat /\
    Spec.bisection
      (fun q =>
         size (Sample.toBlob
                 (draw {| width := 4000; height := 3000 |}
                    (options 1 0 "none" Null Null (int 50000)))
                 "image/jpeg" q) <=? 50000)
      (lit (1 # 100)) (lit 1) probes /\
    match
      Spec.last_meeting
        (fun q =>
           size (Sample.toBlob
                   (draw {| width := 4000; height := 3000 |}
                      (options 1 0 "none" Null Null (int 50000)))
                   "image/jpeg" q) <=? 50000)
        probes
    with
    | Some q =>
        encodings run = lit 1 :: probes /\
        blob run =
          Sample.toBlob
            (draw {| width := 4000; height := 3000 |}
               (options 1 0 "none" Null Null (int 50000)))
            "image/jpeg" q /\
        size (blob run) <= 50000
    | None =>
        encodings run = (lit 1 :: probes ++ [lit (1 # 100)])%list /\
        blob run =
          Sample.toBlob
            (draw {| width := 4000; height := 3000 |}
               (options 1 0 "none" Null Null (int 50000)))
            "image/jpeg" (lit (1 # 100))
    end.
Proof.
  apply (size_search_bisects Blob size toBlob (photo 4000 3000)
           {| width := 4000; height := 3000 |}
           (options 1 0 "none" Null Null (int 50000)) 50000);
    [reflexivity | reflexivity | reflexivity | reflexivity
    | vm_compute; reflexivity].
Defined.

(** C8, witness: a JPEG with no ceiling. *)
Lemma single_encode_at_default_quality_witness :
  exists run,
    Sample.process (photo 4000 3000) (options 1 0 "none" Null Null Null)
      = Resolved run /\
    encodings run = [lit (95 # 100)] /\
    blob run =
      Sample.toBlob
        (draw {| width := 4000; height := 3000 |}
           (options 1 0 "none" Null Null Null))
        (mimeType (photo 4000 3000) (options 1 0 "none" Null Null Null))
        (lit (95 # 100)).
Proof.
  apply (single_encode_at_default_quality Blob size toBlob (photo 4000 3000)
           {| width := 4000; height := 3000 |}
           (options 1 0 "none" Null Null Null));
    [reflexivity | left; right; reflexivity].
Defined.

(** C8, counterexample: a JPEG with no ceiling is encoded at quality
    0.95, not at 1.0. *)
Lemma unlimited_jpeg_is_not_encoded_at_quality_1 :
  Spec.absent (maxSizeBytes (options 1 0 "none" Null Null Null)) /\
  ~ (exists run,
       Sample.process (photo 4000 3000) (options 1 0 "none" Null Null Null)
         = Resolved run /\
       encodings run = [lit 1] /\
       blob run =
         Sample.toBlob
           (draw {| width := 4000; height := 3000 |}
              (options 1 0 "none" Null Null Null))
           "image/jpeg" (lit 1)).
Proof.
  split; [right; reflexivity|].
  intros (run & Hrun & Henc & _).
  vm_compute in Hrun. injection Hrun as Hrun. subst run.
  vm_compute in Henc. discriminate Henc.
Qed.

End EncoderFacts.

(** ** The orientation reader *)

Module OrientationFacts.

Import OrientationReader OrientationSpec.

(** Once [accepted] is set nothing changes the promise. *)
Lemma handle_accepted (st : State) (ev : Z * Event) :
  accepted st = true -> handle st ev = st.
Proof.
  intros Ha. destruct ev as [now [result| |]]; unfold handle, safeResolve;
    rewrite Ha; reflexivity.
Qed.

Lemma fold_handle_accepted (evs : list (Z * Event)) (st : State) :
  accepted st = true -> fold_left handle evs st = st.
Proof.
  revert st. induction evs as [|ev evs IH]; intros st Ha; cbn [fold_left];
    [reflexivity|].
  rewrite handle_accepted by exact Ha. apply IH. exact Ha.
Qed.

(** The first event settles the promise. *)
Lemma handle_first (now : Z) (ev : Event) :
  handle {| accepted := false; resolved := [] |} (now, ev) =
    {| accepted := true; resolved := [(now, value_of ev)] |}.
Proof. destruct ev; reflexivity. Qed.

Lemma run_first (first : Z * Event) (rest : list (Z * Event)) :
  run (first :: rest) =
    {| accepted := true; resolved := [(fst first, value_of (snd first))] |}.
Proof.
  unfold run. cbn [fold_left]. destruct first as [now ev].
  rewrite handle_first. apply fold_handle_accepted. reflexivity.
Qed.

(** The timer is always delivered, and nothing due after it comes first. *)
Lemma deliveries_first (timer_first : bool) (later : list (Z * option Z)) :
  exists now ev rest,
    deliveries timer_first later = (now, ev) :: rest /\
    now <= TIMEOUT_MS /\
    (ev = Timeout /\ now = TIMEOUT_MS \/
     exists result later', ev = Callback result /\ later = (now, result) :: later').
Proof.
  destruct later as [|[t result] later']; cbn [deliveries].
  - exists TIMEOUT_MS, Timeout, []. split; [reflexivity|]. split; [lia|].
    left. split; reflexivity.
  - destruct (if timer_first then TIMEOUT_MS <=? t else TIMEOUT_MS <? t) eqn:E.
    + eexists TIMEOUT_MS, Timeout, _. split; [reflexivity|]. split; [lia|].
      left. split; reflexivity.
    + eexists t, (Callback result), _. split; [reflexivity|]. split.
      * destruct timer_first; [apply Z.leb_gt in E | apply Z.ltb_ge in E]; lia.
      * right. exists result, later'. split; reflexivity.
Qed.

Lemma or_1_valid (r : Z) : 1 <= r <= 8 -> or_1 (Some r) = r.
Proof.
  intros Hr. unfold or_1. destruct (Z.eqb_spec r 0); [lia | reflexivity].
Qed.

(** The head of the event list is the first completion. *)
Lemma events_first (exif : ExifRun) (timer_first : bool) :
  exists rest,
    events exif timer_first = first_completion exif timer_first :: rest.
Proof.
  unfold events, first_completion.
  destruct (sync_calls exif) as [|result calls]; [|cbn; eauto].
  destruct (throws exif); [cbn; eauto|]. cbn [map app].
  destruct (later_calls exif) as [|[t result] later']; [cbn; eauto|].
  cbn [deliveries].
  destruct timer_first; cbn [negb andb].
  - rewrite orb_false_r.
    destruct (Z.leb_spec TIMEOUT_MS t) as [H|H];
      destruct (Z.ltb_spec t TIMEOUT_MS) as [H'|H']; try lia; eauto.
  - destruct (Z.ltb_spec TIMEOUT_MS t) as [H|H];
      destruct (Z.ltb_spec t TIMEOUT_MS) as [H'|H'];
      destruct (Z.eqb_spec t TIMEOUT_MS) as [H''|H'']; try lia;
      cbn [orb]; eauto.
Qed.

Lemma first_completion_in_time (exif : ExifRun) (timer_first : bool) :
  fst (first_completion exif timer_first) <= TIMEOUT_MS.
Proof.
  unfold first_completion.
  destruct (sync_calls exif); [|cbn; unfold TIMEOUT_MS; lia].
  destruct (throws exif); [cbn; unfold TIMEOUT_MS; lia|].
  destruct (later_calls exif) as [|[t result] later']; [cbn; lia|].
  destruct (Z.ltb_spec t TIMEOUT_MS) as [H|H]; cbn [orb fst]; [lia|].
  destruct (negb timer_first && (t =? TIMEOUT_MS)) eqn:E; cbn [fst]; [|lia].
  apply andb_prop in E. destruct E as [_ E]. apply Z.eqb_eq in E. lia.
Qed.

(** C9.  [getOrientation] calls [resolve] exactly once and has no way to
    reject.  The first completion decides: it is the head of the events,
    the promise holds its value and nothing else, and every later event
    leaves the promise as it is.  A callback with a tag in 1..8 gives that
    tag, whether [EXIF.getData] calls back at once or before the timer; a
    callback with no tag, a throw, or the timer give 1.  The timer is set
    to 1500 ms, the promise is settled by then, and when nothing else has
    happened before, the timer settles it with 1. *)
Theorem getOrientation_single_resolution (exif : ExifRun) (timer_first : bool) :
  exists now ev rest,
    events exif timer_first = (now, ev) :: rest /\
    (now, ev) = first_completion exif timer_first /\
    getOrientation exif timer_first =
      {| accepted := true; resolved := [(now, value_of ev)] |} /\
    run ((now, ev) :: rest) = run [(now, ev)] /\
    now <= TIMEOUT_MS /\ TIMEOUT_MS = 1500 /\
    match ev with
    | Callback (Some r) => 1 <= r <= 8 -> value_of ev = r
    | Callback None | Caught | Timeout => value_of ev = 1
    end /\
    (forall r calls,
       sync_calls exif = Some r :: calls -> 1 <= r <= 8 ->
       resolved (getOrientation exif timer_first) = [(0, r)]) /\
    (forall t r later,
       sync_calls exif = [] -> throws exif = false ->
       later_calls exif = (t, Some r) :: later -> t < TIMEOUT_MS ->
       1 <= r <= 8 ->
       resolved (getOrientation exif timer_first) = [(t, r)]) /\
    (forall t later,
       sync_calls exif = [] -> throws exif = false ->
       later_calls exif = (t, None) :: later -> t < TIMEOUT_MS ->
       resolved (getOrientation exif timer_first) = [(t, 1)]) /\
    (sync_calls exif = [] -> throws exif = true ->
     resolved (getOrientation exif timer_first) = [(0, 1)]) /\
    (sync_calls exif = [] -> throws exif = false ->
     (forall t result rest', later_calls exif = (t, result) :: rest' ->
                             TIMEOUT_MS < t) ->
     ev = Timeout /\ now = TIMEOUT_MS /\
     resolved (getOrientation exif timer_first) = [(TIMEOUT_MS, 1)]).
Proof.
  assert (forall ev : Event,
            match ev with
            | Callback (Some r) => 1 <= r <= 8 -> value_of ev = r
            | Callback None | Caught | Timeout => value_of ev = 1
            end) as Hval.
  { intros [[r|]| |]; cbn [value_of]; try reflexivity. apply or_1_valid. }
  destruct (events_first exif timer_first) as [rest E].
  pose proof (first_completion_in_time exif timer_first) as Htime.
  assert (getOrientation exif timer_first =
            {| accepted := true;
               resolved := [(fst (first_completion exif timer_first),
                             value_of (snd (first_completion exif timer_first)))] |})
    as Hget by (unfold getOrientation; rewrite E; apply run_first).
  destruct (first_completion exif timer_first) as [now ev] eqn:Hfirst.
  cbn [fst snd] in Htime, Hget.
  exists now, ev, rest.
  split; [exact E|]. split; [reflexivity|]. split; [exact Hget|].
  split; [rewrite !run_first; reflexivity|].
  split; [exact Htime|]. split; [reflexivity|]. split; [apply Hval|].
  rewrite Hget. cbn [resolved]. unfold first_completion in Hfirst.
  split; [|split; [|split; [|split]]].
  - intros r calls Hs Hr. rewrite Hs in Hfirst.
    injection Hfirst as <- <-. cbn [value_of]. rewrite or_1_valid by exact Hr.
    reflexivity.
  - intros t r later Hs Ht Hl Hlt Hr. rewrite Hs, Ht, Hl in Hfirst.
    destruct (Z.ltb_spec t TIMEOUT_MS) as [_|H]; [|lia]. cbn [orb] in Hfirst.
    injection Hfirst as <- <-. cbn [value_of]. rewrite or_1_valid by exact Hr.
    reflexivity.
  - intros t later Hs Ht Hl Hlt. rewrite Hs, Ht, Hl in Hfirst.
    destruct (Z.ltb_spec t TIMEOUT_MS) as [_|H]; [|lia]. cbn [orb] in Hfirst.
    injection Hfirst as <- <-. reflexivity.
  - intros Hs Ht. rewrite Hs, Ht in Hfirst. injection Hfirst as <- <-.
    reflexivity.
  - intros Hs Ht Hlate. rewrite Hs, Ht in Hfirst.
    destruct (later_calls exif) as [|[t result] later'].
    + injection Hfirst as <- <-. repeat split.
    + pose proof (Hlate t result later' eq_refl) as Hlt.
      destruct (Z.ltb_spec t TIMEOUT_MS) as [H|_]; [lia|].
      destruct (Z.eqb_spec t TIMEOUT_MS) as [H|_]; [lia|].
      rewrite andb_false_r in Hfirst. cbn [orb] in Hfirst.
      injection Hfirst as <- <-. repeat split.
Qed.
(** *** Runs *)

Example tag_6_after_20_ms :
  getOrientation
    {| sync_calls := []; throws := false; later_calls := [(20, Some 6)] |} true
  = {| accepted := true; resolved := [(20, 6)] |}.
Proof. reflexivity. Qed.

Example no_tag :
  getOrientation
    {| sync_calls := []; throws := false; later_calls := [(20, None)] |} true
  = {| accepted := true; resolved := [(20, 1)] |}.
Proof. reflexivity. Qed.

Example parse_never_completes :
  getOrientation
    {| sync_calls := []; throws := false; later_calls := [] |} false
  = {| accepted := true; resolved := [(1500, 1)] |}.
Proof. reflexivity. Qed.

Example late_tag_is_dropped :
  getOrientation
    {| sync_calls := []; throws := false; later_calls := [(2000, Some 6)] |}
    false
  = {| accepted := true; resolved := [(1500, 1)] |}.
Proof. reflexivity. Qed.

Example throw_wins_over_later_tag :
  getOrientation
    {| sync_calls := []; throws := true; later_calls := [(20, Some 6)] |} true
  = {| accepted := true; resolved := [(0, 1)] |}.
Proof. reflexivity. Qed.

End OrientationFacts.

(** ** [JSNumber] against the standard library's binary64 *)

Module Binary64Facts.

Import JSNumber Binary64.

Local Open Scope Q_scope.

(** The decimal literals of [process]. *)
Example literal_0_01 : to_number (div (of_int 1) (of_int 100)) = lit (1 # 100).
Proof. vm_compute. reflexivity. Qed.

Example literal_0_95 : to_number (div (of_int 95) (of_int 100)) = lit (95 # 100).
Proof. vm_compute. reflexivity. Qed.

(** The first probe of the search, [(0.01 + 1.0) / 2]. *)
Example first_midpoint :
  to_number (div (add (div (of_int 1) (of_int 100)) (of_int 1)) (of_int 2))
  = Spec.midpoint (lit (1 # 100)) (lit 1).
Proof. vm_compute. reflexivity. Qed.

(** [(4000 / 3000) * 800], the height of the 'width' resize. *)
Example height_of_fit_width_800 :
  to_number (mul (div (of_int 4000) (of_int 3000)) (of_int 800))
  = nmul (ndiv (of_Z 4000) (of_Z 3000)) (of_Z 800).
Proof. vm_compute. reflexivity. Qed.

(** [(1 / 1000) * 1], the height of a 1000 by 1 image fitted to width 1. *)
Example height_of_thin_image :
  to_number (mul (div (of_int 1) (of_int 1000)) (of_int 1))
  = nmul (ndiv (of_Z 1) (of_Z 1000)) (of_Z 1).
Proof. vm_compute. reflexivity. Qed.

(** The width of the 'both-fit' resize of a 20112 by 119 image into a box
    2773197991037027 wide: half a pixel more than the box. *)
Example width_of_huge_fit :
  let ratio :=
    min (div (of_int 2773197991037027) (of_int 20112))
        (div (of_int 2157471120073373) (of_int 119)) in
  to_number (mul (of_int 20112) ratio)
  = nmul (of_Z 20112)
      (nmin (ndiv (of_Z 2773197991037027) (of_Z 20112))
            (ndiv (of_Z 2157471120073373) (of_Z 119)))
  /\ to_number (mul (of_int 20112) ratio) = Fin (5546395982074055 # 2).
Proof. vm_compute. split; reflexivity. Qed.

End Binary64Facts.

(** ** The search, probe by probe *)

Module SearchFacts.

Import JSNumber JSNumberFacts NumberSpec RoundingFacts ImageProcessor GeometryFacts
  EncoderFacts.

Local Open Scope string_scope.
Local Open Scope Z_scope.

Lemma midpoint_fin (lo hi : Q) :
  Spec.midpoint (Fin lo) (Fin hi) = Fin (fl (fl (lo + hi) / 2)).
Proof. reflexivity. Qed.

Lemma last_meeting_in (meets : number -> bool) (probes : list number) (q : number) :
  Spec.last_meeting meets probes = Some q -> In q probes /\ meets q = true.
Proof.
  intros H. apply find_some in H. destruct H as [Hin Hm].
  split; [apply in_rev; exact Hin | exact Hm].
Qed.

Lemma last_meeting_none (meets : number -> bool) (probes : list number) (p : number) :
  Spec.last_meeting meets probes = None -> In p probes -> meets p = false.
Proof.
  intros H Hin. apply (find_none _ _ H). apply in_rev in Hin. exact Hin.
Qed.

(** Every probe of a bisection lies between the bounds it starts from. *)
Lemma bisection_between (meets : number -> bool) (probes : list number) :
  forall lo hi : Q,
    representable lo -> representable hi -> (lo <= hi)%Q ->
    Spec.bisection meets (Fin lo) (Fin hi) probes ->
    Forall (between lo hi) probes.
Proof.
  induction probes as [|q rest IH]; intros lo hi Hlo Hhi Hle Hb; [constructor|].
  cbn [Spec.bisection] in Hb. destruct Hb as [Eq Hrest].
  rewrite midpoint_fin in Eq.
  destruct (midpoint_between lo hi Hlo Hhi Hle) as [Hrm [Hm1 Hm2]].
  set (mid := fl (fl (lo + hi) / 2)) in *. subst q.
  constructor; [exists mid; split; [reflexivity | split; assumption]|].
  destruct (meets (Fin mid)).
  - apply (IH mid hi Hrm Hhi Hm2) in Hrest.
    eapply Forall_impl; [|exact Hrest].
    intros p (x & -> & Hx). exists x. split; [reflexivity | lra].
  - apply (IH lo mid Hlo Hrm Hm1) in Hrest.
    eapply Forall_impl; [|exact Hrest].
    intros p (x & -> & Hx). exists x. split; [reflexivity | lra].
Qed.

(** The last probe that met the ceiling has the highest quality of all the
    probes that met it. *)
Lemma bisection_last_is_best (meets : number -> bool) (probes : list number) :
  forall (lo hi : Q) (q p : number),
    representable lo -> representable hi -> (lo <= hi)%Q ->
    Spec.bisection meets (Fin lo) (Fin hi) probes ->
    Spec.last_meeting meets probes = Some q ->
    In p probes -> meets p = true ->
    nleb p q = true.
Proof.
  induction probes as [|m rest IH]; intros lo hi q p Hlo Hhi Hle Hb Hlast Hin Hp;
    [destruct Hin|].
  cbn [Spec.bisection] in Hb. destruct Hb as [Eq Hrest].
  rewrite midpoint_fin in Eq.
  destruct (midpoint_between lo hi Hlo Hhi Hle) as [Hrm [Hm1 Hm2]].
  set (mid := fl (fl (lo + hi) / 2)) in *. subst m.
  rewrite last_meeting_cons in Hlast.
  destruct (meets (Fin mid)) eqn:Hmid.
  - pose proof (bisection_between meets rest mid hi Hrm Hhi Hm2 Hrest) as Hbt.
    rewrite Forall_forall in Hbt.
    destruct (Spec.last_meeting meets rest) as [y|] eqn:Hy.
    + injection Hlast as <-.
      destruct Hin as [<-|Hin].
      * destruct (last_meeting_in _ _ _ Hy) as [Hyin _].
        destruct (Hbt y Hyin) as (x & -> & Hx). cbn. apply Qle_bool_iff. lra.
      * exact (IH mid hi y p Hrm Hhi Hm2 Hrest eq_refl Hin Hp).
    + injection Hlast as <-.
      destruct Hin as [<-|Hin].
      * cbn. apply Qle_bool_iff. lra.
      * rewrite (last_meeting_none _ _ _ Hy Hin) in Hp. discriminate Hp.
  - destruct (Spec.last_meeting meets rest) as [y|] eqn:Hy; [|discriminate Hlast].
    injection Hlast as <-.
    destruct Hin as [<-|Hin]; [congruence|].
    exact (IH lo mid y p Hlo Hrm Hm1 Hrest eq_refl Hin Hp).
Qed.

Lemma lit_representable (q : Q) : (0 < q)%Q -> representable (fl q).
Proof. apply fl_is_representable. Qed.

Lemma floor_below_max : (fl (1 # 100) <= fl 1)%Q.
Proof. vm_compute. discriminate. Qed.

Section Encoder.

Variable Blob : Type.
Variable size : Blob -> Z.
Variable toBlob : Canvas -> string -> number -> Blob.

(** The three ways [encode] can go. *)
Lemma encode_spec (c : Canvas) (mimeType : string) (maxSizeBytes : jsval) :
  let getBlob := toBlob c mimeType in
  let meets := fun q => fits Blob size (to_number maxSizeBytes) (getBlob q) in
  let result := encode Blob size toBlob c mimeType maxSizeBytes in
  ((truthy maxSizeBytes = false \/ mimeType = "image/png") /\
   result = ([lit (95 # 100)], getBlob (lit (95 # 100)))) \/
  (truthy maxSizeBytes = true /\ meets (lit 1) = true /\
   result = ([lit 1], getBlob (lit 1))) \/
  (truthy maxSizeBytes = true /\ meets (lit 1) = false /\
   exists probes,
     List.length probes = 10%nat /\
     Spec.bisection meets (lit (1 # 100)) (lit 1) probes /\
     match Spec.last_meeting meets probes with
     | Some q => result = (lit 1 :: probes, getBlob q)
     | None =>
         result = ((lit 1 :: probes ++ [lit (1 # 100)])%list,
                   getBlob (lit (1 # 100)))
     end).
Proof.
  intros getBlob meets result. unfold result, encode. fold getBlob.
  destruct (negb (truthy maxSizeBytes) || String.eqb mimeType "image/png")
    eqn:Hguard.
  { left. split; [|reflexivity]. apply orb_true_iff in Hguard.
    destruct Hguard as [H|H]; [left; apply negb_true_iff, H|right].
    apply String.eqb_eq, H. }
  right.
  apply orb_false_elim in Hguard. destruct Hguard as [Ht _].
  apply negb_false_iff in Ht.
  fold (meets (lit 1)).
  destruct (meets (lit 1)) eqn:Hmax; [left; repeat split; assumption | right].
  split; [exact Ht|]. split; [reflexivity|].
  set (s0 := {| minQ := lit (1 # 100); maxQ := lit 1; bestBlob := None;
                attempts := 0; calls := [lit 1] |}).
  destruct (search_loop_spec Blob size getBlob (to_number maxSizeBytes) 10 s0 eq_refl)
    as (probes & Hlen & Hbis & Hcalls & _ & Hbest).
  change (search Blob size getBlob (to_number maxSizeBytes) s0)
    with (search_loop Blob size getBlob (to_number maxSizeBytes) 10 s0).
  exists probes. split; [exact Hlen|]. split; [exact Hbis|].
  rewrite Hbest, Hcalls. cbn [bestBlob calls s0 app].
  fold meets. destruct (Spec.last_meeting meets probes); reflexivity.
Qed.

Lemma process_encode (file : File) (img : Image) (options : Options) :
  decoded file = Some img ->
  exists run,
    process Blob size toBlob file options = Resolved run /\
    (encodings run, blob run) =
      encode Blob size toBlob (draw img options) (mimeType file options)
        (maxSizeBytes options).
Proof.
  intros Hd. unfold ImageProcessor.process, loadImage. rewrite Hd.
  destruct (encode _ _ _ _ _ _) as [log b].
  eexists. split; reflexivity.
Qed.

(** X4.  Whatever the options, [process] encodes the canvas once, 11 times
    or 12 times: never more than 12 calls to [toBlob] for one image. *)
Theorem at_most_12_encodings (file : File) (img : Image) (options : Options) :
  decoded file = Some img ->
  exists run,
    process Blob size toBlob file options = Resolved run /\
    In (List.length (encodings run)) [1%nat; 11%nat; 12%nat].
Proof.
  intros Hd. destruct (process_encode file img options Hd) as (run & Hrun & He).
  exists run. split; [exact Hrun|].
  destruct (encode_spec (draw img options) (mimeType file options)
              (maxSizeBytes options))
    as [[_ E]|[(_ & _ & E)|(_ & _ & probes & Hlen & _ & E)]].
  - rewrite E in He. injection He as -> _. cbn. auto.
  - rewrite E in He. injection He as -> _. cbn. auto.
  - destruct (Spec.last_meeting _ probes); rewrite E in He;
      injection He as -> _; cbn [List.length]; rewrite ?length_app, Hlen;
      cbn; auto.
Qed.

(** X5.  Every quality [process] passes to [toBlob] lies between the
    literals 0.01 and 1.0. *)
Theorem qualities_stay_in_range (file : File) (img : Image) (options : Options) :
  decoded file = Some img ->
  exists run,
    process Blob size toBlob file options = Resolved run /\
    Forall (fun q => nleb (lit (1 # 100)) q = true /\ nleb q (lit 1) = true)
      (encodings run).
Proof.
  intros Hd. destruct (process_encode file img options Hd) as (run & Hrun & He).
  exists run. split; [exact Hrun|].
  assert (forall q, between (fl (1 # 100)) (fl 1) q ->
                    nleb (lit (1 # 100)) q = true /\ nleb q (lit 1) = true) as Hin.
  { intros q (x & -> & [Hx1 Hx2]). cbn [nleb lit].
    split; apply Qle_bool_iff; assumption. }
  assert (between (fl (1 # 100)) (fl 1) (lit 1)) as H1.
  { exists (fl 1). split; [reflexivity|].
    split; [exact floor_below_max | apply Qle_refl]. }
  assert (between (fl (1 # 100)) (fl 1) (lit (1 # 100))) as H001.
  { exists (fl (1 # 100)). split; [reflexivity|].
    split; [apply Qle_refl | exact floor_below_max]. }
  destruct (encode_spec (draw img options) (mimeType file options)
              (maxSizeBytes options))
    as [[_ E]|[(_ & _ & E)|(_ & _ & probes & _ & Hbis & E)]].
  - rewrite E in He. injection He as -> _. repeat constructor.
  - rewrite E in He. injection He as -> _. constructor; [apply Hin, H1|constructor].
  - apply bisection_between in Hbis;
      [| apply lit_representable; reflexivity
       | apply lit_representable; reflexivity | exact floor_below_max].
    assert (Forall (fun q => nleb (lit (1 # 100)) q = true /\ nleb q (lit 1) = true)
              probes) as Hp.
    { eapply Forall_impl; [|exact Hbis]. exact Hin. }
    destruct (Spec.last_meeting _ probes); rewrite E in He; injection He as -> _.
    + constructor; [apply Hin, H1 | exact Hp].
    + constructor; [apply Hin, H1|]. apply Forall_app. split; [exact Hp|].
      constructor; [apply Hin, H001 | constructor].
Qed.

(** X6.  With a ceiling and a JPEG output, the blob returned is the
    encoding at one of the qualities tried, and no quality tried whose
    encoding met the ceiling is higher; so the result is within the ceiling
    unless it is the encoding at 0.01, and it is within the ceiling whenever
    that one is. *)
Theorem best_encoding_within_ceiling
    (file : File) (img : Image) (options : Options) (limit : Z) :
  decoded file = Some img ->
  maxSizeBytes options = Num (of_Z limit) -> 0 < limit ->
  mimeType file options = "image/jpeg" ->
  exists run q,
    process Blob size toBlob file options = Resolved run /\
    In q (encodings run) /\
    blob run = toBlob (draw img options) "image/jpeg" q /\
    (forall p, In p (encodings run) ->
               size (toBlob (draw img options) "image/jpeg" p) <= limit ->
               nleb p q = true) /\
    (size (blob run) <= limit \/ q = lit (1 # 100)) /\
    (size (toBlob (draw img options) "image/jpeg" (lit (1 # 100))) <= limit ->
     size (blob run) <= limit).
Proof.
  intros Hd Hmax Hl Hmime.
  destruct (process_encode file img options Hd) as (run & Hrun & He).
  rewrite Hmax, Hmime in He.
  set (getBlob := toBlob (draw img options) "image/jpeg") in *.
  assert (forall q, fits Blob size (to_number (Num (of_Z limit))) (getBlob q) = true
                    <-> size (getBlob q) <= limit) as Hfits.
  { intros q. unfold fits. cbn [to_number]. rewrite nleb_of_Z. apply Z.leb_le. }
  assert (nleb (lit 1) (lit 1) = true) as H11 by reflexivity.
  assert (nleb (lit (1 # 100)) (lit (1 # 100)) = true) as H00 by reflexivity.
  destruct (encode_spec (draw img options) "image/jpeg" (Num (of_Z limit)))
    as [[[H|H] _]|[(_ & Hm & E)|(_ & Hm & probes & _ & Hbis & E)]].
  - rewrite truthy_int in H by lia. discriminate H.
  - discriminate H.
  - rewrite E in He. injection He as He1 He2.
    exists run, (lit 1). rewrite He1, He2.
    apply Hfits in Hm.
    repeat split; auto with datatypes.
    intros p [<-|[]] _. exact H11.
  - destruct (Spec.last_meeting _ probes) as [q|] eqn:Hq; rewrite E in He;
      injection He as He1 He2.
    + exists run, q. rewrite He1, He2. destruct (last_meeting_in _ _ _ Hq) as [Hqin Hqm].
      apply Hfits in Hqm.
      split; [exact Hrun|]. split; [right; exact Hqin|]. split; [reflexivity|].
      split; [|split; [left; exact Hqm | intros _; exact Hqm]].
      intros p [<-|Hp] Hsize.
      * apply Hfits in Hsize. unfold getBlob in Hsize.
        rewrite Hm in Hsize. discriminate Hsize.
      * apply Hfits in Hsize.
        eapply (bisection_last_is_best _ probes _ _ q p); try eassumption;
          [apply lit_representable; reflexivity
          | apply lit_representable; reflexivity | exact floor_below_max].
    + exists run, (lit (1 # 100)). rewrite He1, He2.
      split; [exact Hrun|].
      split; [right; apply in_or_app; right; left; reflexivity|].
      split; [reflexivity|].
      split; [|split; [right; reflexivity | intros H; exact H]].
      intros p [<-|Hp] Hsize.
      * apply Hfits in Hsize. unfold getBlob in Hsize.
        rewrite Hm in Hsize. discriminate Hsize.
      * apply in_app_or in Hp. destruct Hp as [Hp|[<-|[]]]; [|exact H00].
        apply Hfits in Hsize.
        pose proof (last_meeting_none _ _ _ Hq Hp) as Hn. cbv beta in Hn.
        unfold getBlob in Hsize. rewrite Hn in Hsize. discriminate Hsize.
Qed.

End Encoder.

(** *** Runs on the sample file *)

Import Sample.

(** X4, witness: a ceiling of 50000 bytes. *)
Lemma at_most_12_encodings_witness :
  exists run,
    Sample.process (photo 4000 3000)
      (options 1 0 "none" Null Null (int 50000)) = Resolved run /\
    In (List.length (encodings run)) [1%nat; 11%nat; 12%nat].
Proof.
  apply (at_most_12_encodings Blob size toBlob (photo 4000 3000)
           {| width := 4000; height := 3000 |}
           (options 1 0 "none" Null Null (int 50000)));
    reflexivity.
Defined.

(** X5, witness: a ceiling of 500 bytes, which no probe meets. *)
Lemma qualities_stay_in_range_witness :
  exists run,
    Sample.process (photo 4000 3000)
      (options 1 0 "none" Null Null (int 500)) = Resolved run /\
    Forall (fun q => nleb (lit (1 # 100)) q = true /\ nleb q (lit 1) = true)
      (encodings run).
Proof.
  apply (qualities_stay_in_range Blob size toBlob (photo 4000 3000)
           {| width := 4000; height := 3000 |}
           (options 1 0 "none" Null Null (int 500)));
    reflexivity.
Defined.

(** X6, witness: a ceiling of 50000 bytes. *)
Lemma best_encoding_within_ceiling_witness :
  exists run q,
    Sample.process (photo 4000 3000)
      (options 1 0 "none" Null Null (int 50000)) = Resolved run /\
    In q (encodings run) /\
    blob run =
      Sample.toBlob
        (draw {| width := 4000; height := 3000 |}
           (options 1 0 "none" Null Null (int 50000)))
        "image/jpeg" q /\
    (forall p, In p (encodings run) ->
               size (Sample.toBlob
                       (draw {| width := 4000; height := 3000 |}
                          (options 1 0 "none" Null Null (int 50000)))
                       "image/jpeg" p) <= 50000 ->
               nleb p q = true) /\
    (size (blob run) <= 50000 \/ q = lit (1 # 100)) /\
    (size (Sample.toBlob
             (draw {| width := 4000; height := 3000 |}
                (options 1 0 "none" Null Null (int 50000)))
             "image/jpeg" (lit (1 # 100))) <= 50000 ->
     size (blob run) <= 50000).
Proof.
  apply (best_encoding_within_ceiling Blob size toBlob (photo 4000 3000)
           {| width := 4000; height := 3000 |}
           (options 1 0 "none" Null Null (int 50000)) 50000);
    reflexivity.
Defined.

End SearchFacts.

(** ** Resizing to a width or a height, drawing, and the output type *)

Module ResizeFacts.

Import JSNumber JSNumberFacts RoundingFacts ImageProcessor GeometryFacts.
Import SearchFacts ProcessOptions.

Local Open Scope string_scope.
Local Open Scope Z_scope.

(** One side is set to the target [t]; the other is the pre-resize side [b]
    scaled by [t / a], computed as [(b / a) * t] and rounded. *)
Lemma scaled_side (a b t : Z) :
  0 < a -> 0 < b -> 0 < t -> b * t <= (2 ^ 51 - 1) * a ->
  exists H,
    nround (nmul (ndiv (of_Z b) (of_Z a)) (of_Z t)) = of_Z H /\
    Spec.scaled_by (inject_Z t / inject_Z a) b H.
Proof.
  intros Ha Hb Ht Hbound.
  pose proof (inject_Z_pos a Ha) as HA. pose proof (inject_Z_pos b Hb) as HB.
  pose proof (inject_Z_pos t Ht) as HT.
  rewrite ndiv_int by lia.
  assert (0 <= inject_Z b / inject_Z a)%Q as Hs by (apply Qdiv_nonneg; lra).
  pose proof (fl_bounds _ Hs) as Hr.
  assert (inject_Z t * (inject_Z b / inject_Z a) <= 2251799813685247)%Q as HP.
  { assert (inject_Z (b * t) <= inject_Z ((2 ^ 51 - 1) * a))%Q as Hq
      by (rewrite <- Zle_Qle; exact Hbound).
    rewrite !inject_Z_mult in Hq.
    change (inject_Z (2 ^ 51 - 1)) with 2251799813685247%Q in Hq.
    assert (inject_Z t * (inject_Z b / inject_Z a)
            == inject_Z b * inject_Z t / inject_Z a)%Q as -> by (field; lra).
    apply Qle_shift_div_r; [exact HA | exact Hq]. }
  destruct (scaled_bound (inject_Z t) (inject_Z b / inject_Z a)
              (fl (inject_Z b / inject_Z a)) 2251799813685247
              HT Hs HP (Qle_refl _) Hr) as [_ Habs].
  cbn [nmul of_Z nround].
  rewrite (fl_proper (fl (inject_Z b / inject_Z a) * inject_Z t)
             (inject_Z t * fl (inject_Z b / inject_Z a)))
    by apply Qmult_comm.
  eexists. split; [reflexivity|].
  unfold Spec.scaled_by.
  assert (inject_Z b * (inject_Z t / inject_Z a)
          == inject_Z t * (inject_Z b / inject_Z a))%Q as -> by (field; lra).
  exact Habs.
Qed.

Lemma ndiv_self (z : Z) : 0 < z -> ndiv (of_Z z) (of_Z z) = Fin 1.
Proof.
  intros Hz. rewrite ndiv_int by lia.
  pose proof (inject_Z_pos z Hz) as HZ.
  rewrite (fl_proper (inject_Z z / inject_Z z) 1) by (field; lra).
  reflexivity.
Qed.

(** A side less than one pixel away from a value of at most
    [CANVAS_MAX - 1] is one the canvas element keeps. *)
Lemma scaled_side_dom (a b t H : Z) :
  0 < a -> 0 < b -> 0 < t -> b * t <= (Range.CANVAS_MAX - 1) * a ->
  Spec.scaled_by (inject_Z t / inject_Z a) b H -> Range.dom_side H.
Proof.
  intros Ha Hb Ht Hbound Hs. unfold Spec.scaled_by in Hs.
  pose proof (inject_Z_pos a Ha) as HA. pose proof (inject_Z_pos b Hb) as HB.
  pose proof (inject_Z_pos t Ht) as HT.
  set (v := (inject_Z b * (inject_Z t / inject_Z a))%Q) in *.
  assert (0 <= v)%Q as Hv0.
  { unfold v. apply Qmult_le_0_compat; [lra|]. apply Qdiv_nonneg; lra. }
  assert (v <= inject_Z (Range.CANVAS_MAX - 1))%Q as Hv1.
  { unfold v.
    assert (inject_Z b * (inject_Z t / inject_Z a)
            == inject_Z (b * t) / inject_Z a)%Q as ->
      by (rewrite inject_Z_mult; field; lra).
    apply Qle_shift_div_r; [exact HA|]. rewrite <- inject_Z_mult, <- Zle_Qle.
    exact Hbound. }
  apply Qabs_Qlt_condition in Hs. destruct Hs as [Hlo Hhi].
  unfold Range.dom_side. split.
  - assert (inject_Z (-1) < inject_Z H)%Q as Hl
      by (change (inject_Z (-1)) with (-1)%Q; lra).
    rewrite <- Zlt_Qlt in Hl. lia.
  - assert (inject_Z H < inject_Z (Range.CANVAS_MAX - 1) + 1)%Q as Hh by lra.
    change 1%Q with (inject_Z 1) in Hh. rewrite <- inject_Z_plus in Hh.
    rewrite <- Zlt_Qlt in Hh. lia.
Qed.

Section Process.

Variable Blob : Type.
Variable size : Blob -> Z.
Variable toBlob : Canvas -> string -> number -> Blob.

(** X7.  In mode 'width', with a positive integer target width [tw] of at
    most [2^31 - 1] and an upright size of [uprightW] by [uprightH] (after
    the EXIF fix and the manual turn), the canvas is exactly [tw] wide and
    its height is an integer less than one pixel away from
    [uprightH * tw / uprightW], as long as that quotient is at most
    [2^31 - 2], so that the canvas element keeps both sides; the target
    height is not looked at. *)
Theorem fit_width_keeps_aspect
    (file : File) (img : Image) (options : Options) (tw uprightW uprightH : Z) :
  decoded file = Some img ->
  0 < width img -> 0 < height img ->
  resizeMode options = Some "width" ->
  targetWidth options = Num (of_Z tw) -> 0 < tw <= Range.CANVAS_MAX ->
  upright img (or_default (orientation options) 1)
    (or_default (manualRotation options) 0) = (of_Z uprightW, of_Z uprightH) ->
  uprightH * tw <= (Range.CANVAS_MAX - 1) * uprightW ->
  exists run H,
    process Blob size toBlob file options = Resolved run /\
    Range.dom_sized (canvas run) tw H /\
    Spec.scaled_by (inject_Z tw / inject_Z uprightW) uprightH H.
Proof.
  intros Hd Hw Hh Hm Htw Htwp Hu Hbound.
  destruct (process_resolves Blob size toBlob file img options Hd)
    as (run & Hrun & Hc & _).
  destruct (upright_positive img (or_default (orientation options) 1)
              (or_default (manualRotation options) 0) Hw Hh)
    as (a & b & Hu' & Ha & Hb).
  rewrite Hu in Hu'. injection Hu' as Ea Eb. subst a b.
  assert (uprightH * tw <= (2 ^ 51 - 1) * uprightW) as Hbound'.
  { unfold Range.CANVAS_MAX in Hbound.
    assert ((2 ^ 31 - 1 - 1) * uprightW <= (2 ^ 51 - 1) * uprightW)
      by (apply Z.mul_le_mono_nonneg_r; [lia | vm_compute; discriminate]).
    lia. }
  destruct (scaled_side uprightW uprightH tw Ha Hb (proj1 Htwp) Hbound')
    as (H & EH & Hs).
  exists run, H. split; [exact Hrun|]. rewrite Hc.
  unfold Range.dom_sized, Spec.sized, draw. rewrite Hu, Hm, Htw. cbn [or_default].
  unfold final_size. cbn [String.eqb Ascii.eqb Bool.eqb].
  rewrite truthy_int by lia. cbn [andb to_number].
  rewrite nround_of_Z, EH. cbn [canvas_width canvas_height].
  split; [|exact Hs].
  split; [split; reflexivity|]. split.
  - unfold Range.dom_side. lia.
  - exact (scaled_side_dom uprightW uprightH tw H Ha Hb (proj1 Htwp) Hbound Hs).
Qed.

(** X8.  In mode 'height', with a positive integer target height [th] of
    at most [2^31 - 1], the canvas is exactly [th] high and its width is an
    integer less than one pixel away from [uprightW * th / uprightH], as
    long as that quotient is at most [2^31 - 2], so that the canvas element
    keeps both sides; the target width is not looked at. *)
Theorem fit_height_keeps_aspect
    (file : File) (img : Image) (options : Options) (th uprightW uprightH : Z) :
  decoded file = Some img ->
  0 < width img -> 0 < height img ->
  resizeMode options = Some "height" ->
  targetHeight options = Num (of_Z th) -> 0 < th <= Range.CANVAS_MAX ->
  upright img (or_default (orientation options) 1)
    (or_default (manualRotation options) 0) = (of_Z uprightW, of_Z uprightH) ->
  uprightW * th <= (Range.CANVAS_MAX - 1) * uprightH ->
  exists run W,
    process Blob size toBlob file options = Resolved run /\
    Range.dom_sized (canvas run) W th /\
    Spec.scaled_by (inject_Z th / inject_Z uprightH) uprightW W.
Proof.
  intros Hd Hw Hh Hm Hth Hthp Hu Hbound.
  destruct (process_resolves Blob size toBlob file img options Hd)
    as (run & Hrun & Hc & _).
  destruct (upright_positive img (or_default (orientation options) 1)
              (or_default (manualRotation options) 0) Hw Hh)
    as (a & b & Hu' & Ha & Hb).
  rewrite Hu in Hu'. injection Hu' as Ea Eb. subst a b.
  assert (uprightW * th <= (2 ^ 51 - 1) * uprightH) as Hbound'.
  { unfold Range.CANVAS_MAX in Hbound.
    assert ((2 ^ 31 - 1 - 1) * uprightH <= (2 ^ 51 - 1) * uprightH)
      by (apply Z.mul_le_mono_nonneg_r; [lia | vm_compute; discriminate]).
    lia. }
  destruct (scaled_side uprightH uprightW th Hb Ha (proj1 Hthp) Hbound')
    as (W & EW & Hs).
  exists run, W. split; [exact Hrun|]. rewrite Hc.
  unfold Range.dom_sized, Spec.sized, draw. rewrite Hu, Hm, Hth. cbn [or_default].
  unfold final_size. cbn [String.eqb Ascii.eqb Bool.eqb].
  rewrite truthy_int by lia. cbn [andb to_number].
  rewrite nround_of_Z, EW. cbn [canvas_width canvas_height].
  split; [|exact Hs].
  split; [split; reflexivity|]. split.
  - exact (scaled_side_dom uprightH uprightW th W Hb Ha (proj1 Hthp) Hbound Hs).
  - unfold Range.dom_side. lia.
Qed.

(** X9.  With resize mode 'none', an orientation other than 5 and 7 and a
    manual rotation of 0, 90, 180 or 270, the image is drawn at scale 1 by
    1: [process] turns the pixels but neither stretches nor mirrors them. *)
Theorem no_resize_draws_unscaled
    (file : File) (img : Image) (options : Options) :
  decoded file = Some img ->
  0 < width img -> 0 < height img ->
  or_default (resizeMode options) "none" = "none" ->
  or_default (orientation options) 1 <> 5 ->
  or_default (orientation options) 1 <> 7 ->
  In (or_default (manualRotation options) 0) [0; 90; 180; 270] ->
  exists run,
    process Blob size toBlob file options = Resolved run /\
    scale (canvas run) = (Fin 1, Fin 1).
Proof.
  intros Hd Hw Hh Hmode H5 H7 Hm.
  destruct (process_resolves Blob size toBlob file img options Hd)
    as (run & Hrun & Hc & _).
  exists run. split; [exact Hrun|]. rewrite Hc. unfold draw. rewrite Hmode.
  set (o := or_default (orientation options) 1) in *.
  set (m := or_default (manualRotation options) 0) in *.
  rewrite upright_cases.
  assert (H68 : o = 6 \/ o = 8 \/ ~ In o [5; 6; 7; 8]) by (cbn [In]; lia).
  cbn [In] in Hm.
  destruct H68 as [-> | [-> | Hn]].
  - destruct Hm as [ <- | [ <- | [ <- | [ <- | [] ] ] ] ];
      cbn [xorb exif_swaps Z.leb Z.compare Pos.compare Pos.compare_cont
           andb orb Z.eqb Pos.eqb];
      rewrite final_size_none; cbn [scale];
      change (totalDeg 6 0) with 90; change (totalDeg 6 90) with 180;
      change (totalDeg 6 180) with 270; change (totalDeg 6 270) with 0;
      cbn [Z.eqb Pos.eqb orb]; rewrite !ndiv_self by assumption; reflexivity.
  - destruct Hm as [ <- | [ <- | [ <- | [ <- | [] ] ] ] ];
      cbn [xorb exif_swaps Z.leb Z.compare Pos.compare Pos.compare_cont
           andb orb Z.eqb Pos.eqb];
      rewrite final_size_none; cbn [scale];
      change (totalDeg 8 0) with 270; change (totalDeg 8 90) with 0;
      change (totalDeg 8 180) with 90; change (totalDeg 8 270) with 180;
      cbn [Z.eqb Pos.eqb orb]; rewrite !ndiv_self by assumption; reflexivity.
  - rewrite (exif_swaps_false o Hn). unfold totalDeg.
    assert (exifDeg o = 0 \/ exifDeg o = 180) as He.
    { unfold exifDeg. cbn [In] in Hn.
      destruct (Z.eqb_spec o 3); [right; reflexivity|].
      destruct (Z.eqb_spec o 6); [lia|]. destruct (Z.eqb_spec o 8); [lia|].
      left; reflexivity. }
    destruct He as [-> | ->];
      destruct Hm as [ <- | [ <- | [ <- | [ <- | [] ] ] ] ];
      cbn [xorb Z.eqb Pos.eqb orb]; rewrite final_size_none; cbn [scale];
      cbn [Z.add Z.rem Z.quotrem Z.eqb Pos.eqb orb];
      try (change (Z.rem 90 360) with 90); try (change (Z.rem 270 360) with 270);
      try (change (Z.rem 180 360) with 180); try (change (Z.rem 360 360) with 0);
      try (change (Z.rem 450 360) with 90); try (change (Z.rem 0 360) with 0);
      cbn [Z.eqb Pos.eqb orb]; rewrite !ndiv_self by assumption; reflexivity.
Qed.

(** X10.  With export format 'png', [process] gives the same result
    whatever [maxSizeBytes] holds: the ceiling is never read. *)
Theorem png_export_ignores_ceiling
    (file : File) (options : Options) (v : jsval) :
  exportFormat options = Some "png" ->
  process Blob size toBlob file options =
    process Blob size toBlob file (with_maxSizeBytes v options).
Proof.
  intros Hf. unfold ImageProcessor.process.
  destruct (loadImage file) as [|img]; [reflexivity|].
  assert (forall o, exportFormat o = Some "png" -> mimeType file o = "image/png")
    as Hmime by (intros o Ho; unfold mimeType; rewrite Ho; reflexivity).
  rewrite (Hmime options Hf), (Hmime (with_maxSizeBytes v options) Hf).
  change (draw img (with_maxSizeBytes v options)) with (draw img options).
  unfold encode. cbn [String.eqb Ascii.eqb Bool.eqb]. rewrite !orb_true_r.
  reflexivity.
Qed.

(** X11.  With a truthy [maxSizeBytes] and an export format other than
    'png', the output is a JPEG whatever the type of the source file, and
    the first encoding is made at quality 1.0. *)
Theorem ceiling_converts_to_jpeg
    (file : File) (img : Image) (options : Options) :
  decoded file = Some img ->
  truthy (maxSizeBytes options) = true ->
  exportFormat options <> Some "png" ->
  exists run,
    process Blob size toBlob file options = Resolved run /\
    mime run = "image/jpeg" /\
    hd NaN (encodings run) = lit 1.
Proof.
  intros Hd Ht Hf.
  destruct (process_resolves Blob size toBlob file img options Hd)
    as (run & Hrun & _ & Hmime).
  destruct (process_encode Blob size toBlob file img options Hd)
    as (run' & Hrun' & He).
  rewrite Hrun in Hrun'. injection Hrun' as <-.
  assert (mimeType file options = "image/jpeg") as Hj.
  { unfold mimeType. destruct (exportFormat options) as [f|]; cbn [or_default].
    - destruct (String.eqb_spec f "png") as [->|_]; [congruence|].
      destruct (String.eqb f "jpeg"); [reflexivity|]. rewrite Ht. reflexivity.
    - cbn. rewrite Ht. reflexivity. }
  exists run. split; [exact Hrun|]. split; [congruence|].
  rewrite Hj in He.
  destruct (encode_spec Blob size toBlob (draw img options) "image/jpeg"
              (maxSizeBytes options))
    as [[[H|H] _]|[(_ & _ & E)|(_ & _ & probes & _ & _ & E)]].
  - congruence.
  - discriminate H.
  - rewrite E in He. injection He as -> _. reflexivity.
  - destruct (Spec.last_meeting _ probes); rewrite E in He;
      injection He as -> _; reflexivity.
Qed.

End Process.

(** *** Runs on the sample files *)

Import Sample.

(** X7, witness: a 4000 by 3000 photo, code 6, fitted to width 800. *)
Lemma fit_width_keeps_aspect_witness :
  exists run H,
    Sample.process (photo 4000 3000)
      (options 6 0 "width" (int 800) Null Null) = Resolved run /\
    Range.dom_sized (canvas run) 800 H /\
    Spec.scaled_by (inject_Z 800 / inject_Z 3000) 4000 H.
Proof.
  apply (fit_width_keeps_aspect Blob size toBlob (photo 4000 3000)
           {| width := 4000; height := 3000 |}
           (options 6 0 "width" (int 800) Null Null) 800 3000 4000);
    try reflexivity; unfold Range.CANVAS_MAX; lia.
Defined.

(** X8, witness: the same photo fitted to height 600. *)
Lemma fit_height_keeps_aspect_witness :
  exists run W,
    Sample.process (photo 4000 3000)
      (options 6 0 "height" Null (int 600) Null) = Resolved run /\
    Range.dom_sized (canvas run) W 600 /\
    Spec.scaled_by (inject_Z 600 / inject_Z 4000) 3000 W.
Proof.
  apply (fit_height_keeps_aspect Blob size toBlob (photo 4000 3000)
           {| width := 4000; height := 3000 |}
           (options 6 0 "height" Null (int 600) Null) 600 3000 4000);
    try reflexivity; unfold Range.CANVAS_MAX; lia.
Defined.

(** X9, witness: code 6 turned by 90 more. *)
Lemma no_resize_draws_unscaled_witness :
  exists run,
    Sample.process (photo 4000 3000) (options 6 90 "none" Null Null Null)
      = Resolved run /\
    scale (canvas run) = (Fin 1, Fin 1).
Proof.
  apply (no_resize_draws_unscaled Blob size toBlob (photo 4000 3000)
           {| width := 4000; height := 3000 |}
           (options 6 90 "none" Null Null Null));
    try reflexivity; try discriminate.
  cbn. auto.
Defined.

(** X10, witness: PNG export with a ceiling of 50000 bytes, and with none. *)
Lemma png_export_ignores_ceiling_witness :
  Sample.process (photo 4000 3000) AppSample.png_options =
    Sample.process (photo 4000 3000)
      (with_maxSizeBytes Null AppSample.png_options).
Proof.
  apply (png_export_ignores_ceiling Blob size toBlob (photo 4000 3000)
           AppSample.png_options Null).
  reflexivity.
Defined.

(** X11, witness: a PNG source with a ceiling of 50000 bytes. *)
Lemma ceiling_converts_to_jpeg_witness :
  exists run,
    Sample.process AppSample.drawing
      (options 1 0 "none" Null Null (int 50000)) = Resolved run /\
    mime run = "image/jpeg" /\
    hd NaN (encodings run) = lit 1.
Proof.
  apply (ceiling_converts_to_jpeg Blob size toBlob AppSample.drawing
           {| width := 640; height := 480 |}
           (options 1 0 "none" Null Null (int 50000)));
    try reflexivity.
  discriminate.
Defined.

End ResizeFacts.

(** ** The controller *)

Module AppFacts.

Import JSNumber JSNumberFacts NumberSpec RoundingFacts AppController AppSpec.

Local Open Scope string_scope.
Local Open Scope Z_scope.

(** *** File names *)

Lemma split_nonempty (sep : ascii) (s : string) : split sep s <> [].
Proof.
  destruct s as [|ch rest]; cbn; [discriminate|].
  destruct (Ascii.eqb ch sep); [discriminate|].
  destruct (split sep rest); discriminate.
Qed.

Lemma split_free (sep : ascii) (s : string) : free_of sep s -> split sep s = [s].
Proof.
  unfold free_of. induction s as [|ch rest IH]; cbn; intros H; [reflexivity|].
  destruct (Ascii.eqb_spec ch sep) as [->|_]; [exfalso; apply H; left; reflexivity|].
  rewrite IH by (intros Hin; apply H; right; exact Hin). reflexivity.
Qed.

Lemma split_app (sep : ascii) (a b : string) :
  split sep (a ++ String sep b) = (split sep a ++ split sep b)%list.
Proof.
  induction a as [|ch rest IH]; cbn.
  - rewrite Ascii.eqb_refl. reflexivity.
  - destruct (Ascii.eqb ch sep); [rewrite IH; reflexivity|].
    rewrite IH. destruct (split sep rest) eqn:E; [|reflexivity].
    exfalso. exact (split_nonempty _ _ E).
Qed.

(** [join] undoes [split]. *)
Lemma concat_split (sep : ascii) (s : string) :
  String.concat (String sep "") (split sep s) = s.
Proof.
  induction s as [|ch rest IH]; [reflexivity|]. cbn [split].
  destruct (Ascii.eqb_spec ch sep) as [->|Hne].
  - destruct (split sep rest) as [|p ps] eqn:E; [exfalso; exact (split_nonempty _ _ E)|].
    cbn [String.concat]. cbn [String.concat] in IH.
    change (String.concat (String sep "") (p :: ps)) with
      (match ps with
       | [] => p
       | _ => p ++ String sep "" ++ String.concat (String sep "") ps
       end) in IH.
    cbn. f_equal. exact IH.
  - destruct (split sep rest) as [|p ps] eqn:E; [exfalso; exact (split_nonempty _ _ E)|].
    destruct ps as [|p' ps']; cbn in IH |- *; rewrite <- IH; reflexivity.
Qed.

(** X12.  The download name puts '_fixed' before the last dot of the file
    name: 'base.ext' becomes 'base_fixed.ext' when 'ext' has no dot; a name
    with no dot at all is taken as an extension and gets '_fixed.' in
    front. *)
Theorem newName_tags_before_extension (base ext : string) :
  free_of "." ext ->
  newName (base ++ "." ++ ext) = base ++ "_fixed." ++ ext /\
  newName ext = "_fixed." ++ ext.
Proof.
  intros Hfree. unfold newName. split.
  - change (base ++ "." ++ ext) with (base ++ String "." ext).
    rewrite split_app, (split_free _ ext Hfree).
    rewrite last_last, removelast_last, concat_split. reflexivity.
  - rewrite (split_free _ ext Hfree). reflexivity.
Qed.

(** *** The rotation buttons *)

Lemma rotation_stays_quarter (c : Controller) :
  In (manualRotation (state c)) [0; 90; 180; 270] ->
  In (manualRotation (state (rotateLeft_click c))) [0; 90; 180; 270] /\
  In (manualRotation (state (rotateRight_click c))) [0; 90; 180; 270].
Proof.
  cbn [rotateLeft_click rotateRight_click with_state state manualRotation
       set_manualRotation In].
  intros [ <- | [ <- | [ <- | [ <- | [] ] ] ] ]; split; cbn; auto 6.
Qed.

(** X13.  From a rotation of 0, 90, 180 or 270, the two rotate buttons
    undo each other, four clicks on one come back to the start, and the
    rotation stays one of the four values. *)
Theorem rotation_buttons_undo_each_other (c : Controller) :
  In (manualRotation (state c)) [0; 90; 180; 270] ->
  rotateLeft_click (rotateRight_click c) = c /\
  rotateRight_click (rotateLeft_click c) = c /\
  rotateRight_click
    (rotateRight_click (rotateRight_click (rotateRight_click c))) = c /\
  In (manualRotation (state (rotateLeft_click c))) [0; 90; 180; 270] /\
  In (manualRotation (state (rotateRight_click c))) [0; 90; 180; 270].
Proof.
  destruct c as [fs [af m rm tw th se ef ms] pg]. cbn [state manualRotation In].
  intros [ <- | [ <- | [ <- | [ <- | [] ] ] ] ];
    repeat split; cbn; auto 6.
Qed.

(** *** The size input *)

Lemma Qfloor_proper_inject (x : Q) (z : Z) : (x == inject_Z z)%Q -> Qfloor x = z.
Proof. intros E. rewrite (Qfloor_comp _ _ E). apply Qfloor_Z. Qed.

(** X14.  A whole number [k] of kilobytes typed in the size input, below
    [2^43], is stored as exactly [1024 * k] bytes. *)
Theorem whole_kilobytes_are_exact (c : Controller) (k : Z) :
  0 < k < 2 ^ 43 ->
  maxSizeBytes (state (maxSize_input (of_Z k) c))
    = ImageProcessor.Num (of_Z (1024 * k)).
Proof.
  intros Hk. cbn [maxSize_input with_state state maxSizeBytes].
  assert (0 < inject_Z k)%Q as HK.
  { change 0%Q with (inject_Z 0). rewrite <- Zlt_Qlt. lia. }
  assert (ImageProcessor.truthy (ImageProcessor.Num (of_Z k)) && positive (of_Z k)
          = true) as ->.
  { cbn. destruct (Qeq_bool (inject_Z k) 0) eqn:E.
    - apply Qeq_bool_eq in E. lra.
    - destruct (Qle_bool (inject_Z k) 0) eqn:E'; [|reflexivity].
      apply Qle_bool_iff in E'. lra. }
  cbn [nmul of_Z nfloor]. unfold of_Z. do 3 f_equal.
  apply Qfloor_proper_inject.
  rewrite (fl_proper (inject_Z k * inject_Z 1024) (inject_Z (1024 * k)))
    by (rewrite inject_Z_mult; ring).
  apply fl_inject. change (2 ^ 53) with (1024 * 2 ^ 43). lia.
Qed.

Section Process.

Variable Blob : Type.
Variable size : Blob -> Z.
Variable toBlob : ImageProcessor.Canvas -> string -> number -> Blob.

(** X15.  A positive limit of less than one byte, typed in kilobytes, is
    stored as 0, and [process] then runs as with no limit: one encoding, at
    quality 0.95. *)
Theorem sub_byte_limit_is_no_limit
    (c : Controller) (q : Q) (item : Item) (img : ImageProcessor.Image) :
  representable q -> (q < 1 # 1024)%Q ->
  ImageProcessor.decoded (file item) = Some img ->
  let c' := maxSize_input (Fin q) c in
  maxSizeBytes (state c') = ImageProcessor.Num (of_Z 0) /\
  exists run,
    ImageProcessor.process Blob size toBlob (file item)
      (options_for (state c') item) = ImageProcessor.Resolved run /\
    ImageProcessor.encodings run = [lit (95 # 100)].
Proof.
  intros Hr Hq Hd c'.
  pose proof (representable_pos q Hr) as Hq0.
  assert (maxSizeBytes (state c') = ImageProcessor.Num (of_Z 0)) as Hmax.
  { unfold c'. cbn [maxSize_input with_state state maxSizeBytes].
    assert (ImageProcessor.truthy (ImageProcessor.Num (Fin q)) && positive (Fin q)
            = true) as ->.
    { cbn. destruct (Qeq_bool q 0) eqn:E.
      - apply Qeq_bool_eq in E. lra.
      - destruct (Qle_bool q 0) eqn:E'; [|reflexivity].
        apply Qle_bool_iff in E'. lra. }
    cbn [nmul of_Z nfloor]. unfold of_Z. do 3 f_equal.
    assert (representable (q * inject_Z 1024)) as Hr'.
    { destruct Hr as (m & e & Hm & E). exists m, (e + 10)%Z. split; [exact Hm|].
      rewrite E, pow2_add. change (pow2 10) with (inject_Z 1024). ring. }
    pose proof (fl_representable _ Hr') as Hfl.
    pose proof (Qfloor_le (fl (q * inject_Z 1024))) as H1.
    pose proof (Qlt_floor (fl (q * inject_Z 1024))) as H2.
    rewrite inject_Z_plus in H2. change (inject_Z 1) with 1%Q in H2.
    set (f := fl (q * inject_Z 1024)) in *.
    change (inject_Z 1024) with 1024%Q in Hfl.
    assert (inject_Z (Qfloor f) < inject_Z 1)%Q as Ha
      by (change (inject_Z 1) with 1%Q; lra).
    assert (inject_Z (-1) < inject_Z (Qfloor f))%Q as Hb
      by (change (inject_Z (-1)) with (-1)%Q; lra).
    rewrite <- Zlt_Qlt in Ha, Hb. lia. }
  split; [exact Hmax|].
  destruct (SearchFacts.process_encode Blob size toBlob (file item) img
              (options_for (state c') item) Hd) as (run & Hrun & He).
  exists run. split; [exact Hrun|].
  cbn [options_for ImageProcessor.maxSizeBytes] in He. rewrite Hmax in He.
  unfold ImageProcessor.encode in He. cbn [ImageProcessor.truthy of_Z] in He.
  change (Qeq_bool (inject_Z 0) 0) with true in He. cbn [negb orb] in He.
  injection He as -> _. reflexivity.
Qed.

End Process.

(** *** Every state of a session *)

Lemma maxSize_input_shape (val : number) (c : Controller) :
  ceiling_shape (maxSizeBytes (state (maxSize_input val c))).
Proof.
  cbn [maxSize_input with_state state maxSizeBytes].
  destruct val as [|[|]|x]; cbn [ImageProcessor.truthy positive andb negb].
  - right; left; reflexivity.
  - right; left; reflexivity.
  - right; right; left. reflexivity.
  - destruct (Qeq_bool x 0) eqn:E; cbn [negb andb]; [right; left; reflexivity|].
    destruct (Qle_bool x 0) eqn:E'; cbn [negb]; [right; left; reflexivity|].
    right; right; right. cbn [nmul of_Z nfloor].
    eexists. split; [|reflexivity].
    change 0 with (Qfloor 0). apply Qfloor_resp_le, fl_nonneg.
    assert (0 < x)%Q.
    { apply Qnot_le_lt. intros H. apply Qle_bool_iff in H. congruence. }
    change (inject_Z 1024) with 1024%Q. lra.
Qed.

Lemma number_of_integer_shape (z : Z) :
  (exists negative, number_of_integer z = Inf negative) \/
  exists k, number_of_integer z = of_Z k.
Proof.
  unfold number_of_integer. destruct (_ <=? _).
  - left. eexists. reflexivity.
  - right. destruct (fl_integer z) as [k E]. exists k. unfold of_Z.
    rewrite E. reflexivity.
Qed.

(** Below [2^53] the integer is kept as it is. *)
Lemma number_of_integer_exact (z : Z) :
  0 <= z < 2 ^ 53 -> number_of_integer z = of_Z z.
Proof.
  intros Hz. unfold number_of_integer.
  destruct (Z.leb_spec (2 ^ 1024 - 2 ^ 970) (Z.abs z)) as [H|_].
  - exfalso. assert (2 ^ 53 < 2 ^ 1024 - 2 ^ 970) by (vm_compute; reflexivity). lia.
  - unfold of_Z. f_equal. destruct (fl_integer z) as [k E]. rewrite E.
    pose proof (fl_inject z Hz) as F. rewrite E in F.
    unfold Qeq, inject_Z in F. cbn in F. f_equal. lia.
Qed.

Lemma parseInt_result_shape (parsed : option Z) :
  target_shape (parseInt_result parsed).
Proof.
  destruct parsed as [z|]; [|right; left; reflexivity].
  cbn [parseInt_result].
  destruct (number_of_integer_shape z) as [[negative E]|[k E]]; rewrite E.
  - right. right. left. exists negative. reflexivity.
  - right. right. right. exists k. reflexivity.
Qed.

Lemma handle_well_formed
    (Blob : Type) (size : Blob -> Z)
    (toBlob : ImageProcessor.Canvas -> string -> number -> Blob)
    (exif : ImageProcessor.File -> OrientationReader.ExifRun)
    (timer_first : bool) (c : Controller) (e : Event) :
  well_formed (state c) ->
  well_formed (state (handle Blob size toBlob exif timer_first c e)).
Proof.
  intros (Hm & Htw & Hth & Hms).
  destruct e; cbn [handle];
    try (repeat split; assumption).
  - (* rotate left *)
    split; [|repeat split; assumption].
    apply (rotation_stays_quarter c Hm).
  - split; [|repeat split; assumption].
    apply (rotation_stays_quarter c Hm).
  - repeat split; try assumption. apply parseInt_result_shape.
  - repeat split; try assumption. apply parseInt_result_shape.
  - repeat split; try assumption. apply (maxSize_input_shape val c).
  - unfold format_change, updateUIState.
    cbn [with_state state exportFormat].
    destruct (String.eqb value "png"); [repeat split; assumption|].
    destruct (String.eqb value "jpeg"); repeat split; assumption.
  - unfold on_drop. destruct (DropZone.drop dropped) as [[|f fs]|];
      repeat split; assumption.
  - unfold on_change. destruct (DropZone.change chosen) as [[|f fs]|];
      repeat split; assumption.
  - unfold handleDownload. destruct (files c); repeat split; assumption.
Qed.

(** X16.  Whatever the events of a session, the state stays well formed:
    the manual rotation is 0, 90, 180 or 270, each target is [null], [NaN],
    an infinity or an integer (what [parseInt] returns, also on digits
    beyond the binary64 range and on integers that need rounding), and
    [maxSizeBytes] is [undefined], [null], infinity or a whole number of
    bytes that is not negative. *)
Theorem session_state_well_formed
    (Blob : Type) (size : Blob -> Z)
    (toBlob : ImageProcessor.Canvas -> string -> number -> Blob)
    (exif : ImageProcessor.File -> OrientationReader.ExifRun)
    (timer_first : bool) (page : Page) (events : list Event) :
  well_formed (state (session Blob size toBlob exif timer_first page events)).
Proof.
  unfold session.
  assert (well_formed (state (constructor page))) as H0.
  { unfold well_formed. cbn [constructor state manualRotation targetWidth
                               targetHeight maxSizeBytes].
    split; [left; reflexivity|]. split; [left; reflexivity|].
    split; left; reflexivity. }
  revert H0. generalize (constructor page).
  induction events as [|e events IH]; intros c Hc; [exact Hc|].
  cbn [fold_left]. apply IH, handle_well_formed, Hc.
Qed.

(** *** Dropping files *)

(** X17.  A drop adds the dropped files whose type starts with 'image/',
    in order, after those already listed, and leaves the settings alone; a
    drop with no such file changes nothing at all. *)
Theorem drop_keeps_images_only
    (exif : ImageProcessor.File -> OrientationReader.ExifRun)
    (timer_first : bool) (dropped : list ImageProcessor.File) (c : Controller) :
  files (on_drop exif timer_first dropped c) =
    (files c ++ map (item_of exif timer_first)
                  (filter DropZone.is_image dropped))%list /\
  state (on_drop exif timer_first dropped c) = state c /\
  (filter DropZone.is_image dropped = [] ->
   on_drop exif timer_first dropped c = c).
Proof.
  unfold on_drop, DropZone.drop.
  destruct dropped as [|f fs].
  - cbn. rewrite app_nil_r. repeat split.
  - destruct (filter DropZone.is_image (f :: fs)) as [|g gs] eqn:E.
    + cbn [handleFiles map]. rewrite app_nil_r. repeat split.
    + cbn [handleFiles files state]. repeat split. discriminate.
Qed.

(** *** Downloading *)

Section Download.

Variable Blob : Type.
Variable size : Blob -> Z.
Variable toBlob : ImageProcessor.Canvas -> string -> number -> Blob.

Lemma process_all_rejected (s : State) (items : list Item) :
  forall zip,
    Exists (fun item => ImageProcessor.decoded (file item) = None) items ->
    process_all Blob size toBlob s items zip = ImageProcessor.Rejected.
Proof.
  induction items as [|item rest IH]; intros zip Hex; [inversion Hex|].
  cbn [process_all].
  destruct (ImageProcessor.process Blob size toBlob (file item) (options_for s item))
    as [|run] eqn:E; [reflexivity|].
  apply IH. inversion Hex as [? ? Hnone|? ? Hrest]; subst; [|exact Hrest].
  exfalso. unfold ImageProcessor.process, ImageProcessor.loadImage in E.
  rewrite Hnone in E. discriminate E.
Qed.

(** [zip.file] with a name that is not there yet adds the entry at the
    end. *)
Lemma zip_file_fresh (name : string) (b : Blob) (zip : list (string * Blob)) :
  ~ In name (map fst zip) -> zip_file Blob name b zip = (zip ++ [(name, b)])%list.
Proof.
  induction zip as [|[n b'] rest IH]; intros Hfresh; [reflexivity|].
  cbn [zip_file app]. cbn [map fst In] in Hfresh.
  destruct (String.eqb_spec n name) as [E|_]; [exfalso; auto|].
  rewrite IH by auto. reflexivity.
Qed.

(** The archive after the entries were put in one after the other. *)
Lemma process_all_resolved (s : State) (items : list Item) :
  forall zip,
    Forall (fun item => ImageProcessor.decoded (file item) <> None) items ->
    exists entries,
      process_all Blob size toBlob s items zip
        = ImageProcessor.Resolved
            (fold_left (fun z e => zip_file Blob (fst e) (snd e) z) entries zip) /\
      Forall2 (entry_of Blob size toBlob s) items entries.
Proof.
  induction items as [|item rest IH]; intros zip Hall.
  - exists []. split; [reflexivity | constructor].
  - inversion Hall as [|? ? Hd Hrest]; subst.
    destruct (ImageProcessor.decoded (file item)) as [img|] eqn:Himg; [|congruence].
    destruct (GeometryFacts.process_resolves Blob size toBlob (file item) img
                (options_for s item) Himg) as (run & Hrun & _).
    cbn [process_all]. rewrite Hrun.
    destruct (IH (zip_file Blob (newName (ImageProcessor.name (file item)))
                    (ImageProcessor.blob run) zip) Hrest)
      as (entries & E & Hent).
    exists ((newName (ImageProcessor.name (file item)), ImageProcessor.blob run)
            :: entries).
    rewrite E. split; [reflexivity|].
    constructor; [exists run; split; [exact Hrun | reflexivity] | exact Hent].
Qed.

Lemma entry_names (s : State) (items : list Item) (entries : list (string * Blob)) :
  Forall2 (entry_of Blob size toBlob s) items entries ->
  map fst entries =
    map (fun item => newName (ImageProcessor.name (file item))) items.
Proof.
  induction 1 as [|item e items entries (run & _ & ->) _ IH]; [reflexivity|].
  cbn [map fst]. rewrite IH. reflexivity.
Qed.

(** Entries of distinct names are kept one by one, in order. *)
Lemma distinct_entries_kept (entries : list (string * Blob)) :
  forall zip,
    NoDup (map fst (zip ++ entries)) ->
    fold_left (fun z e => zip_file Blob (fst e) (snd e) z) entries zip
      = (zip ++ entries)%list.
Proof.
  induction entries as [|[n b] rest IH]; intros zip Hnd;
    [symmetry; apply app_nil_r|].
  cbn [fold_left fst snd].
  assert (~ In n (map fst zip)) as Hfresh.
  { rewrite map_app in Hnd. cbn [map fst] in Hnd.
    apply NoDup_remove_2 in Hnd. intros Hin. apply Hnd.
    apply in_or_app. left. exact Hin. }
  rewrite zip_file_fresh by exact Hfresh.
  rewrite IH; rewrite <- app_assoc; [reflexivity | exact Hnd].
Qed.

(** X18.  When one listed file cannot be decoded, a click on the download
    button saves nothing: the error is logged and shown once, the files and
    the settings are kept, and the button is enabled again with its
    label. *)
Theorem one_bad_file_blocks_the_download (c : Controller) :
  Exists (fun item => ImageProcessor.decoded (file item) = None) (files c) ->
  let '(c', effects) := handleDownload Blob size toBlob c in
  effects = [ConsoleError; Alert] /\
  files c' = files c /\ state c' = state c /\
  downloadBtn_text (page c') = "Download All" /\
  downloadBtn_disabled (page c') = false.
Proof.
  intros Hex. unfold handleDownload.
  destruct (files c) as [|item rest] eqn:Hfiles; [inversion Hex|].
  cbn [set_downloadBtn with_page files state page].
  rewrite Hfiles, (process_all_rejected _ _ _ Hex).
  repeat split.
Qed.

(** X19.  With one decodable file listed, the download saves the blob
    [process] resolved with, under the new name of the file, and no
    archive. *)
Theorem single_file_is_saved_under_its_new_name (c : Controller) (item : Item) :
  files c = [item] ->
  ImageProcessor.decoded (file item) <> None ->
  exists run,
    ImageProcessor.process Blob size toBlob (file item)
      (options_for (state c) item) = ImageProcessor.Resolved run /\
    snd (handleDownload Blob size toBlob c) =
      [SaveBlob (Entry (ImageProcessor.blob run))
         (newName (ImageProcessor.name (file item)))].
Proof.
  intros Hfiles Hd. unfold handleDownload. rewrite Hfiles.
  cbn [set_downloadBtn with_page files state page snd].
  rewrite Hfiles.
  assert (Forall (fun it => ImageProcessor.decoded (file it) <> None) [item])
    as Hall by (constructor; [exact Hd | constructor]).
  destruct (process_all_resolved (state c) [item] [] Hall)
    as (entries & E & Hent).
  rewrite E. inversion Hent as [|? e ? es [run [Hrun He]] Hnil]; subst.
  inversion Hnil; subst. exists run. split; [exact Hrun|]. reflexivity.
Qed.

(** X20.  With two or more decodable files listed whose new names are all
    different, the download saves one archive 'images_fixed.zip' with an
    entry for each file in order, made of its new name and its processed
    blob, and the button is enabled again. *)
Theorem several_files_are_saved_as_one_archive (c : Controller) :
  (2 <= List.length (files c))%nat ->
  Forall (fun item => ImageProcessor.decoded (file item) <> None) (files c) ->
  NoDup (map (fun item => newName (ImageProcessor.name (file item))) (files c)) ->
  exists entries,
    Forall2 (entry_of Blob size toBlob (state c)) (files c) entries /\
    let '(c', effects) := handleDownload Blob size toBlob c in
    effects = [SaveBlob (Archive entries) "images_fixed.zip"] /\
    downloadBtn_text (page c') = "Download All" /\
    downloadBtn_disabled (page c') = false.
Proof.
  intros Hlen Hall Hnames.
  destruct (process_all_resolved (state c) (files c) [] Hall)
    as (entries & E & Hent).
  rewrite <- (entry_names _ _ _ Hent) in Hnames.
  rewrite (distinct_entries_kept entries [] Hnames) in E.
  exists entries. split; [exact Hent|].
  unfold handleDownload.
  destruct (files c) as [|item rest] eqn:Hfiles; [cbn in Hlen; lia|].
  cbn [set_downloadBtn with_page files state page].
  rewrite Hfiles, E. cbn [app].
  destruct (Z.eqb_spec (Z.of_nat (List.length (item :: rest))) 1) as [H1|_];
    [cbn [List.length] in H1, Hlen; lia|].
  repeat split.
Qed.

(** X26.  Two decodable files whose new names are the same give an archive
    with a single entry, under that name, holding the processed blob of the
    second file: the entry of the first is replaced. *)
Theorem same_name_files_share_one_entry (c : Controller) (first second : Item) :
  files c = [first; second] ->
  ImageProcessor.decoded (file first) <> None ->
  ImageProcessor.decoded (file second) <> None ->
  newName (ImageProcessor.name (file first))
    = newName (ImageProcessor.name (file second)) ->
  exists run,
    ImageProcessor.process Blob size toBlob (file second)
      (options_for (state c) second) = ImageProcessor.Resolved run /\
    snd (handleDownload Blob size toBlob c) =
      [SaveBlob
         (Archive [(newName (ImageProcessor.name (file second)),
                    ImageProcessor.blob run)])
         "images_fixed.zip"].
Proof.
  intros Hfiles Hd1 Hd2 Hname.
  destruct (ImageProcessor.decoded (file first)) as [img1|] eqn:E1; [|congruence].
  destruct (ImageProcessor.decoded (file second)) as [img2|] eqn:E2; [|congruence].
  destruct (GeometryFacts.process_resolves Blob size toBlob (file first) img1
              (options_for (state c) first) E1) as (run1 & Hrun1 & _).
  destruct (GeometryFacts.process_resolves Blob size toBlob (file second) img2
              (options_for (state c) second) E2) as (run2 & Hrun2 & _).
  exists run2. split; [exact Hrun2|].
  unfold handleDownload. rewrite Hfiles.
  cbn [set_downloadBtn with_page files state page snd].
  rewrite Hfiles. cbn [process_all]. rewrite Hrun1, Hrun2.
  cbn [zip_file]. rewrite Hname, String.eqb_refl. reflexivity.
Qed.

(** X21.  With auto-fix off, the download does not depend on the
    orientations read from the files: every file is processed as code 1. *)
Theorem autoFix_off_ignores_the_tags (c : Controller) (g : Item -> Z) :
  autoFix (state c) = false ->
  snd (handleDownload Blob size toBlob (reoriented g c))
    = snd (handleDownload Blob size toBlob c).
Proof.
  intros Hoff.
  assert (forall items zip,
            process_all Blob size toBlob (state c)
              (map (fun item => {| file := file item;
                                   originalOrientation := g item |}) items) zip
            = process_all Blob size toBlob (state c) items zip) as Hall.
  { induction items as [|item rest IH]; intros zip; [reflexivity|].
    cbn [map process_all file].
    assert (options_for (state c)
              {| file := file item; originalOrientation := g item |}
            = options_for (state c) item) as ->
      by (unfold options_for; rewrite Hoff; reflexivity).
    destruct (ImageProcessor.process _ _ _ _ _); [reflexivity | apply IH]. }
  destruct c as [[|item rest] st pg]; [reflexivity|].
  pose proof (Hall (item :: rest) []) as H1. cbn [map state] in H1.
  unfold handleDownload, reoriented.
  cbn [map set_downloadBtn with_page files state page snd].
  rewrite H1. cbn [List.length]. rewrite !length_map.
  reflexivity.
Qed.

End Download.

(** *** Reading the orientation *)

Lemma or_1_nonzero (result : option Z) : OrientationReader.or_1 result <> 0.
Proof.
  unfold OrientationReader.or_1. destruct result as [r|]; [|discriminate].
  destruct (Z.eqb_spec r 0); [discriminate | assumption].
Qed.

Lemma value_of_nonzero (ev : OrientationReader.Event) :
  OrientationReader.value_of ev <> 0.
Proof. destruct ev; cbn; try discriminate. apply or_1_nonzero. Qed.

(** There is always a first event, and it settles the promise. *)
Lemma getOrientation_first
    (exif : OrientationReader.ExifRun) (timer_first : bool) :
  exists now ev,
    OrientationReader.getOrientation exif timer_first =
      {| OrientationReader.accepted := true;
         OrientationReader.resolved := [(now, OrientationReader.value_of ev)] |}.
Proof.
  assert (exists first rest,
             OrientationReader.events exif timer_first = first :: rest)
    as (first & rest & E).
  { unfold OrientationReader.events.
    destruct (OrientationReader.sync_calls exif) as [|result calls];
      [|cbn; eauto].
    destruct (OrientationReader.throws exif); [cbn; eauto|]. cbn [map app].
    destruct (OrientationFacts.deliveries_first timer_first
                (OrientationReader.later_calls exif))
      as (now & ev & rest & -> & _). eauto. }
  unfold OrientationReader.getOrientation.
  rewrite E, OrientationFacts.run_first. eauto.
Qed.

(** X23.  [getOrientation] always calls [resolve], exactly once, so the
    [await] in [handleFiles] always gets a value, and that value is never 0:
    a tag of 0 is replaced by 1. *)
Theorem await_takes_the_only_resolution
    (exif : OrientationReader.ExifRun) (timer_first : bool) :
  exists now val,
    OrientationReader.resolved (OrientationReader.getOrientation exif timer_first)
      = [(now, val)] /\
    awaited (OrientationReader.getOrientation exif timer_first) = val /\
    val <> 0.
Proof.
  destruct (getOrientation_first exif timer_first) as (now & ev & ->).
  eexists _, _. split; [reflexivity|]. split; [reflexivity|].
  apply value_of_nonzero.
Qed.

Lemma item_of_nonzero (exif : ImageProcessor.File -> OrientationReader.ExifRun)
    (timer_first : bool) (f : ImageProcessor.File) :
  originalOrientation (item_of exif timer_first f) <> 0.
Proof.
  cbn [item_of originalOrientation].
  destruct (getOrientation_first (exif f) timer_first) as (now & ev & ->).
  apply value_of_nonzero.
Qed.

(** *** The list of files *)

Lemma updateUIState_files (c : Controller) :
  files (updateUIState c) = files c.
Proof.
  unfold updateUIState. destruct (_ =? _)%string; [reflexivity|].
  destruct (_ =? _)%string; reflexivity.
Qed.

Lemma updateUIState_state (c : Controller) :
  state (updateUIState c) = state c.
Proof.
  unfold updateUIState. destruct (_ =? _)%string; [reflexivity|].
  destruct (_ =? _)%string; reflexivity.
Qed.

Section Files.

Variable Blob : Type.
Variable size : Blob -> Z.
Variable toBlob : ImageProcessor.Canvas -> string -> number -> Blob.
Variable exif : ImageProcessor.File -> OrientationReader.ExifRun.
Variable timer_first : bool.

Lemma handleFiles_files (newFiles : list ImageProcessor.File) (c : Controller) :
  files (handleFiles exif timer_first newFiles c) =
    (files c ++ map (item_of exif timer_first) newFiles)%list.
Proof.
  destruct newFiles; cbn [handleFiles files map]; [|reflexivity].
  symmetry. apply app_nil_r.
Qed.

Lemma handleDownload_files (c : Controller) :
  files (fst (handleDownload Blob size toBlob c)) = files c.
Proof. unfold handleDownload. destruct (files c) eqn:E; cbn; auto. Qed.

Lemma handle_files (c : Controller) (e : Event) :
  exists selected,
    files (handle Blob size toBlob exif timer_first c e) =
      (files c ++ map (item_of exif timer_first) selected)%list.
Proof.
  destruct e as [checked|checked| | |value|parsed|parsed|val|value|dropped|chosen|];
    cbn [AppController.handle];
    try (exists []; cbn [map]; rewrite app_nil_r; reflexivity).
  - exists []. cbn [map]. rewrite app_nil_r. unfold format_change.
    rewrite updateUIState_files. reflexivity.
  - unfold on_drop. destruct (DropZone.drop dropped) as [selected|].
    + exists selected. apply handleFiles_files.
    + exists []. cbn [map]. rewrite app_nil_r. reflexivity.
  - unfold on_change. destruct (DropZone.change chosen) as [selected|].
    + exists selected. apply handleFiles_files.
    + exists []. cbn [map]. rewrite app_nil_r. reflexivity.
  - exists []. cbn [map]. rewrite app_nil_r. apply handleDownload_files.
Qed.

(** X24.  No event removes or reorders a listed file: after any events
    the list is the old one followed by the items of the files selected
    since, and none of these has orientation 0. *)
Theorem files_are_never_removed (c : Controller) (events : list Event) :
  exists selected,
    files (fold_left (handle Blob size toBlob exif timer_first) events c) =
      (files c ++ map (item_of exif timer_first) selected)%list /\
    Forall (fun item => originalOrientation item <> 0)
      (map (item_of exif timer_first) selected).
Proof.
  revert c. induction events as [|e events IH]; intros c.
  - exists []. cbn. rewrite app_nil_r. split; [reflexivity | constructor].
  - cbn [fold_left].
    destruct (IH (handle Blob size toBlob exif timer_first c e))
      as (sel2 & E2 & _).
    destruct (handle_files c e) as (sel1 & E1).
    exists (sel1 ++ sel2)%list. split.
    + rewrite E2, E1, map_app, app_assoc. reflexivity.
    + apply Forall_forall. intros item Hin. apply in_map_iff in Hin.
      destruct Hin as (f & <- & _). apply item_of_nonzero.
Qed.

Lemma handle_listing (c : Controller) (e : Event) :
  listing c ->
  listing (handle Blob size toBlob exif timer_first c e).
Proof.
  unfold listing. intros Hc.
  destruct e as [checked|checked| | |value|parsed|parsed|val|value|dropped|chosen|];
    cbn [AppController.handle]; try exact Hc.
  - unfold format_change, updateUIState.
    cbn [with_state state exportFormat].
    destruct (value =? "png")%string; [exact Hc|].
    destruct (value =? "jpeg")%string; exact Hc.
  - unfold on_drop. destruct (DropZone.drop dropped) as [[|f fs]|];
      [exact Hc | intros _; split; reflexivity | exact Hc].
  - unfold on_change. destruct (DropZone.change chosen) as [[|f fs]|];
      [exact Hc | intros _; split; reflexivity | exact Hc].
  - unfold handleDownload. destruct (files c) as [|item rest] eqn:E;
      [cbn; rewrite E; intros H; contradiction|].
    cbn [fst set_downloadBtn with_page files state page dropZone_hidden
         editorSection_hidden]. rewrite E. exact Hc.
Qed.

(** X25.  Whenever a session has files listed, the drop zone is hidden
    and the editor section is visible. *)
Theorem listed_files_hide_the_drop_zone (page0 : Page) (events : list Event) :
  let c := session Blob size toBlob exif timer_first page0 events in
  files c <> [] ->
  dropZone_hidden (page c) = true /\ editorSection_hidden (page c) = false.
Proof.
  cbv zeta. unfold session.
  assert (listing (constructor page0)) as H0
    by (intros H; cbn in H; contradiction).
  revert H0. generalize (constructor page0).
  induction events as [|e events IH]; intros c Hc; [exact Hc|].
  cbn [fold_left]. apply IH, handle_listing, Hc.
Qed.

End Files.

(** *** The format and the size limit *)

Section Formats.

Variable Blob : Type.
Variable size : Blob -> Z.
Variable toBlob : ImageProcessor.Canvas -> string -> number -> Blob.

(** With PNG as the export format [process] never looks at the ceiling. *)
Lemma process_png (file : ImageProcessor.File) (o1 o2 : ImageProcessor.Options) :
  ImageProcessor.exportFormat o1 = Some "png" ->
  o2 = ProcessOptions.with_maxSizeBytes (ImageProcessor.maxSizeBytes o2) o1 ->
  ImageProcessor.process Blob size toBlob file o1 =
    ImageProcessor.process Blob size toBlob file o2.
Proof.
  intros Hf ->. unfold ImageProcessor.process.
  destruct (ImageProcessor.loadImage file) as [|img]; [reflexivity|].
  unfold ImageProcessor.mimeType. cbn [ProcessOptions.with_maxSizeBytes
    ImageProcessor.exportFormat]. rewrite Hf.
  cbn [ImageProcessor.or_default String.eqb Ascii.eqb Bool.eqb].
  unfold ImageProcessor.encode. cbn [String.eqb Ascii.eqb Bool.eqb].
  rewrite !orb_true_r. reflexivity.
Qed.

(** X22.  Choosing 'png' disables the size input but keeps the limit typed
    before in the state; the download is then the same as if nothing had
    been typed. *)
Theorem png_format_makes_the_size_input_moot (c : Controller) (val : number) :
  let typed := maxSize_input val c in
  maxSizeInput_disabled (page (format_change "png" typed)) = true /\
  maxSizeBytes (state (format_change "png" typed)) = maxSizeBytes (state typed) /\
  snd (handleDownload Blob size toBlob (format_change "png" typed))
    = snd (handleDownload Blob size toBlob (format_change "png" c)).
Proof.
  cbv zeta. split; [reflexivity|]. split; [reflexivity|].
  set (c1 := format_change "png" (maxSize_input val c)).
  set (c0 := format_change "png" c).
  assert (forall items zip,
            process_all Blob size toBlob (state c1) items zip
            = process_all Blob size toBlob (state c0) items zip) as Hall.
  { induction items as [|item rest IH]; intros zip; [reflexivity|].
    cbn [process_all].
    rewrite <- (process_png (file item) (options_for (state c0) item)
                  (options_for (state c1) item)) by reflexivity.
    destruct (ImageProcessor.process _ _ _ _ _); [reflexivity | apply IH]. }
  assert (files c1 = files c0) as Hfiles by reflexivity.
  unfold handleDownload. rewrite Hfiles.
  destruct (files c0) as [|item rest] eqn:E; [reflexivity|].
  cbn [snd].
  change (state (set_downloadBtn "Processing..." true c1)) with (state c1).
  change (state (set_downloadBtn "Processing..." true c0)) with (state c0).
  change (files (set_downloadBtn "Processing..." true c1)) with (files c1).
  change (files (set_downloadBtn "Processing..." true c0)) with (files c0).
  rewrite Hall, Hfiles, E. reflexivity.
Qed.

End Formats.
(** *** Runs on the sample session *)

(** X12, witness. *)
Lemma newName_tags_before_extension_witness :
  newName ("holiday.2024" ++ "." ++ "jpg") = "holiday.2024" ++ "_fixed." ++ "jpg" /\
  newName "jpg" = "_fixed." ++ "jpg".
Proof.
  apply (newName_tags_before_extension "holiday.2024" "jpg").
  unfold free_of. cbn. intros [H|[H|[H|[]]]]; discriminate H.
Defined.

(** X13, witness: the fresh controller. *)
Lemma rotation_buttons_undo_each_other_witness :
  let c := constructor AppSample.page in
  rotateLeft_click (rotateRight_click c) = c /\
  rotateRight_click (rotateLeft_click c) = c /\
  rotateRight_click
    (rotateRight_click (rotateRight_click (rotateRight_click c))) = c /\
  In (manualRotation (state (rotateLeft_click c))) [0; 90; 180; 270] /\
  In (manualRotation (state (rotateRight_click c))) [0; 90; 180; 270].
Proof.
  apply (rotation_buttons_undo_each_other (constructor AppSample.page)).
  left. reflexivity.
Defined.

(** X14, witness: 200 KB. *)
Lemma whole_kilobytes_are_exact_witness :
  maxSizeBytes (state (maxSize_input (of_Z 200) (constructor AppSample.page)))
    = ImageProcessor.Num (of_Z (1024 * 200)).
Proof.
  apply (whole_kilobytes_are_exact (constructor AppSample.page) 200).
  split; reflexivity.
Defined.

(** X15, witness: half a byte, that is 1/2048 KB. *)
Lemma sub_byte_limit_is_no_limit_witness :
  let item := item_of AppSample.exif true (Sample.photo 4000 3000) in
  let c' := maxSize_input (Fin (1 # 2048)) (constructor AppSample.page) in
  maxSizeBytes (state c') = ImageProcessor.Num (of_Z 0) /\
  exists run,
    Sample.process (file item) (options_for (state c') item)
      = ImageProcessor.Resolved run /\
    ImageProcessor.encodings run = [lit (95 # 100)].
Proof.
  apply (sub_byte_limit_is_no_limit Sample.Blob Sample.size Sample.toBlob
           (constructor AppSample.page) (1 # 2048)
           (item_of AppSample.exif true (Sample.photo 4000 3000))
           {| ImageProcessor.width := 4000; ImageProcessor.height := 3000 |}).
  - exists 1, (-11). split; [split; reflexivity | reflexivity].
  - reflexivity.
  - reflexivity.
Defined.

(** X18, witness: a photo and a text file. *)
Lemma one_bad_file_blocks_the_download_witness :
  let c := AppSample.controller [Sample.photo 4000 3000; AppSample.notes] in
  let '(c', effects) :=
    handleDownload Sample.Blob Sample.size Sample.toBlob c in
  effects = [ConsoleError; Alert] /\
  files c' = files c /\ state c' = state c /\
  downloadBtn_text (page c') = "Download All" /\
  downloadBtn_disabled (page c') = false.
Proof.
  apply (one_bad_file_blocks_the_download Sample.Blob Sample.size Sample.toBlob
           (AppSample.controller [Sample.photo 4000 3000; AppSample.notes])).
  right. left. reflexivity.
Defined.

(** X19, witness: one photo. *)
Lemma single_file_is_saved_under_its_new_name_witness :
  let c := AppSample.controller [Sample.photo 4000 3000] in
  let item := item_of AppSample.exif true (Sample.photo 4000 3000) in
  exists run,
    Sample.process (file item) (options_for (state c) item)
      = ImageProcessor.Resolved run /\
    snd (handleDownload Sample.Blob Sample.size Sample.toBlob c) =
      [SaveBlob (Entry (ImageProcessor.blob run))
         (newName (ImageProcessor.name (file item)))].
Proof.
  apply (single_file_is_saved_under_its_new_name
           Sample.Blob Sample.size Sample.toBlob
           (AppSample.controller [Sample.photo 4000 3000])
           (item_of AppSample.exif true (Sample.photo 4000 3000)));
    [reflexivity | discriminate].
Defined.

(** X20, witness: a photo and a drawing. *)
Lemma several_files_are_saved_as_one_archive_witness :
  let c := AppSample.controller [Sample.photo 4000 3000; AppSample.drawing] in
  exists entries,
    Forall2 (entry_of Sample.Blob Sample.size Sample.toBlob (state c))
      (files c) entries /\
    let '(c', effects) :=
      handleDownload Sample.Blob Sample.size Sample.toBlob c in
    effects = [SaveBlob (Archive entries) "images_fixed.zip"] /\
    downloadBtn_text (page c') = "Download All" /\
    downloadBtn_disabled (page c') = false.
Proof.
  apply (several_files_are_saved_as_one_archive
           Sample.Blob Sample.size Sample.toBlob
           (AppSample.controller [Sample.photo 4000 3000; AppSample.drawing])).
  - cbn. lia.
  - repeat constructor; discriminate.
  - cbn. repeat constructor; cbn; intuition discriminate.
Defined.

(** X26, witness: two photos, both named 'photo.jpg'. *)
Lemma same_name_files_share_one_entry_witness :
  let c := AppSample.controller [Sample.photo 4000 3000; Sample.photo 800 600] in
  let second := item_of AppSample.exif true (Sample.photo 800 600) in
  exists run,
    Sample.process (file second) (options_for (state c) second)
      = ImageProcessor.Resolved run /\
    snd (handleDownload Sample.Blob Sample.size Sample.toBlob c) =
      [SaveBlob
         (Archive [(newName (ImageProcessor.name (file second)),
                    ImageProcessor.blob run)])
         "images_fixed.zip"].
Proof.
  apply (same_name_files_share_one_entry
           Sample.Blob Sample.size Sample.toBlob
           (AppSample.controller [Sample.photo 4000 3000; Sample.photo 800 600])
           (item_of AppSample.exif true (Sample.photo 4000 3000))
           (item_of AppSample.exif true (Sample.photo 800 600)));
    [reflexivity | discriminate | discriminate | reflexivity].
Defined.

(** X21, witness: auto-fix switched off after a photo tagged 6 was chosen. *)
Lemma autoFix_off_ignores_the_tags_witness :
  let c := autoFix_change false (AppSample.controller [Sample.photo 4000 3000]) in
  snd (handleDownload Sample.Blob Sample.size Sample.toBlob
         (reoriented (fun _ => 1) c))
    = snd (handleDownload Sample.Blob Sample.size Sample.toBlob c).
Proof.
  apply (autoFix_off_ignores_the_tags Sample.Blob Sample.size Sample.toBlob
           (autoFix_change false (AppSample.controller [Sample.photo 4000 3000]))
           (fun _ => 1)).
  reflexivity.
Defined.

(** X25, witness: one photo chosen, then a turn to the right. *)
Lemma listed_files_hide_the_drop_zone_witness :
  let c :=
    session Sample.Blob Sample.size Sample.toBlob AppSample.exif true
      AppSample.page [Change [Sample.photo 4000 3000]; RotateRightClick] in
  files c <> [] /\
  dropZone_hidden (page c) = true /\ editorSection_hidden (page c) = false.
Proof.
  cbv zeta.
  assert (files
            (session Sample.Blob Sample.size Sample.toBlob AppSample.exif true
               AppSample.page [Change [Sample.photo 4000 3000]; RotateRightClick])
          <> []) as H by discriminate.
  split; [exact H|].
  exact (listed_files_hide_the_drop_zone Sample.Blob Sample.size Sample.toBlob
           AppSample.exif true AppSample.page
           [Change [Sample.photo 4000 3000]; RotateRightClick] H).
Defined.

Example digits_beyond_the_range :
  parseInt_result (Some (10 ^ 400)) = ImageProcessor.Num (Inf false) /\
  parseInt_result (Some (- 10 ^ 400)) = ImageProcessor.Num (Inf true).
Proof. split; vm_compute; reflexivity. Qed.

Example digits_that_need_rounding :
  parseInt_result (Some (2 ^ 53 + 1)) = ImageProcessor.Num (of_Z (2 ^ 53)) /\
  parseInt_result (Some 800) = ImageProcessor.Num (of_Z 800) /\
  parseInt_result (Some (-5)) = ImageProcessor.Num (of_Z (-5)).
Proof. repeat split; vm_compute; reflexivity. Qed.

Example width_input_infinity :
  targetWidth
    (state (session Sample.Blob Sample.size Sample.toBlob AppSample.exif true
              AppSample.page [WidthInput (Some (10 ^ 400))]))
  = ImageProcessor.Num (Inf false).
Proof. vm_compute. reflexivity. Qed.

Example sample_session_run :
  let '(c, effects) :=
    handleDownload Sample.Blob Sample.size Sample.toBlob
      (AppSample.controller [Sample.photo 4000 3000]) in
  map originalOrientation (files c) = [6] /\
  match effects with
  | [SaveBlob (Entry b) filename] =>
      filename = "photo_fixed.jpg" /\
      Spec.sized (Sample.of_canvas b) 3000 4000
  | _ => False
  end.
Proof. vm_compute. repeat split. Qed.

End AppFacts.
